(** * steam-hss-data: the snapshot resolver, the two page parsers and the
      normalizer of [main.py], embedded as Rocq functions.

    Conventions of the embedding.
    - A Python [str] is a [string]: a sequence of 8-bit characters, read as
      the code points U+0000..U+00FF.  On that range [str.strip] and the
      regex class [\s] take the characters 9..13, 28..32, 0x85 and 0xA0 as
      white space, and the regex class [\d] is [0-9]; [float] has its own,
      smaller white space ([PyFloat.py_isspace]).
    - A Python exception is a value of [exn]; code that can raise returns a
      [result].
    - A [dict] is an association list in insertion order with unique keys
      ([PyDict]).
    - The [re] module is a small backtracking matcher ([Re]) for the
      constructs the program's patterns use.
    - A float is the decimal it was read from ([pyfloat]); rounding to
      binary64 is not modelled (the program only parses and carries the
      values).
    - BeautifulSoup is seen through the answers to the queries the parsers
      make ([soup]); pandas through the rows of the frame.  Where
      [pd.read_json] may turn labels or names into numbers or time stamps,
      and where [to_parquet] may refuse a frame, the library's answer is a
      parameter of the model ([pandas]). *)

From Stdlib Require Import String Ascii List ZArith NArith Arith Bool Lia.
Import ListNotations.

Set Implicit Arguments.
Local Open Scope string_scope.
Local Open Scope list_scope.

(** ** Exceptions and results *)

Inductive exn : Type :=
| AttributeError
| ValueError
| KeyError
| TypeError
| ConnectionError.

Inductive result (A : Type) : Type :=
| Ok (a : A)
| Raise (e : exn).
Arguments Ok {A} a.
Arguments Raise {A} e.

Definition bind {A B : Type} (r : result A) (k : A -> result B) : result B :=
  match r with
  | Ok a => k a
  | Raise e => Raise e
  end.

Declare Scope py_scope.
Delimit Scope py_scope with py.
Notation "x <- c ;; k" := (bind c (fun x => k))
  (at level 61, c at next level, right associativity) : py_scope.
Local Open Scope py_scope.

(** A [for] loop whose body can raise: the first exception ends the loop. *)
Fixpoint for_each {A S : Type} (body : S -> A -> result S) (l : list A) (s : S)
  : result S :=
  match l with
  | [] => Ok s
  | x :: l' => s' <- body s x ;; for_each body l' s'
  end.

(** ** Strings *)

Module PyStr.

Definition chars (s : string) : list ascii := list_ascii_of_string s.
Definition str (l : list ascii) : string := string_of_list_ascii l.

Definition code (c : ascii) : N := N_of_ascii c.

(** [str.isspace] / regex [\s] on U+0000..U+00FF. *)
Definition isspace (c : ascii) : bool :=
  let n := code c in
  (((9 <=? n) && (n <=? 13)) || ((28 <=? n) && (n <=? 32))
   || (n =? 133) || (n =? 160))%N.

(** Regex [\d] and the decimal digits of [int] and [float] on
    U+0000..U+00FF. *)
Definition isdigit (c : ascii) : bool :=
  let n := code c in ((48 <=? n) && (n <=? 57))%N.

Definition digit_value (c : ascii) : N := (code c - 48)%N.

Definition newline : ascii := ascii_of_N 10.

(** regex [.] (without DOTALL). *)
Definition isdot (c : ascii) : bool := negb (Ascii.eqb c newline).

Definition is_char (a : ascii) (c : ascii) : bool := Ascii.eqb a c.

Definition one_of (cs : string) (c : ascii) : bool :=
  existsb (Ascii.eqb c) (chars cs).

Fixpoint lstrip_by (p : ascii -> bool) (l : list ascii) : list ascii :=
  match l with
  | c :: l' => if p c then lstrip_by p l' else l
  | [] => []
  end.

Definition rstrip_by (p : ascii -> bool) (l : list ascii) : list ascii :=
  rev (lstrip_by p (rev l)).

Definition strip_by (p : ascii -> bool) (l : list ascii) : list ascii :=
  rstrip_by p (lstrip_by p l).

(** [s.strip()] *)
Definition strip (s : string) : string := str (strip_by isspace (chars s)).

(** [s.strip(cs)] *)
Definition strip_chars (cs : string) (s : string) : string :=
  str (strip_by (one_of cs) (chars s)).

(** Is [p] a prefix of [l]? *)
Fixpoint starts_with (p l : list ascii) : bool :=
  match p, l with
  | [], _ => true
  | a :: p', b :: l' => Ascii.eqb a b && starts_with p' l'
  | _ :: _, [] => false
  end.

(** [int(s)] for a run of decimal digits. *)
Definition int_of_digits (l : list ascii) : N :=
  fold_left (fun acc c => (10 * acc + digit_value c)%N) l 0%N.

(** [f"{n}"] for a natural number. *)
Fixpoint digits_of_aux (fuel : nat) (n : N) (acc : list ascii) : list ascii :=
  match fuel with
  | O => acc
  | S fuel' =>
      let acc' := ascii_of_N (48 + n mod 10) :: acc in
      if (n <? 10)%N then acc' else digits_of_aux fuel' (n / 10)%N acc'
  end.

Definition digits_of (n : N) : list ascii :=
  digits_of_aux (S (N.to_nat (N.log2 n))) n [].

Definition of_N (n : N) : string := str (digits_of n).

(** [f"{n:02d}"]: at least two digits, padded with zeros on the left. *)
Definition of_N_02d (n : N) : string :=
  if (n <? 10)%N then String "0" (of_N n) else of_N n.

End PyStr.

(** ** The [re] module: a backtracking matcher

    The constructs are the ones of the program's patterns and of the
    patterns [datetime.strptime] builds: character classes, concatenation,
    ordered alternation, greedy bounded or unbounded repetition of a
    character class, named groups, negative look-behind of literal
    alternatives, and [$]. *)

Module Re.

Inductive re : Type :=
| Eps
| Cls (p : ascii -> bool)
| Cat (r1 r2 : re)
| Or (r1 r2 : re)
| Rep (p : ascii -> bool) (lo : nat) (hi : option nat)
| Group (name : string) (r : re)
| NotBehind (lits : list string)
| Dollar.

Definition captures : Type := list (string * string).

Section Matcher.
Variable R : Type.

(** A continuation receives the text before the position (reversed),
    the text from the position on, and the groups closed so far. *)
Definition cont : Type := list ascii -> list ascii -> captures -> option R.

(** Greedy repetition of a class: take one more character while
    allowed, and give characters back one at a time when the rest of
    the pattern fails. *)
Fixpoint many (p : ascii -> bool) (lo : nat) (hi : option nat)
    (before s : list ascii) (caps : captures) (k : cont) : option R :=
  let stop := match lo with O => k before s caps | S _ => None end in
  match s with
  | [] => stop
  | c :: s' =>
      let more :=
        match hi with
        | Some O => None
        | Some (S h) =>
            if p c then many p (pred lo) (Some h) (c :: before) s' caps k
            else None
        | None =>
            if p c then many p (pred lo) None (c :: before) s' caps k
            else None
        end in
      match more with
      | Some x => Some x
      | None => stop
      end
  end.

Fixpoint run (r : re) (before s : list ascii) (caps : captures) (k : cont)
  : option R :=
  match r with
  | Eps => k before s caps
  | Cls p =>
      match s with
      | c :: s' => if p c then k (c :: before) s' caps else None
      | [] => None
      end
  | Cat r1 r2 => run r1 before s caps (fun b s' cs => run r2 b s' cs k)
  | Or r1 r2 =>
      match run r1 before s caps k with
      | Some x => Some x
      | None => run r2 before s caps k
      end
  | Rep p lo hi => many p lo hi before s caps k
  | Group name r' =>
      run r' before s caps
        (fun b s' cs =>
           let text := rev (firstn (length b - length before) b) in
           k b s' ((name, PyStr.str text) :: cs))
  | NotBehind lits =>
      if existsb (fun lit => PyStr.starts_with (rev (PyStr.chars lit)) before) lits
      then None else k before s caps
  | Dollar =>
      match s with
      | [] => k before s caps
      | [c] => if Ascii.eqb c PyStr.newline then k before s caps else None
      | _ => None
      end
  end.
End Matcher.

(** A match object: where it starts, the matched text ([group(0)]) and the
    named groups. *)
Record match_obj : Type := {
  m_start : nat;
  m_text : string;
  m_groups : captures
}.

Definition group (name : string) (m : match_obj) : option string :=
  option_map snd (find (fun kv => String.eqb (fst kv) name) (m_groups m)).

(** The match starting exactly at the current position, if any. *)
Definition match_here (r : re) (before s : list ascii) : option match_obj :=
  run r before s []
    (fun b _ cs =>
       Some {| m_start := length before;
               m_text := PyStr.str (rev (firstn (length b - length before) b));
               m_groups := cs |}).

Fixpoint search_from (r : re) (before s : list ascii) : option match_obj :=
  match match_here r before s with
  | Some m => Some m
  | None =>
      match s with
      | [] => None
      | c :: s' => search_from r (c :: before) s'
      end
  end.

(** [re.match(r, s)] *)
Definition re_match (r : re) (s : string) : option match_obj :=
  match_here r [] (PyStr.chars s).

(** [re.search(r, s)] *)
Definition search (r : re) (s : string) : option match_obj :=
  search_from r [] (PyStr.chars s).

(** [re.sub(r, repl, s)] for a pattern that matches no empty string: the
    leftmost match is replaced and the scan resumes after it; [skip]
    counts the characters of the last match still to pass over. *)
Fixpoint sub_from (r : re) (repl : list ascii) (before s : list ascii)
    (skip : nat) : list ascii :=
  match s with
  | [] => []
  | c :: s' =>
      match skip with
      | S n => sub_from r repl (c :: before) s' n
      | O =>
          match match_here r before s with
          | Some m =>
              match String.length (m_text m) with
              | O => c :: sub_from r repl (c :: before) s' 0
              | S n => repl ++ sub_from r repl (c :: before) s' n
              end
          | None => c :: sub_from r repl (c :: before) s' 0
          end
      end
  end.

Definition sub (r : re) (repl : string) (s : string) : string :=
  PyStr.str (sub_from r (PyStr.chars repl) [] (PyStr.chars s) 0).

(** Pattern building blocks. *)
Definition lit_char (c : ascii) : re := Cls (PyStr.is_char c).
Definition digit : re := Cls PyStr.isdigit.
Definition range (lo hi : ascii) : re :=
  Cls (fun c => (PyStr.code lo <=? PyStr.code c)%N && (PyStr.code c <=? PyStr.code hi)%N).
Fixpoint seq (rs : list re) : re :=
  match rs with
  | [] => Eps
  | [r] => r
  | r :: rs' => Cat r (seq rs')
  end.
Fixpoint alt (rs : list re) : re :=
  match rs with
  | [] => Cls (fun _ => false)
  | [r] => r
  | r :: rs' => Or r (alt rs')
  end.

End Re.

(** [_RE_PERC = re.compile(r"(?<!(\-|\+|\())\d{1,3}\.\d{2}\%")] *)
Definition _RE_PERC : Re.re :=
  Re.seq [ Re.NotBehind ["-"; "+"; "("];
           Re.Rep PyStr.isdigit 1 (Some 3);
           Re.lit_char ".";
           Re.Rep PyStr.isdigit 2 (Some 2);
           Re.lit_char "%" ].

(** [_RETRY_SLEEP = 5] *)
Definition _RETRY_SLEEP : Z := 5.

(** ** [float(s)]

    The grammar is the one of the language reference: surrounding white
    space, an optional sign, then [inf], [infinity] or [nan] in any case, or
    a decimal number with an optional exponent; one underscore may stand
    between two digits.  The white space is not the one of [str.strip]:
    [float] turns the non-ASCII spaces (here U+0085 and U+00A0) into blanks
    and then strips with [Py_ISSPACE], which knows the characters 9..13 and
    32 only; the separators U+001C..U+001F stay and make the text no
    number. *)

Inductive pyfloat : Type :=
| PyFinite (negative : bool) (digits : N) (exp10 : Z)
    (* (-1)^negative * digits * 10^exp10 *)
| PyInf (negative : bool)
| PyNaN.

Module PyFloat.
Import PyStr.

Definition lower (c : ascii) : ascii :=
  let n := code c in
  if ((65 <=? n) && (n <=? 90))%N then ascii_of_N (n + 32) else c.

Definition is_word (w : string) (l : list ascii) : bool :=
  String.eqb (str (map lower l)) w.

(** The white space [float] strips at both ends. *)
Definition py_isspace (c : ascii) : bool :=
  let n := code c in
  (((9 <=? n) && (n <=? 13)) || (n =? 32) || (n =? 133) || (n =? 160))%N.

(** [digitpart ::= digit (["_"] digit)*]: the digits read and the rest. *)
Fixpoint digitpart_tail (l : list ascii) : list ascii * list ascii :=
  match l with
  | c :: l' =>
      if isdigit c then
        let (ds, rest) := digitpart_tail l' in (c :: ds, rest)
      else if Ascii.eqb c "_" then
        match l' with
        | d :: _ =>
            if isdigit d then digitpart_tail l' else ([], l)
        | [] => ([], l)
        end
      else ([], l)
  | [] => ([], [])
  end.

Definition digitpart (l : list ascii) : option (list ascii * list ascii) :=
  match l with
  | c :: _ => if isdigit c then Some (digitpart_tail l) else None
  | [] => None
  end.

Definition sign (l : list ascii) : bool * list ascii :=
  match l with
  | c :: l' =>
      if Ascii.eqb c "-" then (true, l')
      else if Ascii.eqb c "+" then (false, l')
      else (false, l)
  | [] => (false, [])
  end.

(** [number ::= [digitpart] "." digitpart | digitpart ["."]]: the digits
    before and after the point, and the rest. *)
Definition number (l : list ascii)
  : option (list ascii * list ascii * list ascii) :=
  match digitpart l with
  | Some (ip, rest) =>
      match rest with
      | c :: rest' =>
          if Ascii.eqb c "." then
            match digitpart rest' with
            | Some (fp, rest'') => Some (ip, fp, rest'')
            | None => Some (ip, [], rest')
            end
          else Some (ip, [], rest)
      | [] => Some (ip, [], [])
      end
  | None =>
      match l with
      | c :: rest =>
          if Ascii.eqb c "." then
            match digitpart rest with
            | Some (fp, rest') => Some ([], fp, rest')
            | None => None
            end
          else None
      | [] => None
      end
  end.

(** [exponent ::= ("e" | "E") [sign] digitpart], or nothing; what follows
    must be the end of the text. *)
Definition exponent (l : list ascii) : option Z :=
  match l with
  | [] => Some 0%Z
  | c :: l' =>
      if Ascii.eqb (lower c) "e" then
        let (neg, l'') := sign l' in
        match digitpart l'' with
        | Some (ds, []) =>
            let e := Z.of_N (int_of_digits ds) in
            Some (if neg then (- e)%Z else e)
        | _ => None
        end
      else None
  end.

Definition absfloatvalue (neg : bool) (l : list ascii) : option pyfloat :=
  if is_word "inf" l || is_word "infinity" l then Some (PyInf neg)
  else if is_word "nan" l then Some PyNaN
  else
    match number l with
    | Some (ip, fp, rest) =>
        match exponent rest with
        | Some e =>
            Some (PyFinite neg (int_of_digits (ip ++ fp))
                    (e - Z.of_nat (length fp)))
        | None => None
        end
    | None => None
    end.

(** [float(s)]: [None] stands for the [ValueError]. *)
Definition parse (s : string) : option pyfloat :=
  let (neg, l) := sign (strip_by py_isspace (chars s)) in
  absfloatvalue neg l.

End PyFloat.

Definition float (s : string) : result pyfloat :=
  match PyFloat.parse s with
  | Some v => Ok v
  | None => Raise ValueError
  end.

(** ** [dict]: association lists in insertion order *)

Module PyDict.
Section Dict.
Variable V : Type.

Definition dict : Type := list (string * V).

Fixpoint get (k : string) (d : dict) : option V :=
  match d with
  | [] => None
  | (k', v) :: d' => if String.eqb k k' then Some v else get k d'
  end.

(** [k in d] *)
Definition mem (k : string) (d : dict) : bool :=
  match get k d with Some _ => true | None => false end.

(** [d[k] = v]: an existing key keeps its place, a new one goes last. *)
Fixpoint set (k : string) (v : V) (d : dict) : dict :=
  match d with
  | [] => [(k, v)]
  | (k', v') :: d' =>
      if String.eqb k k' then (k, v) :: d' else (k', v') :: set k v d'
  end.

Definition keys (d : dict) : list string := map fst d.
Definition values (d : dict) : list V := map snd d.

(** [d[k]] *)
Definition item (k : string) (d : dict) : result V :=
  match get k d with
  | Some v => Ok v
  | None => Raise KeyError
  end.
End Dict.
End PyDict.

(** [more_itertools.grouper(iterable, n, fillvalue=None)]: runs of [n]
    items, the last one filled up with [None]. *)
Fixpoint grouper_aux {A : Type} (n : nat) (cur : list (option A)) (room : nat)
    (l : list A) : list (list (option A)) :=
  match l with
  | [] =>
      match cur with
      | [] => []
      | _ :: _ => [cur ++ repeat None room]
      end
  | x :: l' =>
      match room with
      | 0 | 1 => (cur ++ [Some x]) :: grouper_aux n [] n l'
      | S room' => grouper_aux n (cur ++ [Some x]) room' l'
      end
  end.

Definition grouper {A : Type} (iterable : list A) (n : nat)
  : list (list (option A)) :=
  match n with
  | 0 => []
  | _ => grouper_aux n [] n iterable
  end.

(** ** [datetime.strptime]

    [strptime] turns the format into a pattern, one named group per
    directive, matches it at the start of the text, refuses text left over,
    and builds the date, which checks the ranges. *)

Record datetime : Type := {
  dt_year : N;
  dt_month : N;
  dt_day : N;
  dt_hour : N;
  dt_minute : N;
  dt_second : N
}.

Module Strptime.
Import Re.

Inductive directive : Type := dY | dm | dd | dH | dM | dS.

Definition directive_name (d : directive) : string :=
  match d with
  | dY => "Y" | dm => "m" | dd => "d" | dH => "H" | dM => "M" | dS => "S"
  end.

(** The patterns of [_strptime.TimeRE]. *)
Definition directive_re (d : directive) : re :=
  Group (directive_name d)
    match d with
    | dY => seq [digit; digit; digit; digit]
    | dm => alt [ seq [lit_char "1"; range "0" "2"];
                  seq [lit_char "0"; range "1" "9"];
                  range "1" "9" ]
    | dd => alt [ seq [lit_char "3"; range "0" "1"];
                  seq [range "1" "2"; digit];
                  seq [lit_char "0"; range "1" "9"];
                  range "1" "9";
                  seq [lit_char " "; range "1" "9"] ]
    | dH => alt [ seq [lit_char "2"; range "0" "3"];
                  seq [range "0" "1"; digit];
                  digit ]
    | dM => alt [ seq [range "0" "5"; digit]; digit ]
    | dS => alt [ seq [lit_char "6"; range "0" "1"];
                  seq [range "0" "5"; digit];
                  digit ]
    end.

Definition format_regex (fmt : list directive) : re :=
  seq (map directive_re fmt).

(** [int(found_dict[name])], with the default when the directive is not
    in the format. *)
Definition field (name : string) (default : N) (m : match_obj) : N :=
  match group name m with
  | Some text =>
      PyStr.int_of_digits (PyStr.lstrip_by PyStr.isspace (PyStr.chars text))
  | None => default
  end.

Definition is_leap (y : N) : bool :=
  ((y mod 4 =? 0) && (negb (y mod 100 =? 0) || (y mod 400 =? 0)))%N.

Definition days_in_month (y m : N) : N :=
  (if m =? 2 then (if is_leap y then 29 else 28)
   else if (m =? 4) || (m =? 6) || (m =? 9) || (m =? 11) then 30
   else 31)%N.

(** The range checks of the [datetime] constructor. *)
Definition valid (t : datetime) : bool :=
  ((1 <=? dt_year t) && (dt_year t <=? 9999)
   && (1 <=? dt_month t) && (dt_month t <=? 12)
   && (1 <=? dt_day t) && (dt_day t <=? days_in_month (dt_year t) (dt_month t))
   && (dt_hour t <=? 23) && (dt_minute t <=? 59) && (dt_second t <=? 59))%N.

Definition strptime (data_string : string) (fmt : list directive)
  : result datetime :=
  match re_match (format_regex fmt) data_string with
  | None => Raise ValueError
  | Some found =>
      if negb (String.length data_string =? String.length (m_text found))%nat
      then Raise ValueError
      else
        let t := {| dt_year := field "Y" 1900 found;
                    dt_month := field "m" 1 found;
                    dt_day := field "d" 1 found;
                    dt_hour := field "H" 0 found;
                    dt_minute := field "M" 0 found;
                    dt_second := field "S" 0 found |} in
        if valid t then Ok t else Raise ValueError
  end.

(** ["%Y%m%d"], ["%Y%m%d%H%M%S"], ["%Y%m"] *)
Definition fmt_Ymd : list directive := [dY; dm; dd].
Definition fmt_YmdHMS : list directive := [dY; dm; dd; dH; dM; dS].
Definition fmt_Ym : list directive := [dY; dm].

End Strptime.

(** ** The snapshot resolver: [build_metadata]

    The archive is a script of answers, one per request; the program's
    effects are the requests and sleeps it performs, in order, and the rows
    it appends to the registry file. *)

Record snapshot : Type := {
  snap_url : string;
  snap_timestamp : string
}.

(** One answer of [http://archive.org/wayback/available]: the request or the
    decoding of its body raises, or [archived_snapshots] is [{}]
    ([Answer None]) or [{"closest": snapshot}]. *)
Inductive response : Type :=
| Failed (e : exn)
| Answer (archived_snapshots : option snapshot).

Record payload_t : Type := {
  p_url : string;
  p_timestamp : string
}.

Inductive event : Type :=
| Request (params : payload_t)
| Sleep (seconds : Z).

(** A row of [metadata_{subset}.csv]. *)
Record metadata_row : Type := {
  date_code : string;
  archive_url : option string;
  file_name : option string
}.

Record world : Type := {
  script : list response;
  registry : list metadata_row;
  trace : list event
}.

(** How a run ends: normally, with an exception, or still waiting for an
    answer when the script is used up. *)
Inductive outcome (A : Type) : Type :=
| Done (a : A) (w : world)
| Raised (e : exn) (w : world)
| Waiting (w : world).
Arguments Done {A} a w.
Arguments Raised {A} e w.
Arguments Waiting {A} w.

Definition final_world {A : Type} (o : outcome A) : world :=
  match o with
  | Done _ w | Raised _ w | Waiting w => w
  end.

Definition io (A : Type) : Type := world -> outcome A.

Definition io_ret {A : Type} (a : A) : io A := fun w => Done a w.

Definition io_bind {A B : Type} (m : io A) (k : A -> io B) : io B :=
  fun w =>
    match m w with
    | Done a w' => k a w'
    | Raised e w' => Raised e w'
    | Waiting w' => Waiting w'
    end.

Declare Scope io_scope.
Delimit Scope io_scope with io.
Notation "x <- c ;; k" := (io_bind c (fun x => k))
  (at level 61, c at next level, right associativity) : io_scope.
Notation "c ;;; k" := (io_bind c (fun _ => k))
  (at level 61, right associativity) : io_scope.

Definition io_lift {A : Type} (r : result A) : io A :=
  fun w =>
    match r with
    | Ok a => Done a w
    | Raise e => Raised e w
    end.

Definition log (ev : event) (w : world) : world :=
  {| script := script w; registry := registry w; trace := trace w ++ [ev] |}.

(** [time.sleep(seconds)] *)
Definition time_sleep (seconds : Z) : io unit :=
  fun w => Done tt (log (Sleep seconds) w).

(** [curr_df.to_csv(metadata_path, mode="a", ...)] *)
Definition append_row (row : metadata_row) : io unit :=
  fun w =>
    Done tt {| script := script w;
               registry := registry w ++ [row];
               trace := trace w |}.

(** Lines 51-55: the first lookup and the [while] loop.  [r] is
    [r.json()["archived_snapshots"]] of the last answer; every turn of the
    loop sleeps, asks again and counts. *)
Fixpoint retry_loop (payload : payload_t) (num_retry : Z)
    (r : option snapshot) (pending : list response)
    (reg : list metadata_row) (tr : list event) {struct pending}
  : outcome (snapshot * Z) :=
  match r with
  | Some closest =>
      Done (closest, num_retry)
        {| script := pending; registry := reg; trace := tr |}
  | None =>
      let tr' := tr ++ [Sleep (_RETRY_SLEEP * num_retry); Request payload] in
      match pending with
      | [] => Waiting {| script := []; registry := reg; trace := tr' |}
      | Failed e :: pending' =>
          Raised e {| script := pending'; registry := reg; trace := tr' |}
      | Answer r' :: pending' =>
          retry_loop payload (num_retry + 1) r' pending' reg tr'
      end
  end.

Definition lookup (payload : payload_t) (num_retry : Z) : io (snapshot * Z) :=
  fun w =>
    let tr := trace w ++ [Request payload] in
    match script w with
    | [] => Waiting {| script := []; registry := registry w; trace := tr |}
    | Failed e :: pending =>
        Raised e {| script := pending; registry := registry w; trace := tr |}
    | Answer r :: pending =>
        retry_loop payload num_retry r pending (registry w) tr
    end.

Definition base_url_platform : string :=
  "https://store.steampowered.com/hwsurvey?platform=".

(** Lines 41-46: the page the archive is asked about. *)
Definition query_url (subset : string) (year : N) : string :=
  if (year <? 2009)%N && String.eqb subset "combined"
  then "http://www.steampowered.com/status/survey.html"
  else if String.eqb subset "combined"
  then "https://store.steampowered.com/hwsurvey"
  else (base_url_platform ++ subset)%string.

(** Lines 59-67: the row for a month, from the query's time stamp and the
    snapshot found. *)
Definition new_data (dc : string) (payload : payload_t) (r_snapshot : snapshot)
  : result metadata_row :=
  payload_ts <- Strptime.strptime (p_timestamp payload) Strptime.fmt_Ymd ;;
  snapshot_ts <- Strptime.strptime (snap_timestamp r_snapshot) Strptime.fmt_YmdHMS ;;
  if (dt_month payload_ts =? dt_month snapshot_ts)%N
     && (dt_year payload_ts =? dt_year snapshot_ts)%N
  then Ok {| date_code := dc;
             archive_url := Some (snap_url r_snapshot);
             file_name := Some (snap_timestamp r_snapshot ++ ".txt")%string |}
  else Ok {| date_code := dc; archive_url := None; file_name := None |}.

(** The body of the loop of [build_metadata] for one [(year, month)];
    [metadata] is the registry as read before the loop. *)
Definition resolve_month (subset : string) (metadata : list metadata_row)
    (ym : N * N) : io unit :=
  let (year, month) := ym in
  let dc := (PyStr.of_N year ++ PyStr.of_N_02d month)%string in
  let num_retry := 1%Z in
  if existsb (fun row => String.eqb (date_code row) dc) metadata
  then io_ret tt
  else
    let payload := {| p_url := query_url subset year;
                      p_timestamp := (dc ++ "15")%string |} in
    (found <- lookup payload num_retry ;;
     let r_snapshot := fst found in
     row <- io_lift (new_data dc payload r_snapshot) ;;
     append_row row ;;;
     time_sleep _RETRY_SLEEP)%io.

Fixpoint io_for_each {A : Type} (body : A -> io unit) (l : list A) : io unit :=
  match l with
  | [] => io_ret tt
  | x :: l' => (body x ;;; io_for_each body l')%io
  end.

(** [range(lo, hi)] *)
Definition range (lo hi : N) : list N :=
  map N.of_nat (List.seq (N.to_nat lo) (N.to_nat hi - N.to_nat lo)).

(** [itertools.product(a, b)] *)
Definition product {A B : Type} (a : list A) (b : list B) : list (A * B) :=
  flat_map (fun x => map (fun y => (x, y)) b) a.

(** [build_metadata(subset, reset_file, year_start, year_end)]; the world's
    [registry] is the content of the metadata file ([file_exists] tells
    whether it is there at all). *)
Definition build_metadata (subset : string) (reset_file : bool)
    (year_start year_end : N) (file_exists : bool) : io unit :=
  fun w =>
    let w0 :=
      if negb file_exists || reset_file
      then {| script := script w; registry := []; trace := trace w |}
      else w in
    let metadata := registry w0 in
    io_for_each (resolve_month subset metadata)
      (product (range year_start year_end) (range 1 13)) w0.

(** ** The page parsers

    A page is what BeautifulSoup answers to the parsers' queries; an element
    is its [.text]. *)

(** One [div] of class [capsule] or [capcontent]: [tree.find("b")] and the
    right-aligned cells of [tree.find("table")], [None] when the element is
    not there. *)
Record capsule : Type := {
  find_b : option string;
  find_table : option (list string)
}.

Record soup : Type := {
  (** [soup.find_all("div", class_=re.compile("capsule|capcontent"))] *)
  capsules : list capsule;
  (** [soup.find_all("div", {"id": ..._details})], each with the cells
      [tree.find_all("div", class_=cat_class)] *)
  cat_tree : list (list string);
  (** [soup.find_all("div", {"id": ..._stats_row, "onclick": ...})], each
      with [title.find("div", class_="stats_col_left")] *)
  cat_title : list (option string)
}.

(** A page's mapping: category -> (item -> value). *)
Definition data_json_t : Type := PyDict.dict (PyDict.dict pyfloat).

(** [element.text]: [None] has no attribute [text]. *)
Definition text (element : option string) : result string :=
  match element with
  | Some t => Ok t
  | None => Raise AttributeError
  end.

(** [data_json[cat][item] = value] *)
Definition set_item (cat item : string) (value : pyfloat)
    (data_json : data_json_t) : result data_json_t :=
  inner <- PyDict.item cat data_json ;;
  Ok (PyDict.set cat (PyDict.set item value inner) data_json).

(** Line 106 of [old_parser]: the width of a group of cells. *)
Definition cols (name : string) (agg_ram : bool) : nat :=
  if String.eqb name "RAM" && agg_ram then 4 else 3.

(** Lines 107-111: one group of cells of a legacy table. *)
Definition old_group (name : string) (data_json : data_json_t)
    (group : list (option string)) : result data_json_t :=
  match group with
  | left_ :: mid :: right_ :: _ =>
      left_text <- text left_ ;;
      let item := PyStr.strip left_text in
      right_text <- text right_ ;;
      value <- float (PyStr.strip_chars "%" right_text) ;;
      set_item name item value data_json
  | _ => Raise ValueError
  end.

Definition old_tree (agg_ram : bool) (data_json : data_json_t) (tree : capsule)
  : result data_json_t :=
  name <- text (find_b tree) ;;
  let name := PyStr.strip name in
  let data_json := PyDict.set name [] data_json in
  content <- match find_table tree with
             | Some cells => Ok cells
             | None => Raise AttributeError
             end ;;
  for_each (old_group name) (grouper content (cols name agg_ram)) data_json.

(** [old_parser(soup, agg_ram)] *)
Definition old_parser (s : soup) (agg_ram : bool) : result data_json_t :=
  for_each (old_tree agg_ram) (capsules s) [].

Definition os_total : string := "OS Version (total)".

(** Lines 139-152 of [modern_parser]: where an item's value goes. *)
Definition store (name item : string) (value : pyfloat)
    (data_json : data_json_t) : result data_json_t :=
  if existsb (String.eqb item) ["Windows"; "OSX"; "Linux"] then
    if String.eqb item "Windows" then
      let data_json :=
        if negb (PyDict.mem os_total data_json)
        then PyDict.set os_total [] data_json
        else data_json in
      set_item os_total item value data_json
    else
      if negb (PyDict.mem os_total data_json)
      then set_item name item value data_json
      else set_item os_total item value data_json
  else set_item name item value data_json.

(** Lines 136-137: the value of a cell; [None] has no attribute [group]. *)
Definition perc_value (right_text : string) : result pyfloat :=
  match Re.search _RE_PERC right_text with
  | None => Raise AttributeError
  | Some value => float (PyStr.strip_chars "%" (Re.m_text value))
  end.

(** Lines 134-152: one group of cells of a modern detail block. *)
Definition modern_group (name : string) (data_json : data_json_t)
    (group : list (option string)) : result data_json_t :=
  match group with
  | [left_; mid; right_] =>
      left_text <- text left_ ;;
      item <- (if negb (String.eqb (PyStr.strip left_text) "")
               then Ok (PyStr.strip left_text)
               else mid_text <- text mid ;; Ok (PyStr.strip mid_text)) ;;
      right_text <- text right_ ;;
      value <- perc_value right_text ;;
      store name item value data_json
  | _ => Raise ValueError
  end.

Definition modern_tree (data_json : data_json_t)
    (pair : list string * option string) : result data_json_t :=
  let (tree, title) := pair in
  name <- text title ;;
  let name := PyStr.strip name in
  let data_json := PyDict.set name [] data_json in
  for_each (modern_group name) (grouper tree 3) data_json.

(** [modern_parser(soup)] *)
Definition modern_parser (s : soup) : result data_json_t :=
  for_each modern_tree (combine (cat_tree s) (cat_title s)) [].

(** Lines 170-175 of [parse_data_content]: the layout and the [agg_ram]
    flag follow the page's date. *)
Definition is_modern (year month : Z) : bool :=
  ((year =? 2008) && (month =? 12) || (2008 <? year))%Z.

Definition agg_ram_of (year month : Z) : bool :=
  ((year =? 2005) && (7 <? month))%Z.

Definition parse_page (year month : Z) (s : soup) : result data_json_t :=
  if is_modern year month then modern_parser s
  else
    let agg_ram := agg_ram_of year month in
    old_parser s agg_ram.

(** ** The normalizer: [clean_and_normalize] *)

(** What [raise] is given: an exception, or (line 188) a plain [str]. *)
Inductive raised : Type :=
| AnException (e : exn)
| AString (s : string).

(** [raise obj]: an object that is not an exception cannot be raised, the
    statement raises [TypeError] ("exceptions must derive from
    BaseException") in its place. *)
Definition py_raise {A : Type} (obj : raised) : result A :=
  match obj with
  | AnException e => Raise e
  | AString _ => Raise TypeError
  end.

(** [\s{1,}\(.+(?<!total)\).*$] (line 216) *)
Definition _RE_CATEGORY : Re.re :=
  Re.seq [ Re.Rep PyStr.isspace 1 None;
           Re.lit_char "(";
           Re.Rep PyStr.isdot 1 None;
           Re.NotBehind ["total"];
           Re.lit_char ")";
           Re.Rep PyStr.isdot 0 None;
           Re.Dollar ].

(** [\&lt] (line 219) *)
Definition _RE_LT : Re.re :=
  Re.seq [ Re.lit_char "&"; Re.lit_char "l"; Re.lit_char "t" ].

(** Lines 222-228. *)
Definition cat_rename : PyDict.dict string :=
  [ ("RAM", "System RAM");
    ("Processor Count", "Physical CPUs");
    ("FreeHD", "Free Hard Drive Space");
    ("TotalHD", "Total Hard Drive Space");
    ("DirectX10 Systems", "DirectX 10 Systems") ].

(** [Series.replace(mapping)] on one value. *)
Definition replace_value (mapping : PyDict.dict string) (v : string) : string :=
  match PyDict.get v mapping with
  | Some v' => v'
  | None => v
  end.

(** Lines 215-217 and 229 on one category title. *)
Definition clean_category (c : string) : string :=
  replace_value cat_rename (Re.sub _RE_CATEGORY "" c).

(** Line 219 on one label. *)
Definition clean_index (i : string) : string := Re.sub _RE_LT "<" i.

Definition dt_fields (t : datetime) : list N :=
  [dt_year t; dt_month t; dt_day t; dt_hour t; dt_minute t; dt_second t].

Fixpoint lex_ltb (a b : list N) : bool :=
  match a, b with
  | x :: a', y :: b' => (x <? y)%N || ((x =? y)%N && lex_ltb a' b')
  | [], _ :: _ => true
  | _, [] => false
  end.

(** [t1 < t2] on time stamps. *)
Definition dt_ltb (t1 t2 : datetime) : bool := lex_ltb (dt_fields t1) (dt_fields t2).

(** ["2010-06-01"] as a time stamp. *)
Definition june_2010 : datetime :=
  {| dt_year := 2010; dt_month := 6; dt_day := 1;
     dt_hour := 0; dt_minute := 0; dt_second := 0 |}.

(** [Path.cwd() / f"survey_data_{subset}.json"] *)
Definition data_path (subset : string) : string :=
  ("survey_data_" ++ subset ++ ".json")%string.

(** *** What [pd.read_json] makes of the labels and of the names

    [read_json] builds the frame and then tries to read its axes and its
    columns as something better than text ([convert_axes] and [dtype] are
    on by default; pandas/io/json/_json.py, [Parser._try_convert_data] and
    [_try_convert_to_date], in the 1.x releases of the program's time).
    - The index: [to_datetime(index, unit=...)] for the units s, ms, us, ns
      reads a label that is empty or one of [nat_strings] as [NaT] and any
      other label with [float], and raises when [float] refuses one; then
      [astype("float64")] is tried, which is [float] on every label.  So an
      index with one label that is neither empty, nor a [NaT] string, nor a
      number stays text; any other index may come back as time stamps or
      numbers.
    - A column of texts: [astype("float64")] is tried; the "category"
      column holds the name of the category in every row, so it stays text
      when [float] refuses the name. *)

(** [tslib.nat_strings] *)
Definition nat_strings : list string :=
  ["NaT"; "nat"; "NAT"; "nan"; "NaN"; "NAN"].

(** A label that keeps the index of its frame as text. *)
Definition text_only (label : string) : bool :=
  negb (String.eqb label "")
  && negb (existsb (String.eqb label) nat_strings)
  && match PyFloat.parse label with
     | None => true
     | Some _ => false
     end.

Section Normalizer.
(** The type of the numbers in the JSON file: the normalizer only carries
    them. *)
Variable V : Type.

(** The type of what [read_json] turns a text into when it converts it (a
    time stamp, [NaT], a number). *)
Variable T : Type.

(** The values of a report's keys: [date_code] holds a string, a category
    holds its items. *)
Inductive jvalue : Type :=
| JStr (s : string)
| JObj (items : PyDict.dict V).

Definition report : Type := PyDict.dict jvalue.

(** A label or a category name in the frame: the text of the JSON file, or
    what [read_json] has made of it. *)
Inductive cell : Type :=
| Text (s : string)
| Converted (t : T).

(** A row of the frame; [index] is the item label. *)
Record row : Type := {
  index : cell;
  perc : V;
  category : cell;
  date : datetime;
  platform : string
}.

(** What the program leaves to pandas and pyarrow.  [convert_index labels
    label] is the new label of [label] in an index [labels] that
    [read_json] may convert (the unit and the type are chosen for the whole
    index, the conversion goes label by label); [convert_column name] is
    what becomes of a category name that [float] reads; [to_parquet]
    writes the frame or raises. *)
Record pandas : Type := {
  convert_index : list string -> string -> cell;
  convert_column : string -> cell;
  to_parquet : list row -> result unit
}.

Variable pd : pandas.

(** The label [label] of an index [labels] after [read_json]. *)
Definition read_label (labels : list string) (label : string) : cell :=
  if existsb text_only labels then Text label
  else convert_index pd labels label.

(** The name of a category in the "category" column after [read_json]. *)
Definition read_name (cat : string) : cell :=
  match PyFloat.parse cat with
  | None => Text cat
  | Some _ => convert_column pd cat
  end.

(** [str(item["date_code"])] parsed with ["%Y%m"]; the text of a [dict]
    starts with a brace and is no date. *)
Definition date_of (v : jvalue) : result datetime :=
  match v with
  | JStr s => Strptime.strptime s Strptime.fmt_Ym
  | JObj _ => Raise ValueError
  end.

(** Lines 197-210: the frame of one category, one row for each item.
    [zip_longest] pairs every value with [cat]; for a category without
    items it yields the one pair [(cat, cat)], and [read_json] builds a
    frame on the empty index from it: a frame without rows, which gets its
    columns "date" and "platform" like any other. *)
Definition category_frame (subset : string) (item : report) (cat : string)
  : result (list row) :=
  v <- PyDict.item cat item ;;
  items <- match v with
           | JObj items => Ok items
           | JStr _ => Raise AttributeError
           end ;;
  dc <- PyDict.item "date_code" item ;;
  d <- date_of dc ;;
  Ok (map (fun kv => {| index := read_label (PyDict.keys items) (fst kv);
                        perc := snd kv;
                        category := read_name cat;
                        date := d;
                        platform := subset |}) items).

(** Lines 193-210: the frames of one report, in the order of its keys. *)
Definition report_frames (subset : string) (df_list : list (list row))
    (item : report) : result (list (list row)) :=
  _ <- PyDict.item "date_code" item ;;
  for_each (fun df_list cat =>
              if negb (existsb (String.eqb cat) ["date_code"])
              then df <- category_frame subset item cat ;;
                   Ok (df_list ++ [df])
              else Ok df_list)
           (PyDict.keys item) df_list.

(** [pd.concat(df_list, axis=0)] *)
Definition pd_concat (df_list : list (list row)) : result (list row) :=
  match df_list with
  | [] => Raise ValueError
  | _ :: _ => Ok (concat df_list)
  end.

(** [Series.replace] with a pattern or a mapping of texts: a cell that is
    no text is left as it is. *)
Definition on_text (f : string -> string) (c : cell) : cell :=
  match c with
  | Text s => Text (f s)
  | Converted t => Converted t
  end.

(** Lines 214-235 on one row. *)
Definition clean_row (subset : string) (r : row) : row :=
  {| index := on_text clean_index (index r);
     perc := perc r;
     category := on_text clean_category (category r);
     date := date r;
     platform := if String.eqb subset "combined" && dt_ltb (date r) june_2010
                 then "pc" else platform r |}.

(** Lines 193-212: the frame before the clean-up. *)
Definition raw_frame (subset : string) (data : list report) : result (list row) :=
  df_list <- for_each (report_frames subset) data [] ;;
  pd_concat df_list.

(** [clean_and_normalize(subset)]; [fs] gives the decoded content of the
    files that exist, and the result is the frame written to
    [steam_hw_survey_{subset}.parquet]. *)
Definition clean_and_normalize (fs : string -> option (list report))
    (subset : string) : result (list row) :=
  match fs (data_path subset) with
  | None =>
      py_raise (AString (data_path subset ++
        ": file not found, check you have parsed the content for this subset and the JSON file exists."))
  | Some data =>
      df <- raw_frame subset data ;;
      let out := map (clean_row subset) df in
      _ <- to_parquet pd out ;;
      Ok out
  end.

End Normalizer.

Arguments JStr {V} s.
Arguments JObj {V} items.
Arguments Text {T} s.
Arguments Converted {T} t.

(** ** [parse_data_content]: from the stored pages to the JSON reports *)

(** A row of the metadata frame with a file name, after lines 159-163, and
    the page BeautifulSoup reads from its file. *)
Record content_row : Type := {
  row_date_code : string;
  row_year : Z;
  row_month : Z;
  row_soup : soup
}.

(** Lines 176-178: a non-empty mapping gets its [date_code] and is kept. *)
Definition to_report (data_dict : data_json_t) (dc : string) : report pyfloat :=
  PyDict.set "date_code" (JStr dc)
    (map (fun kv => (fst kv, JObj (snd kv))) data_dict).

Definition parse_data_content (rows : list content_row)
  : result (list (report pyfloat)) :=
  for_each (fun steam_hw_survey row =>
              data_dict <- parse_page (row_year row) (row_month row) (row_soup row) ;;
              match data_dict with
              | [] => Ok steam_hw_survey
              | _ :: _ =>
                  Ok (steam_hw_survey ++ [to_report data_dict (row_date_code row)])
              end)
           rows [].

(** ** Notions the statements use *)

(** The characters that may not stand before a percentage. *)
Definition sign_or_paren (c : ascii) : Prop :=
  c = "-"%char \/ c = "+"%char \/ c = "("%char.

(** A percentage as the pattern reads it: the digits before the point, the
    point, two decimals and the percent sign. *)
Definition percentage (ds : list ascii) (d1 d2 : ascii) : string :=
  PyStr.str (ds ++ "."%char :: d1 :: d2 :: ["%"%char]).

(** A delta annotation: a signed percentage in parentheses. *)
Definition annotation (sign : ascii) (ds : list ascii) (d1 d2 : ascii) : string :=
  PyStr.str ("("%char :: sign :: ds ++ "."%char :: d1 :: d2 :: "%"%char :: [")"%char]).

Definition digit_chars : list ascii := PyStr.chars "0123456789".

(** No annotation with one digit before the point has a match. *)
Definition short_annotations_unmatched : bool :=
  forallb (fun sign =>
  forallb (fun d =>
  forallb (fun d1 =>
  forallb (fun d2 =>
    match Re.search _RE_PERC (annotation sign [d] d1 d2) with
    | None => true
    | Some _ => false
    end) digit_chars) digit_chars) digit_chars) ["+"%char; "-"%char].

(** [value] is what category [cat] of the mapping holds for [item]. *)
Definition stored_in (cat item : string) (value : pyfloat)
    (data_json : data_json_t) : Prop :=
  exists inner,
    PyDict.get cat data_json = Some inner /\ PyDict.get item inner = Some value.

(** A value cell (the third cell of a group) of a modern detail block whose
    text holds no percentage. *)
Definition modern_bad_cell (s : soup) : Prop :=
  exists tree title group cell,
    In (tree, title) (combine (cat_tree s) (cat_title s))
    /\ In group (grouper tree 3)
    /\ nth_error group 2 = Some (Some cell)
    /\ Re.search _RE_PERC cell = None.

(** A value cell of a legacy table whose text, without its percent signs, is
    no number. *)
Definition old_bad_cell (s : soup) (agg_ram : bool) : Prop :=
  exists tree name cells group cell,
    In tree (capsules s)
    /\ find_b tree = Some name
    /\ find_table tree = Some cells
    /\ In group (grouper cells (cols (PyStr.strip name) agg_ram))
    /\ nth_error group 2 = Some (Some cell)
    /\ PyFloat.parse (PyStr.strip_chars "%" cell) = None.

(** A registry row is a miss, or a hit whose snapshot was captured in the
    month and year of the query's mid-month time stamp; [answers] are the
    archive's answers. *)
Definition miss (row : metadata_row) : Prop :=
  archive_url row = None /\ file_name row = None.

Definition same_month_hit (answers : list response) (row : metadata_row) : Prop :=
  exists closest payload_ts snapshot_ts,
    In (Answer (Some closest)) answers
    /\ archive_url row = Some (snap_url closest)
    /\ file_name row = Some (snap_timestamp closest ++ ".txt")%string
    /\ Strptime.strptime (date_code row ++ "15") Strptime.fmt_Ymd = Ok payload_ts
    /\ Strptime.strptime (snap_timestamp closest) Strptime.fmt_YmdHMS = Ok snapshot_ts
    /\ dt_month snapshot_ts = dt_month payload_ts
    /\ dt_year snapshot_ts = dt_year payload_ts.

(** What a step of the resolver does to the world: it uses up answers from
    the front of the script and appends rows to the registry. *)
Definition advances (P : metadata_row -> Prop) (w w' : world) : Prop :=
  (exists used, script w = used ++ script w')
  /\ exists appended, registry w' = registry w ++ appended /\ Forall P appended.

(** The retries number [first], [first + 1], ... ([count] of them): before
    the n-th, a sleep of n times the base interval, then the same request. *)
Definition retry_events (payload : payload_t) (first count : nat) : list event :=
  flat_map (fun n => [Sleep (_RETRY_SLEEP * Z.of_nat n); Request payload])
           (List.seq first count).

(** The requests and sleeps of a lookup that is answered "no snapshot" [k]
    times: the first request, then the retries 1..k. *)
Definition backoff_trace (payload : payload_t) (k : nat) : list event :=
  Request payload :: retry_events payload 1 k.

Section RowNotions.
Variable V : Type.
Variable T : Type.
Variable pd : pandas V T.

(** The key of a row of the output table. *)
Definition row_key (r : row V T) : datetime * string * cell T * cell T :=
  (date r, platform r, category r, index r).

Definition is_category (cat : string) : bool :=
  negb (existsb (String.eqb cat) ["date_code"]).

(** The date of a report, when it has one. *)
Definition report_date (item : report V) : option datetime :=
  match PyDict.get "date_code" item with
  | Some v => match date_of v with Ok d => Some d | Raise _ => None end
  | None => None
  end.

(** The (category, label, value) entries of a report, in order. *)
Definition entries (item : report V) : list (string * string * V) :=
  flat_map (fun cat =>
              match PyDict.get cat item with
              | Some (JObj items) => map (fun kv => (cat, fst kv, snd kv)) items
              | _ => []
              end)
           (filter is_category (PyDict.keys item)).

(** The cleaned category and label of an entry. *)
Definition cleaned (e : string * string * V) : string * string :=
  (clean_category (fst (fst e)), clean_index (snd (fst e))).

(** The rows a category of a report adds to the frame. *)
Definition cat_rows (subset : string) (item : report V) (cat : string)
  : list (row V T) :=
  match PyDict.get cat item, report_date item with
  | Some (JObj items), Some d =>
      map (fun kv => {| index := read_label pd (PyDict.keys items) (fst kv);
                        perc := snd kv;
                        category := read_name pd cat;
                        date := d; platform := subset |}) items
  | _, _ => []
  end.

(** The rows of a report before the clean-up. *)
Definition rows_of (subset : string) (item : report V) : list (row V T) :=
  flat_map (cat_rows subset item) (filter is_category (PyDict.keys item)).

(** [read_json] leaves the names and the labels of a report as they are in
    the file: no category name is a number, and every category with items
    has a label that keeps its index as text. *)
Definition read_as_text (item : report V) : bool :=
  forallb (fun cat =>
             match PyDict.get cat item with
             | Some (JObj (kv :: items)) =>
                 match PyFloat.parse cat with
                 | None => existsb text_only (PyDict.keys (kv :: items))
                 | Some _ => false
                 end
             | _ => true
             end)
          (filter is_category (PyDict.keys item)).

(** The row of an entry whose name and label stay text. *)
Definition text_row (subset : string) (d : datetime) (e : string * string * V)
  : row V T :=
  {| index := Text (snd (fst e));
     perc := snd e;
     category := Text (fst (fst e));
     date := d;
     platform := subset |}.
End RowNotions.

(** ** Sample reports *)

Definition v12_5 : pyfloat := PyFinite false 125 (-1).
Definition v40_0 : pyfloat := PyFinite false 400 (-1).
Definition v41_0 : pyfloat := PyFinite false 410 (-1).

(** The report of December 2005 with the "RAM" category of the scenario. *)
Definition ram_2005 : report pyfloat :=
  [ ("RAM", JObj [("&lt 1 GB", v12_5); ("1 GB", v40_0)]);
    ("date_code", JStr "200512") ].

Definition dec_2005 : datetime :=
  {| dt_year := 2005; dt_month := 12; dt_day := 1;
     dt_hour := 0; dt_minute := 0; dt_second := 0 |}.

(** A pandas for the samples: an index and a name that may be converted
    are read as numbers, and every frame is written.  The samples below
    hold no such index and no such name, so these answers are not looked
    at when a sample is normalized. *)
Definition number_or_text (s : string) : cell pyfloat :=
  match PyFloat.parse s with
  | Some v => Converted v
  | None => Text s
  end.

Definition sample_pandas : pandas pyfloat pyfloat :=
  {| convert_index := fun _ label => number_or_text label;
     convert_column := number_or_text;
     to_parquet := fun _ => Ok tt |}.

Definition ram_row (label : string) (value : pyfloat) : row pyfloat pyfloat :=
  {| index := Text label; perc := value; category := Text "System RAM";
     date := dec_2005; platform := "pc" |}.

(** A report with a category without items beside the "RAM" category. *)
Definition ram_and_empty : report pyfloat :=
  [ ("RAM", JObj [("&lt 1 GB", v12_5); ("1 GB", v40_0)]);
    ("OS Version", JObj []);
    ("date_code", JStr "200512") ].

(** The text [cell] with a leading U+001C (a separator that [str.strip]
    takes for white space and [float] does not). *)
Definition with_separator (cell : string) : string :=
  String (ascii_of_N 28) cell.

(** A report with a legacy and a modern name of the same category. *)
Definition ram_twice : report pyfloat :=
  [ ("RAM", JObj [("1 GB", v40_0)]);
    ("System RAM", JObj [("1 GB", v41_0)]);
    ("date_code", JStr "200512") ].

(** ** The rest of the program: notions of the resolver *)

(** [f"{year}{month:02d}"] (line 33). *)
Definition date_code_of (ym : N * N) : string :=
  (PyStr.of_N (fst ym) ++ PyStr.of_N_02d (snd ym))%string.

(** [metadata["date_code"].isin([date_code]).any()] (line 35). *)
Definition resolved (metadata : list metadata_row) (dc : string) : bool :=
  existsb (fun row => String.eqb (date_code row) dc) metadata.

(** The months of a run that the registry does not hold at its start. *)
Definition unresolved (metadata : list metadata_row) (months : list (N * N))
  : list (N * N) :=
  filter (fun ym => negb (resolved metadata (date_code_of ym))) months.

Definition is_done {A : Type} (o : outcome A) : bool :=
  match o with Done _ _ => true | _ => false end.

(** ** [download_web_content]

    The directory [save_path / subset] is the mapping from the names of its
    files to their text; the names are the plain names [build_metadata]
    writes (a time stamp and [.txt]).  The web answers a URL with the text
    of the page, or the request raises. *)

(** [save_path]: a [Path] (the default of [--save_path]), or the [str] that
    [argparse] makes of a value given on the command line. *)
Inductive save_path_t : Type :=
| APath (p : string)
| AStr (s : string).

Inductive dl_event : Type :=
| Fetch (url : string)
| Pause (seconds : Z).

Record disk : Type := {
  files : PyDict.dict string;
  dl_trace : list dl_event
}.

(** Lines 86-94: one row of the registry.  A row without [archive_url] is
    passed over; [content_path / row.file_name] needs a [str]. *)
Definition download_row (web : string -> result string) (overwrite : bool)
    (d : disk) (row : metadata_row) : disk * result unit :=
  match archive_url row with
  | None => (d, Ok tt)
  | Some url =>
      match file_name row with
      | None => (d, Raise TypeError)
      | Some name =>
          if negb (PyDict.mem name (files d)) || overwrite then
            match web url with
            | Raise e =>
                ({| files := files d; dl_trace := dl_trace d ++ [Fetch url] |},
                 Raise e)
            | Ok page =>
                ({| files := PyDict.set name page (files d);
                    dl_trace := dl_trace d ++ [Fetch url; Pause 3] |},
                 Ok tt)
            end
          else (d, Ok tt)
      end
  end.

Fixpoint download_rows (web : string -> result string) (overwrite : bool)
    (rows : list metadata_row) (d : disk) : disk * result unit :=
  match rows with
  | [] => (d, Ok tt)
  | row :: rows' =>
      match download_row web overwrite d row with
      | (d', Ok _) => download_rows web overwrite rows' d'
      | (d', Raise e) => (d', Raise e)
      end
  end.

(** [download_web_content(save_path, subset, overwrite)]; [metadata] is the
    content of [metadata_{subset}.csv], read first, and [d] the directory
    [save_path / subset], empty when it was made by [mkdir].  Only a [Path]
    has the operator [/]. *)
Definition download_web_content (save_path : save_path_t) (overwrite : bool)
    (web : string -> result string) (metadata : list metadata_row) (d : disk)
  : disk * result unit :=
  match save_path with
  | AStr _ => (d, Raise TypeError)
  | APath _ => download_rows web overwrite metadata d
  end.

(** ** The JSON files and [parse_current_month] *)

(** The files [survey_data_{subset}.json] that exist, with their decoded
    content. *)
Definition survey_files : Type := PyDict.dict (list (report pyfloat)).

(** What [clean_and_normalize] sees of the files. *)
Definition read_files (store : survey_files)
  : string -> option (list (report pyfloat)) :=
  fun path => PyDict.get path store.

(** Lines 180-181 and 255-256: [json.dump] to
    [survey_data_{subset}.json], opened with ["w"]. *)
Definition json_dump (subset : string) (steam_hw_survey : list (report pyfloat))
    (store : survey_files) : survey_files :=
  PyDict.set (data_path subset) steam_hw_survey store.

(** [parse_data_content] with the file it writes. *)
Definition parse_data_content_file (subset : string) (rows : list content_row)
    (store : survey_files) : result survey_files :=
  steam_hw_survey <- parse_data_content rows ;;
  Ok (json_dump subset steam_hw_survey store).

(** [parse_current_month(subset)]; [page] is the answer of the store page
    read by BeautifulSoup (or the request raises) and [today] is
    [datetime.today().strftime("%Y%m")]. *)
Definition parse_current_month (subset : string) (page : result soup)
    (today : string) (store : survey_files) : result survey_files :=
  s <- page ;;
  data_dict <- modern_parser s ;;
  let steam_hw_survey :=
    match data_dict with
    | [] => []
    | _ :: _ => [to_report data_dict today]
    end in
  Ok (json_dump subset steam_hw_survey store).

(** ** The command line *)

(** Lines 287-292. *)
Definition platform_year_start : PyDict.dict N :=
  [ ("combined", 2004%N); ("pc", 2010%N); ("mac", 2010%N); ("linux", 2014%N) ].

(** The values [--subset] accepts (line 270). *)
Definition subset_choices : list string :=
  ["all"; "combined"; "pc"; "mac"; "linux"].

(** Lines 294-296: the subsets a run goes through; [None] is [args.subset]
    when the option is not given. *)
Definition subsets_of (arg : option string) : list (option string) :=
  match arg with
  | Some s =>
      if String.eqb s "all"
      then [Some "combined"; Some "pc"; Some "mac"; Some "linux"]
      else [Some s]
  | None => [None]
  end.

(** [platform_year_start[subset_]] (line 300). *)
Definition year_start_of (subset_ : option string) : result N :=
  match subset_ with
  | Some s => PyDict.item s platform_year_start
  | None => Raise KeyError
  end.

(** The years [build_metadata] goes through when [main] calls it for
    [--subset arg]: [range(year_start, 2022)] for each subset in turn. *)
Definition years_queried (arg : option string) : result (list (list N)) :=
  for_each (fun acc subset_ =>
              year_start <- year_start_of subset_ ;;
              Ok (acc ++ [range year_start 2022]))
           (subsets_of arg) [].

(** ** A sample run of the resolver *)

(** A registry that holds March to December 2004, all misses. *)
Definition known_2004 : list metadata_row :=
  map (fun dc => {| date_code := dc; archive_url := None; file_name := None |})
      ["200403"; "200404"; "200405"; "200406"; "200407";
       "200408"; "200409"; "200410"; "200411"; "200412"].

Definition jan_2004 : snapshot :=
  {| snap_url := "http://web.archive.org/web/20040120/survey";
     snap_timestamp := "20040120101500" |}.

Definition mar_2004 : snapshot :=
  {| snap_url := "http://web.archive.org/web/20040302/survey";
     snap_timestamp := "20040302080000" |}.

Definition query_2004 (ts : string) : payload_t :=
  {| p_url := "http://www.steampowered.com/status/survey.html";
     p_timestamp := ts |}.

(** The archive has nothing for January twice, then a snapshot of January,
    and for February a snapshot of March. *)
Definition world_2004 : world :=
  {| script := [Answer None; Answer None; Answer (Some jan_2004);
                Answer (Some mar_2004)];
     registry := known_2004;
     trace := [] |}.

Definition world_2004_done : world :=
  {| script := [];
     registry := known_2004 ++
       [ {| date_code := "200401";
            archive_url := Some "http://web.archive.org/web/20040120/survey";
            file_name := Some "20040120101500.txt" |};
         {| date_code := "200402"; archive_url := None; file_name := None |} ];
     trace := [ Request (query_2004 "20040115"); Sleep 5;
                Request (query_2004 "20040115"); Sleep 10;
                Request (query_2004 "20040115"); Sleep 5;
                Request (query_2004 "20040215"); Sleep 5 ] |}.

(** ** A sample download *)

(** The web has the snapshot of January 2004 and nothing else. *)
Definition web_2004 (url : string) : result string :=
  if String.eqb url (snap_url jan_2004)
  then Ok "<html>survey of January 2004</html>"
  else Raise ConnectionError.

Definition disk_before : disk :=
  {| files := [("20031215000000.txt", "<html>an older page</html>")];
     dl_trace := [] |}.

Definition disk_after : disk :=
  {| files := [("20031215000000.txt", "<html>an older page</html>");
               ("20040120101500.txt", "<html>survey of January 2004</html>")];
     dl_trace := [Fetch (snap_url jan_2004); Pause 3] |}.

(** ** Notions of the parsers *)

(** The report a row of the registry gives, if its page has a mapping that
    is not empty; nothing otherwise. *)
Definition kept_report (row : content_row) : list (report pyfloat) :=
  match parse_page (row_year row) (row_month row) (row_soup row) with
  | Ok (c :: data_dict) => [to_report (c :: data_dict) (row_date_code row)]
  | _ => []
  end.

(** A mapping as a [dict] of [dict]s has it: no category twice, and in a
    category no item twice. *)
Definition unique_keys (data_json : data_json_t) : Prop :=
  NoDup (PyDict.keys data_json)
  /\ Forall (fun kv => NoDup (PyDict.keys (snd kv))) data_json.

(** A sample page in the modern layout, with one good and one bad block. *)
Definition page_good : soup :=
  {| capsules := [];
     cat_tree := [["1 GB"; ""; "40.00%"; "2 GB"; ""; "60.00% (+1.50%)"]];
     cat_title := [Some "System RAM"] |}.

Definition page_bad : soup :=
  {| capsules := [];
     cat_tree := [["Windows 10"; ""; "n/a"]];
     cat_title := [Some "OS Version"] |}.

Definition rows_2020 : list content_row :=
  [ {| row_date_code := "202001"; row_year := 2020; row_month := 1;
       row_soup := page_good |};
    {| row_date_code := "202002"; row_year := 2020; row_month := 2;
       row_soup := {| capsules := []; cat_tree := []; cat_title := [] |} |} ].

Definition report_202001 : report pyfloat :=
  [ ("System RAM", JObj [("1 GB", PyFinite false 4000 (-2));
                         ("2 GB", PyFinite false 6000 (-2))]);
    ("date_code", JStr "202001") ].

(** ** Notions of the normalizer *)

(** The date is before June 2010. *)
Definition before_june_2010 (d : datetime) : Prop :=
  (dt_year d < 2010 \/ (dt_year d = 2010 /\ dt_month d < 6))%N.

(** A report without categories: it has its ["date_code"] and no other
    key. *)
Definition no_category {V : Type} (item : report V) : Prop :=
  PyDict.mem "date_code" item = true
  /\ filter is_category (PyDict.keys item) = [].

(** * Properties *)

Unset Implicit Arguments.

(** ** Loops that can raise *)

(** An item on which the body raises from every state makes the loop raise. *)
Lemma for_each_raises {A S : Type} (body : S -> A -> result S) (l : list A) (x : A) :
  In x l ->
  (forall s, exists e, body s x = Raise e) ->
  forall s, exists e, for_each body l s = Raise e.
Proof.
  intros Hin Hbad. induction l as [|y l IH]; intros s; simpl.
  - destruct Hin.
  - destruct (body s y) as [s'|e] eqn:Hy; simpl.
    + destruct Hin as [-> | Hin].
      * destruct (Hbad s) as [e He]. congruence.
      * apply IH, Hin.
    + eauto.
Qed.

(** ** The percentage pattern *)

Lemma search_from_found (r : Re.re) (s before : list ascii) (m : Re.match_obj) :
  Re.search_from r before s = Some m ->
  exists pre post,
    s = pre ++ post /\ Re.match_here r (rev pre ++ before) post = Some m.
Proof.
  revert before. induction s as [|c s IH]; intros before H; simpl in H.
  - destruct (Re.match_here r before []) eqn:E; [|discriminate].
    exists [], []. injection H as <-. auto.
  - destruct (Re.match_here r before (c :: s)) eqn:E.
    + exists [], (c :: s). injection H as <-. auto.
    + destruct (IH _ H) as (pre & post & -> & Hm).
      exists (c :: pre), post. split; [reflexivity|].
      simpl. rewrite <- app_assoc. exact Hm.
Qed.

(** A successful run hands its continuation the text it consumed. *)
Lemma many_inv (R : Type) (p : ascii -> bool) (k : Re.cont R) (s : list ascii) :
  forall lo hi before caps x,
    Re.many p lo hi before s caps k = Some x ->
    exists consumed s',
      s = consumed ++ s' /\ k (rev consumed ++ before) s' caps = Some x.
Proof.
  induction s as [|c s IH]; intros lo hi before caps x H; simpl in H.
  - destruct lo; [|discriminate]. exists [], []. auto.
  - assert (Hstop : match lo with 0 => k before (c :: s) caps | S _ => None end = Some x ->
                    exists consumed s',
                      c :: s = consumed ++ s' /\ k (rev consumed ++ before) s' caps = Some x).
    { intros H0. destruct lo; [|discriminate]. exists [], (c :: s). auto. }
    assert (Hmore : forall hi',
               Re.many p (pred lo) hi' (c :: before) s caps k = Some x ->
               exists consumed s',
                 c :: s = consumed ++ s' /\ k (rev consumed ++ before) s' caps = Some x).
    { intros hi' H0. destruct (IH _ _ _ _ _ H0) as (cons & s' & -> & Hk).
      exists (c :: cons), s'. split; [reflexivity|].
      simpl. rewrite <- app_assoc. exact Hk. }
    destruct hi as [[|h]|]; [auto | |].
    + destruct (p c); [|auto].
      destruct (Re.many p (pred lo) (Some h) (c :: before) s caps k) eqn:E; [|auto].
      injection H as <-. eauto.
    + destruct (p c); [|auto].
      destruct (Re.many p (pred lo) None (c :: before) s caps k) eqn:E; [|auto].
      injection H as <-. eauto.
Qed.

Lemma run_inv (R : Type) (r : Re.re) :
  forall (k : Re.cont R) before s caps x,
    Re.run r before s caps k = Some x ->
    exists consumed s' cs,
      s = consumed ++ s' /\ k (rev consumed ++ before) s' cs = Some x.
Proof.
  induction r as [|p|r1 IH1 r2 IH2|r1 IH1 r2 IH2|p lo hi|name r IH|lits|];
    intros k before s caps x H; simpl in H.
  - exists [], s, caps. auto.
  - destruct s as [|c s]; [discriminate|]. destruct (p c); [|discriminate].
    exists [c], s, caps. auto.
  - destruct (IH1 _ _ _ _ _ H) as (c1 & s1 & cs1 & -> & H1).
    destruct (IH2 _ _ _ _ _ H1) as (c2 & s2 & cs2 & -> & H2).
    exists (c1 ++ c2), s2, cs2. split; [now rewrite app_assoc|].
    rewrite rev_app_distr, <- app_assoc. exact H2.
  - destruct (Re.run r1 before s caps k) eqn:E.
    + injection H as <-. eauto.
    + eauto.
  - destruct (many_inv _ _ _ _ _ _ _ _ _ H) as (c1 & s1 & -> & H1). eauto.
  - destruct (IH _ _ _ _ _ H) as (c1 & s1 & cs1 & -> & H1). eauto.
  - destruct (existsb _ lits); [discriminate|]. exists [], s, caps. auto.
  - destruct s as [|c [|c' s]].
    + exists [], [], caps. auto.
    + destruct (Ascii.eqb c PyStr.newline); [|discriminate]. exists [], [c], caps. auto.
    + discriminate.
Qed.

(** A match starts where it was tried and its text is what follows there. *)
Lemma match_here_inv (r : Re.re) (before s : list ascii) (m : Re.match_obj) :
  Re.match_here r before s = Some m ->
  Re.m_start m = length before
  /\ exists rest, s = PyStr.chars (Re.m_text m) ++ rest.
Proof.
  unfold Re.match_here. intros H.
  destruct (run_inv _ _ _ _ _ _ _ H) as (cons & s' & cs & -> & Hk).
  injection Hk as <-. simpl. split; [reflexivity|].
  exists s'. f_equal.
  rewrite length_app, length_rev, Nat.add_sub.
  rewrite <- (length_rev cons), firstn_app, Nat.sub_diag, firstn_all. simpl.
  rewrite app_nil_r, rev_involutive.
  unfold PyStr.chars, PyStr.str. now rewrite list_ascii_of_string_of_list_ascii.
Qed.

Lemma perc_look_behind (before s : list ascii) (m : Re.match_obj) :
  Re.match_here _RE_PERC before s = Some m ->
  existsb (fun lit => PyStr.starts_with (rev (PyStr.chars lit)) before)
    ["-"; "+"; "("] = false.
Proof.
  unfold Re.match_here, _RE_PERC. cbn [Re.seq Re.run].
  destruct (existsb _ _); [discriminate | reflexivity].
Qed.

(** C10: when the JSON file of the subset does not exist, the normalizer's
    [raise] of a plain string ends in a [TypeError]. *)
Theorem missing_file_raises_TypeError :
  forall (V T : Type) (pd : pandas V T)
         (fs : string -> option (list (report V))) (subset : string),
    fs (data_path subset) = None ->
    clean_and_normalize pd fs subset = Raise TypeError.
Proof.
  intros V T pd fs subset H. unfold clean_and_normalize. rewrite H. reflexivity.
Qed.

Lemma missing_file_raises_TypeError_witness :
  clean_and_normalize sample_pandas
    (fun _ : string => @None (list (report pyfloat))) "combined"
    = Raise TypeError.
Proof.
  apply (missing_file_raises_TypeError pyfloat pyfloat sample_pandas
           (fun _ => None) "combined").
  reflexivity.
Defined.

(** ** The width of the legacy groups *)

Lemma old_tree_groups (agg_ram : bool) (data_json : data_json_t) (tree : capsule)
    (name : string) (cells : list string) :
  find_b tree = Some name ->
  find_table tree = Some cells ->
  old_tree agg_ram data_json tree
    = for_each (old_group (PyStr.strip name))
        (grouper cells (cols (PyStr.strip name) agg_ram))
        (PyDict.set (PyStr.strip name) [] data_json).
Proof.
  intros Hb Ht. unfold old_tree. rewrite Hb, Ht. reflexivity.
Qed.

(** C3, as the claim states it, fails: a legacy page of January 2006 is
    dated after July 2005, and its "RAM" table is read in groups of 3. *)
Lemma ram_width_in_2006 :
  is_modern 2006 1 = false
  /\ (2005 < 2006)%Z
  /\ cols "RAM" (agg_ram_of 2006 1) = 3
  /\ (forall data_json cells,
        old_tree (agg_ram_of 2006 1) data_json
                 {| find_b := Some "RAM"; find_table := Some cells |}
          = for_each (old_group "RAM") (grouper cells 3)
              (PyDict.set "RAM" [] data_json)).
Proof.
  repeat split; reflexivity.
Qed.

(** C3, amended: a page read with the legacy layout has the tables of its
    blocks read in groups of [cols]; the width is 4 exactly for the category
    "RAM" on the pages of 2005 after July (August to December 2005), and 3
    for every other category and every other legacy page. *)
Theorem legacy_width :
  forall (year month : Z) (s : soup),
    is_modern year month = false ->
    parse_page year month s
      = for_each (old_tree (agg_ram_of year month)) (capsules s) []
    /\ (forall data_json tree name cells,
          find_b tree = Some name ->
          find_table tree = Some cells ->
          old_tree (agg_ram_of year month) data_json tree
            = for_each (old_group (PyStr.strip name))
                (grouper cells (cols (PyStr.strip name) (agg_ram_of year month)))
                (PyDict.set (PyStr.strip name) [] data_json))
    /\ (forall name,
          (cols name (agg_ram_of year month) = 4
           <-> name = "RAM" /\ year = 2005%Z /\ (7 < month)%Z)
          /\ (cols name (agg_ram_of year month) = 3
              <-> ~ (name = "RAM" /\ year = 2005%Z /\ (7 < month)%Z))).
Proof.
  intros year month s Hlegacy. split; [|split].
  - unfold parse_page. rewrite Hlegacy. reflexivity.
  - intros. now apply old_tree_groups.
  - intros name. unfold cols, agg_ram_of.
    destruct (String.eqb_spec name "RAM") as [->|Hn];
      destruct (Z.eqb_spec year 2005) as [->|Hy];
      destruct (Z.ltb_spec 7 month) as [Hm|Hm]; simpl;
      split; split; intros H; try discriminate; try tauto; try lia.
    all: try (intros (? & ? & ?); first [congruence | lia]).
Qed.

Lemma legacy_width_witness :
  cols "RAM" (agg_ram_of 2005 12) = 4 /\ cols "RAM" (agg_ram_of 2005 7) = 3.
Proof.
  split.
  - apply (proj1 (proj2 (proj2 (legacy_width 2005 12
             {| capsules := []; cat_tree := []; cat_title := [] |} eq_refl)) "RAM")).
    repeat split; reflexivity.
  - apply (proj2 (proj2 (proj2 (legacy_width 2005 7
             {| capsules := []; cat_tree := []; cat_title := [] |} eq_refl)) "RAM")).
    intros (_ & _ & H). discriminate H.
Defined.

(** ** Dictionaries *)

Lemma get_set_same (V : Type) (k : string) (v : V) (d : PyDict.dict V) :
  PyDict.get k (PyDict.set k v d) = Some v.
Proof.
  induction d as [|[k' v'] d IH]; simpl.
  - now rewrite String.eqb_refl.
  - destruct (String.eqb k k') eqn:E; simpl.
    + now rewrite String.eqb_refl.
    + now rewrite E.
Qed.

Lemma get_set_other (V : Type) (k k' : string) (v : V) (d : PyDict.dict V) :
  k <> k' ->
  PyDict.get k' (PyDict.set k v d) = PyDict.get k' d.
Proof.
  intros Hne. induction d as [|[k0 v0] d IH]; simpl.
  - destruct (String.eqb_spec k' k); [congruence | reflexivity].
  - destruct (String.eqb_spec k k0) as [E|Hk]; simpl.
    + subst k0. destruct (String.eqb_spec k' k); [congruence | reflexivity].
    + destruct (String.eqb_spec k' k0); [reflexivity | exact IH].
Qed.

Lemma mem_get (V : Type) (k : string) (d : PyDict.dict V) :
  PyDict.mem k d = true <-> exists v, PyDict.get k d = Some v.
Proof.
  unfold PyDict.mem. destruct (PyDict.get k d).
  - split; eauto.
  - split; [discriminate | intros [v H]; discriminate].
Qed.

Lemma get_In (V : Type) (k : string) (v : V) (d : PyDict.dict V) :
  PyDict.get k d = Some v -> In (k, v) d.
Proof.
  induction d as [|[k' v'] d IH]; simpl; [discriminate|].
  destruct (String.eqb_spec k k') as [->|Hk].
  - intros [= ->]. now left.
  - intros H. right. auto.
Qed.

Lemma get_In_keys (V : Type) (k : string) (v : V) (d : PyDict.dict V) :
  PyDict.get k d = Some v -> In k (PyDict.keys d).
Proof.
  intros H. apply get_In in H. unfold PyDict.keys.
  change k with (fst (k, v)). now apply in_map.
Qed.

(** [data_json[cat][item] = value] succeeds when the category is there, and
    then the value is stored in it; the other categories keep their content. *)
Lemma set_item_stores (cat item : string) (value : pyfloat)
    (data_json : data_json_t) :
  PyDict.mem cat data_json = true ->
  exists data_json',
    set_item cat item value data_json = Ok data_json'
    /\ stored_in cat item value data_json'
    /\ forall other, other <> cat ->
         PyDict.get other data_json' = PyDict.get other data_json.
Proof.
  intros Hmem. apply mem_get in Hmem as [inner Hget].
  unfold set_item, PyDict.item. rewrite Hget. simpl.
  eexists. split; [reflexivity|]. split.
  - exists (PyDict.set item value inner). split; apply get_set_same.
  - intros other Hne. apply get_set_other. congruence.
Qed.

(** C2: in the modern parser, for an item named after an OS family, in a
    mapping that has the current category [name]: "Windows" is stored in
    "OS Version (total)", which exists afterwards whether or not it existed
    before; "OSX" and "Linux" are stored in "OS Version (total)" when it
    exists at that point, and otherwise in the current category, without
    creating it.  So a page whose only block lists Linux and then Windows
    gets Linux in the block's own category and Windows in the total. *)
Theorem os_family_store :
  (forall (name item : string) (value : pyfloat) (data_json : data_json_t),
     In item ["Windows"; "OSX"; "Linux"] ->
     PyDict.mem name data_json = true ->
     exists data_json',
       store name item value data_json = Ok data_json'
       /\ (item = "Windows" -> stored_in os_total item value data_json')
       /\ (item <> "Windows" -> PyDict.mem os_total data_json = true ->
           stored_in os_total item value data_json')
       /\ (item <> "Windows" -> PyDict.mem os_total data_json = false ->
           stored_in name item value data_json'
           /\ PyDict.mem os_total data_json' = false))
  /\ modern_parser
       {| capsules := [];
          cat_tree := [["Linux"; ""; "1.00%"; "Windows"; ""; "95.00%"]];
          cat_title := [Some "OS Version"] |}
     = Ok [ ("OS Version", [("Linux", PyFinite false 100 (-2))]);
            ("OS Version (total)", [("Windows", PyFinite false 9500 (-2))]) ]
  /\ modern_parser
       {| capsules := [];
          cat_tree := [["Windows"; ""; "95.00%"; "OSX"; ""; "4.00%"; "Linux"; ""; "1.00%"]];
          cat_title := [Some "OS Version"] |}
     = Ok [ ("OS Version", []);
            ("OS Version (total)", [("Windows", PyFinite false 9500 (-2));
                                    ("OSX", PyFinite false 400 (-2));
                                    ("Linux", PyFinite false 100 (-2))]) ].
Proof.
  split; [|split; reflexivity].
  intros name item value data_json Hitem Hname.
  assert (Hfam : existsb (String.eqb item) ["Windows"; "OSX"; "Linux"] = true).
  { apply existsb_exists. exists item. split; [exact Hitem | apply String.eqb_refl]. }
  unfold store. rewrite Hfam.
  destruct (String.eqb_spec item "Windows") as [->|Hw].
  - destruct (PyDict.mem os_total data_json) eqn:Htot; simpl.
    + destruct (set_item_stores os_total "Windows" value _ Htot) as (d' & Hd' & Hst & _).
      exists d'. repeat split; auto; congruence.
    + assert (Hnew : PyDict.mem os_total (PyDict.set os_total [] data_json) = true).
      { apply mem_get. eexists. apply get_set_same. }
      destruct (set_item_stores os_total "Windows" value _ Hnew) as (d' & Hd' & Hst & _).
      exists d'. repeat split; auto; congruence.
  - destruct (PyDict.mem os_total data_json) eqn:Htot; simpl.
    + destruct (set_item_stores os_total item value _ Htot) as (d' & Hd' & Hst & _).
      exists d'. repeat split; auto; congruence.
    + destruct (set_item_stores name item value _ Hname) as (d' & Hd' & Hst & Hother).
      exists d'. split; [exact Hd'|]. split; [congruence|].
      split; [congruence|]. intros _ _. split; [exact Hst|].
      unfold PyDict.mem in *. rewrite Hother; [exact Htot|].
      intros <-. rewrite Htot in Hname. discriminate.
Qed.

Lemma os_family_store_witness :
  exists data_json',
    store "OS Version" "Linux" (PyFinite false 100 (-2)) [("OS Version", @nil (string * pyfloat))]
      = Ok data_json'
    /\ ("Linux" = "Windows" ->
        stored_in os_total "Linux" (PyFinite false 100 (-2)) data_json')
    /\ ("Linux" <> "Windows" -> PyDict.mem os_total [("OS Version", @nil (string * pyfloat))] = true ->
        stored_in os_total "Linux" (PyFinite false 100 (-2)) data_json')
    /\ ("Linux" <> "Windows" -> PyDict.mem os_total [("OS Version", @nil (string * pyfloat))] = false ->
        stored_in "OS Version" "Linux" (PyFinite false 100 (-2)) data_json'
        /\ PyDict.mem os_total data_json' = false).
Proof.
  apply (proj1 os_family_store "OS Version" "Linux" (PyFinite false 100 (-2))
           [("OS Version", @nil (string * pyfloat))]).
  - simpl. auto.
  - reflexivity.
Defined.

(** ** Malformed pages *)

Lemma modern_group_raises (name : string) (group : list (option string))
    (cell : string) :
  nth_error group 2 = Some (Some cell) ->
  Re.search _RE_PERC cell = None ->
  forall data_json, exists e, modern_group name data_json group = Raise e.
Proof.
  intros Hcell Hnone data_json.
  destruct group as [|l [|m [|r rest]]]; try discriminate.
  injection Hcell as ->.
  destruct rest; [|simpl; eauto].
  unfold modern_group. destruct l as [lt|]; simpl; [|eauto].
  assert (Hvalue : exists e, perc_value cell = Raise e :> result pyfloat).
  { unfold perc_value. rewrite Hnone. eauto. }
  destruct Hvalue as [e He].
  destruct (negb (String.eqb (PyStr.strip lt) "")); simpl.
  - rewrite He. simpl. eauto.
  - destruct m as [mt|]; simpl; [|eauto]. rewrite He. simpl. eauto.
Qed.

Lemma old_group_raises (name : string) (group : list (option string))
    (cell : string) :
  nth_error group 2 = Some (Some cell) ->
  PyFloat.parse (PyStr.strip_chars "%" cell) = None ->
  forall data_json, exists e, old_group name data_json group = Raise e.
Proof.
  intros Hcell Hnone data_json.
  destruct group as [|l [|m [|r rest]]]; try discriminate.
  injection Hcell as ->.
  unfold old_group. destruct l as [lt|]; simpl; [|eauto].
  unfold float. rewrite Hnone. simpl. eauto.
Qed.

(** C7: in both layouts, a page with a category whose value cell holds no
    percentage the layout can read makes the parse of the whole page raise;
    no mapping is returned. *)
Theorem malformed_page_raises :
  forall s : soup,
    (modern_bad_cell s -> exists e, modern_parser s = Raise e)
    /\ (forall agg_ram, old_bad_cell s agg_ram ->
          exists e, old_parser s agg_ram = Raise e).
Proof.
  intros s. split.
  - intros (tree & title & group & cell & Hpair & Hgroup & Hcell & Hnone).
    unfold modern_parser.
    apply for_each_raises with (x := (tree, title)); [exact Hpair|].
    intros data_json. unfold modern_tree.
    destruct title as [t|]; simpl; [|eauto].
    apply for_each_raises with (x := group); [exact Hgroup|].
    now apply modern_group_raises with (cell := cell).
  - intros agg_ram (tree & name & cells & group & cell & Htree & Hb & Ht & Hgroup & Hcell & Hnone).
    unfold old_parser.
    apply for_each_raises with (x := tree); [exact Htree|].
    intros data_json. rewrite (old_tree_groups _ _ _ _ _ Hb Ht).
    apply for_each_raises with (x := group); [exact Hgroup|].
    now apply old_group_raises with (cell := cell).
Qed.

Lemma malformed_page_raises_witness :
  (exists e,
     modern_parser
       {| capsules := [];
          cat_tree := [["1 GB"; ""; "40.00%"]; ["Windows 10"; ""; "n/a"]];
          cat_title := [Some "System RAM"; Some "OS Version"] |} = Raise e)
  /\ (exists e,
        old_parser
          {| capsules := [ {| find_b := Some "RAM";
                              find_table := Some ["1 GB"; ""; "40.0%";
                                                  "2 GB"; ""; "unknown"] |} ];
             cat_tree := [];
             cat_title := [] |} false = Raise e).
Proof.
  split.
  - apply (proj1 (malformed_page_raises _)).
    exists ["Windows 10"; ""; "n/a"], (Some "OS Version"),
           [Some "Windows 10"; Some ""; Some "n/a"], "n/a".
    repeat split; simpl; auto.
  - apply (proj2 (malformed_page_raises _)).
    exists {| find_b := Some "RAM";
              find_table := Some ["1 GB"; ""; "40.0%"; "2 GB"; ""; "unknown"] |},
           "RAM", ["1 GB"; ""; "40.0%"; "2 GB"; ""; "unknown"],
           [Some "2 GB"; Some ""; Some "unknown"], "unknown".
    repeat split; simpl; auto.
Defined.

(** A legacy value cell that starts with the separator U+001C: [float]
    refuses it, and so does the parse of the page. *)
Example separator_cell_raises :
  float (with_separator "7.5") = Raise ValueError
  /\ float " 7.5 " = Ok (PyFinite false 75 (-1))
  /\ old_parser
       {| capsules := [ {| find_b := Some "RAM";
                           find_table := Some ["1 GB"; ""; with_separator "7.5%"] |} ];
          cat_tree := [];
          cat_title := [] |} false = Raise ValueError.
Proof.
  repeat split; reflexivity.
Qed.

(** ** The retry loop *)

Lemma retry_loop_answered (payload : payload_t) (closest : snapshot)
    (pending : list response) (reg : list metadata_row) (j : nat) :
  forall (a : nat) (tr : list event),
    retry_loop payload (Z.of_nat a) None
      (repeat (Answer None) j ++ Answer (Some closest) :: pending) reg tr
    = Done (closest, Z.of_nat (a + j + 1))
        {| script := pending; registry := reg;
           trace := tr ++ retry_events payload a (S j) |}.
Proof.
  induction j as [|j IH]; intros a tr.
  - cbn [repeat app retry_loop].
    replace (Z.of_nat a + 1)%Z with (Z.of_nat (a + 0 + 1)) by lia.
    destruct pending; reflexivity.
  - cbn [repeat app retry_loop].
    replace (Z.of_nat a + 1)%Z with (Z.of_nat (S a)) by lia.
    rewrite IH. f_equal.
    + f_equal. lia.
    + f_equal. unfold retry_events. cbn [List.seq flat_map].
      now rewrite <- app_assoc.
Qed.

Lemma retry_loop_unanswered (payload : payload_t) (reg : list metadata_row)
    (j : nat) :
  forall (a : nat) (tr : list event),
    retry_loop payload (Z.of_nat a) None (repeat (Answer None) j) reg tr
    = Waiting {| script := []; registry := reg;
                 trace := tr ++ retry_events payload a (S j) |}.
Proof.
  induction j as [|j IH]; intros a tr.
  - reflexivity.
  - cbn [repeat retry_loop].
    replace (Z.of_nat a + 1)%Z with (Z.of_nat (S a)) by lia.
    rewrite IH. f_equal. f_equal. unfold retry_events. cbn [List.seq flat_map].
    now rewrite <- app_assoc.
Qed.

Lemma lookup_answered (payload : payload_t) (k : nat) (closest : snapshot)
    (pending : list response) (reg : list metadata_row) (tr : list event) :
  lookup payload 1
    {| script := repeat (Answer None) k ++ Answer (Some closest) :: pending;
       registry := reg; trace := tr |}
  = Done (closest, (1 + Z.of_nat k)%Z)
      {| script := pending; registry := reg;
         trace := tr ++ backoff_trace payload k |}.
Proof.
  unfold lookup, backoff_trace. cbn [script registry trace].
  destruct k as [|j]; cbn [repeat app].
  - destruct pending; reflexivity.
  - change 1%Z with (Z.of_nat 1) at 1. rewrite retry_loop_answered.
    f_equal.
    + f_equal. lia.
    + f_equal. now rewrite <- app_assoc.
Qed.

Lemma lookup_unanswered (payload : payload_t) (k : nat)
    (reg : list metadata_row) (tr : list event) :
  lookup payload 1
    {| script := repeat (Answer None) k; registry := reg; trace := tr |}
  = Waiting {| script := []; registry := reg;
               trace := tr ++ backoff_trace payload k |}.
Proof.
  unfold lookup, backoff_trace. cbn [script registry trace].
  destruct k as [|j]; cbn [repeat app].
  - reflexivity.
  - change 1%Z with (Z.of_nat 1). rewrite retry_loop_unanswered.
    f_equal. f_equal. now rewrite <- app_assoc.
Qed.

(** The delay before the n-th retry of a lookup. *)
Lemma backoff_trace_sleeps (payload : payload_t) (k : nat) :
  filter (fun ev => match ev with Sleep _ => true | Request _ => false end)
         (backoff_trace payload k)
  = map (fun n => Sleep (_RETRY_SLEEP * Z.of_nat n)) (List.seq 1 k).
Proof.
  unfold backoff_trace, retry_events. cbn [filter].
  generalize 1. induction k as [|k IH]; intros first; simpl; [reflexivity|].
  f_equal. apply IH.
Qed.

(** C8: a lookup that is answered "no archived snapshot" [k] times and then
    with a snapshot returns that snapshot, for every [k]; it has asked the
    same question [k + 1] times and slept, before the n-th retry, n times
    the base interval (5, 10, 15, ... seconds).  While the answers stay
    empty it keeps waiting, the next request sent: there is no last
    attempt. *)
Theorem lookup_backoff :
  forall (payload : payload_t) (k : nat) (reg : list metadata_row)
         (tr : list event),
    (forall closest pending,
       lookup payload 1
         {| script := repeat (Answer None) k ++ Answer (Some closest) :: pending;
            registry := reg; trace := tr |}
       = Done (closest, (1 + Z.of_nat k)%Z)
           {| script := pending; registry := reg;
              trace := tr ++ backoff_trace payload k |})
    /\ lookup payload 1
         {| script := repeat (Answer None) k; registry := reg; trace := tr |}
       = Waiting {| script := []; registry := reg;
                    trace := tr ++ backoff_trace payload k |}
    /\ filter (fun ev => match ev with Sleep _ => true | Request _ => false end)
         (backoff_trace payload k)
       = map (fun n => Sleep (_RETRY_SLEEP * Z.of_nat n)) (List.seq 1 k)
    /\ filter (fun ev => match ev with Sleep _ => false | Request _ => true end)
         (backoff_trace payload k)
       = repeat (Request payload) (S k).
Proof.
  intros payload k reg tr. split; [|split; [|split]].
  - intros closest pending. apply lookup_answered.
  - apply lookup_unanswered.
  - apply backoff_trace_sleeps.
  - unfold backoff_trace, retry_events. cbn [filter repeat]. f_equal.
    generalize 1. induction k as [|k IH]; intros first; simpl; [reflexivity|].
    f_equal. apply IH.
Qed.

(** A month that the registry does not hold yet, answered after [k] empty
    answers: its row is appended and the run goes on after the fixed sleep. *)
Lemma resolve_month_answered (subset : string) (metadata : list metadata_row)
    (year month : N) (k : nat) (closest : snapshot) (pending : list response)
    (reg : list metadata_row) (tr : list event) (row : metadata_row) :
  let dc := (PyStr.of_N year ++ PyStr.of_N_02d month)%string in
  let payload := {| p_url := query_url subset year;
                    p_timestamp := (dc ++ "15")%string |} in
  existsb (fun r => String.eqb (date_code r) dc) metadata = false ->
  new_data dc payload closest = Ok row ->
  resolve_month subset metadata (year, month)
    {| script := repeat (Answer None) k ++ Answer (Some closest) :: pending;
       registry := reg; trace := tr |}
  = Done tt
      {| script := pending; registry := reg ++ [row];
         trace := (tr ++ backoff_trace payload k) ++ [Sleep _RETRY_SLEEP] |}.
Proof.
  intros dc payload Hnew Hrow. unfold resolve_month. fold dc. rewrite Hnew.
  fold payload. unfold io_bind. rewrite lookup_answered.
  cbn [fst]. rewrite Hrow. reflexivity.
Qed.

(** ** The registry *)

Lemma advances_refl (P : metadata_row -> Prop) (w : world) : advances P w w.
Proof.
  split; [exists []; reflexivity|]. exists []. now rewrite app_nil_r.
Qed.

Lemma advances_trans (P : metadata_row -> Prop) (w1 w2 w3 : world) :
  advances P w1 w2 -> advances P w2 w3 -> advances P w1 w3.
Proof.
  intros [[u1 Hu1] (a1 & Ha1 & HP1)] [[u2 Hu2] (a2 & Ha2 & HP2)]. split.
  - exists (u1 ++ u2). now rewrite Hu1, Hu2, app_assoc.
  - exists (a1 ++ a2). split.
    + now rewrite Ha2, Ha1, app_assoc.
    + apply Forall_app. auto.
Qed.

Lemma same_month_hit_more (answers answers' : list response) (row : metadata_row) :
  (forall r, In r answers -> In r answers') ->
  same_month_hit answers row -> same_month_hit answers' row.
Proof.
  intros Hsub (c & p & t & Hin & H). exists c, p, t. auto.
Qed.

Lemma retry_loop_world (payload : payload_t) (reg : list metadata_row)
    (pending : list response) :
  forall (num_retry : Z) (r : option snapshot) (tr : list event),
    let o := retry_loop payload num_retry r pending reg tr in
    registry (final_world o) = reg
    /\ (exists used, pending = used ++ script (final_world o))
    /\ forall closest n w, o = Done (closest, n) w ->
         r = Some closest \/ In (Answer (Some closest)) pending.
Proof.
  induction pending as [|a pending IH]; intros num_retry r tr; cbn zeta.
  - destruct r as [c|]; simpl.
    + split; [reflexivity|]. split; [exists []; reflexivity|].
      intros closest n w [= <- _ _]. now left.
    + split; [reflexivity|]. split; [exists []; reflexivity|]. discriminate.
  - destruct r as [c|]; simpl.
    + split; [reflexivity|]. split; [exists []; reflexivity|].
      intros closest n w [= <- _ _]. now left.
    + destruct a as [e|r'].
      * simpl. split; [reflexivity|]. split; [exists [Failed e]; reflexivity|].
        discriminate.
      * destruct (IH (num_retry + 1)%Z r'
                    (tr ++ [Sleep (_RETRY_SLEEP * num_retry); Request payload]))
          as (Hreg & [used Hused] & Hdone).
        split; [exact Hreg|]. split.
        -- exists (Answer r' :: used). cbn [app]. f_equal. exact Hused.
        -- intros closest n w Ho. right.
           destruct (Hdone _ _ _ Ho) as [-> | Hin]; [now left | now right].
Qed.

Lemma lookup_world (payload : payload_t) (num_retry : Z) (w : world) :
  let o := lookup payload num_retry w in
  registry (final_world o) = registry w
  /\ (exists used, script w = used ++ script (final_world o))
  /\ forall closest n w', o = Done (closest, n) w' ->
       In (Answer (Some closest)) (script w).
Proof.
  cbn zeta. unfold lookup. destruct (script w) as [|[e|r] pending] eqn:Hs.
  - simpl. split; [reflexivity|]. split; [exists []; reflexivity|]. discriminate.
  - simpl. split; [reflexivity|]. split; [exists [Failed e]; reflexivity|].
    discriminate.
  - destruct (retry_loop_world payload (registry w) pending num_retry r
                (trace w ++ [Request payload])) as (Hreg & [used Hused] & Hdone).
    split; [exact Hreg|]. split.
    + exists (Answer r :: used). cbn [app]. f_equal. exact Hused.
    + intros closest n w' Ho.
      destruct (Hdone _ _ _ Ho) as [-> | Hin]; [now left | now right].
Qed.

(** The row of a month is a miss, or a hit of the same month and year. *)
Lemma new_data_hit_or_miss (dc : string) (payload : payload_t)
    (r_snapshot : snapshot) (row : metadata_row) (answers : list response) :
  p_timestamp payload = (dc ++ "15")%string ->
  In (Answer (Some r_snapshot)) answers ->
  new_data dc payload r_snapshot = Ok row ->
  date_code row = dc /\ (same_month_hit answers row \/ miss row).
Proof.
  intros Hts Hin. unfold new_data. rewrite Hts.
  destruct (Strptime.strptime (dc ++ "15") Strptime.fmt_Ymd) as [p|] eqn:Hp;
    [|discriminate].
  destruct (Strptime.strptime (snap_timestamp r_snapshot) Strptime.fmt_YmdHMS)
    as [t|] eqn:Ht; [|discriminate].
  simpl.
  destruct ((dt_month p =? dt_month t)%N && (dt_year p =? dt_year t)%N) eqn:E;
    intros [= <-]; (split; [reflexivity|]).
  - left. apply andb_true_iff in E as [Em Ey].
    apply N.eqb_eq in Em, Ey.
    exists r_snapshot, p, t. simpl. repeat split; auto.
  - right. split; reflexivity.
Qed.

Lemma resolve_month_world (subset : string) (metadata : list metadata_row)
    (ym : N * N) (w : world) :
  advances (fun row => same_month_hit (script w) row \/ miss row)
    w (final_world (resolve_month subset metadata ym w)).
Proof.
  unfold resolve_month. destruct ym as [year month].
  set (dc := (PyStr.of_N year ++ PyStr.of_N_02d month)%string).
  destruct (existsb _ metadata); [apply advances_refl|].
  set (payload := {| p_url := query_url subset year; p_timestamp := (dc ++ "15")%string |}).
  unfold io_bind.
  destruct (lookup_world payload 1 w) as (Hreg & Hused & Hdone).
  destruct (lookup payload 1 w) as [[closest n] w1|e w1|w1] eqn:Hl;
    simpl in Hreg, Hused |- *.
  - specialize (Hdone _ _ _ eq_refl).
    unfold io_lift.
    destruct (new_data dc payload closest) as [row|e] eqn:Hrow; simpl.
    + destruct (new_data_hit_or_miss dc payload closest row (script w) eq_refl Hdone Hrow)
        as [_ Hrow'].
      split; [exact Hused|].
      exists [row]. rewrite Hreg. split; [reflexivity|]. now constructor.
    + split; [exact Hused|]. exists []. now rewrite app_nil_r.
  - split; [exact Hused|]. exists []. now rewrite app_nil_r.
  - split; [exact Hused|]. exists []. now rewrite app_nil_r.
Qed.

Lemma advances_weaken (P Q : metadata_row -> Prop) (w w' : world) :
  (forall row, P row -> Q row) -> advances P w w' -> advances Q w w'.
Proof.
  intros HPQ [Hu (a & Ha & HP)]. split; [exact Hu|].
  exists a. split; [exact Ha|]. eapply Forall_impl; eauto.
Qed.

Lemma months_world (subset : string) (metadata : list metadata_row)
    (months : list (N * N)) :
  forall w,
    advances (fun row => same_month_hit (script w) row \/ miss row)
      w (final_world (io_for_each (resolve_month subset metadata) months w)).
Proof.
  induction months as [|ym months IH]; intros w.
  - apply advances_refl.
  - cbn [io_for_each]. unfold io_bind.
    pose proof (resolve_month_world subset metadata ym w) as H1.
    destruct (resolve_month subset metadata ym w) as [[] w1|e w1|w1];
      simpl in H1 |- *; try exact H1.
    eapply advances_trans; [exact H1|].
    eapply advances_weaken; [|apply IH].
    intros row [Hhit | Hmiss]; [left | now right].
    destruct H1 as [[used Hused] _].
    eapply same_month_hit_more; [|exact Hhit].
    intros r Hr. rewrite Hused. apply in_or_app. now right.
Qed.

(** C1: whatever the archive answers and however the run ends, every row
    that [build_metadata] appends to the registry is a hit whose snapshot
    was captured in the month and year of the query's mid-month time stamp,
    or a miss: a row without [archive_url] and without [file_name]. *)
Theorem registry_rows_hit_or_miss :
  forall (subset : string) (reset_file : bool) (year_start year_end : N)
         (file_exists : bool) (w : world),
  exists appended,
    registry (final_world
                (build_metadata subset reset_file year_start year_end file_exists w))
      = (if negb file_exists || reset_file then [] else registry w) ++ appended
    /\ Forall (fun row => same_month_hit (script w) row \/ miss row) appended.
Proof.
  intros subset reset_file year_start year_end file_exists w.
  unfold build_metadata.
  set (w0 := if negb file_exists || reset_file
             then {| script := script w; registry := []; trace := trace w |}
             else w).
  destruct (months_world subset (registry w0)
              (product (range year_start year_end) (range 1 13)) w0)
    as [_ (appended & Happ & HP)].
  exists appended. split.
  - rewrite Happ. subst w0. now destruct (negb file_exists || reset_file).
  - replace (script w) with (script w0); [exact HP|].
    subst w0. now destruct (negb file_exists || reset_file).
Qed.

(** ** The frame before the clean-up *)

Section RawFrame.
Variable V : Type.
Variable T : Type.
Variable pd : pandas V T.
Variable subset : string.

Lemma category_frame_ok (item : report V) (cat : string) (df : list (row V T)) :
  category_frame pd subset item cat = Ok df ->
  (exists d, report_date item = Some d)
  /\ df = cat_rows pd subset item cat.
Proof.
  unfold category_frame, cat_rows, PyDict.item, report_date.
  destruct (PyDict.get cat item) as [[s|items]|]; simpl; try discriminate.
  destruct (PyDict.get "date_code" item) as [dc|]; simpl; [|discriminate].
  destruct (date_of dc) as [d|]; simpl; [|discriminate].
  intros H. injection H as H. split; [eauto | now symmetry].
Qed.

Lemma keys_loop_ok (item : report V) (ks : list string) :
  forall acc res,
    for_each (fun df_list cat =>
                if negb (existsb (String.eqb cat) ["date_code"])
                then df <- category_frame pd subset item cat ;; Ok (df_list ++ [df])
                else Ok df_list) ks acc = Ok res ->
    concat res
    = concat acc ++ flat_map (cat_rows pd subset item) (filter is_category ks).
Proof.
  induction ks as [|cat ks IH]; intros acc res H; cbn [for_each] in H.
  - injection H as <-. simpl. now rewrite app_nil_r.
  - cbn [filter]. unfold is_category at 1.
    destruct (negb (existsb (String.eqb cat) ["date_code"])) eqn:E.
    + destruct (category_frame pd subset item cat) as [df|] eqn:Hdf; [|discriminate].
      cbn [bind] in H. apply IH in H. rewrite H.
      destruct (category_frame_ok _ _ _ Hdf) as (_ & ->).
      rewrite concat_app. simpl. now rewrite app_nil_r, <- app_assoc.
    + cbn [bind] in H. now apply IH in H.
Qed.

Lemma reports_loop_ok (data : list (report V)) :
  forall acc res,
    for_each (report_frames pd subset) data acc = Ok res ->
    concat res = concat acc ++ flat_map (rows_of pd subset) data.
Proof.
  induction data as [|item data IH]; intros acc res H; simpl in H.
  - injection H as <-. simpl. now rewrite app_nil_r.
  - destruct (report_frames pd subset acc item) as [acc'|] eqn:Hitem; [|discriminate].
    simpl in H. apply IH in H. rewrite H.
    unfold report_frames in Hitem.
    destruct (PyDict.item "date_code" item); [|discriminate]. simpl in Hitem.
    apply keys_loop_ok in Hitem. rewrite Hitem. unfold rows_of at 2.
    simpl. now rewrite <- app_assoc.
Qed.

(** When the frame can be built, it is the rows of the reports, in order. *)
Lemma raw_frame_rows (data : list (report V)) (raw : list (row V T)) :
  raw_frame pd subset data = Ok raw ->
  raw = flat_map (rows_of pd subset) data.
Proof.
  unfold raw_frame. intros H.
  destruct (for_each (report_frames pd subset) data []) as [df_list|] eqn:Hl;
    [|discriminate].
  simpl in H. apply reports_loop_ok in Hl. simpl in Hl.
  unfold pd_concat in H. destruct df_list; [discriminate|].
  injection H as <-. exact Hl.
Qed.

Lemma clean_and_normalize_ok (fs : string -> option (list (report V)))
    (data : list (report V)) (out : list (row V T)) :
  fs (data_path subset) = Some data ->
  clean_and_normalize pd fs subset = Ok out ->
  raw_frame pd subset data = Ok (flat_map (rows_of pd subset) data)
  /\ out = map (clean_row subset) (flat_map (rows_of pd subset) data).
Proof.
  intros Hfs. unfold clean_and_normalize. rewrite Hfs.
  destruct (raw_frame pd subset data) as [raw|] eqn:Hraw; [|discriminate].
  cbn [bind]. destruct (to_parquet pd _); [|discriminate].
  cbn [bind]. intros [= <-]. apply raw_frame_rows in Hraw as Hrows.
  now subst raw.
Qed.

(** A report without a date gives no row. *)
Lemma rows_of_undated (item : report V) :
  report_date item = None -> rows_of pd subset item = [].
Proof.
  intros Hd. unfold rows_of.
  induction (filter is_category (PyDict.keys item)) as [|cat ks IH];
    [reflexivity|].
  cbn [flat_map]. rewrite IH. unfold cat_rows. rewrite Hd.
  now destruct (PyDict.get cat item) as [[s|items]|].
Qed.

(** The rows of a report that [read_json] leaves as text are its entries. *)
Lemma rows_of_text (item : report V) (d : datetime) :
  read_as_text item = true ->
  report_date item = Some d ->
  rows_of pd subset item = map (text_row T subset d) (entries item).
Proof.
  intros Htext Hd. unfold rows_of, entries, read_as_text in *.
  induction (filter is_category (PyDict.keys item)) as [|cat ks IH];
    [reflexivity|].
  cbn [forallb] in Htext. apply andb_true_iff in Htext as [Hcat Hks].
  cbn [flat_map]. rewrite map_app, (IH Hks). f_equal.
  unfold cat_rows. rewrite Hd.
  destruct (PyDict.get cat item) as [[s|[|kv items]]|]; try reflexivity.
  destruct (PyFloat.parse cat) eqn:Hname; [discriminate|].
  rewrite map_map. apply map_ext. intros [label v].
  unfold text_row, read_label, read_name. cbn [fst snd].
  now rewrite Hcat, Hname.
Qed.
End RawFrame.

(** ** The clean-up *)

Lemma map_flat_map {A B C : Type} (f : B -> C) (h : A -> list B) (l : list A) :
  map f (flat_map h l) = flat_map (fun x => map f (h x)) l.
Proof.
  induction l as [|x l IH]; simpl; [reflexivity|].
  now rewrite map_app, IH.
Qed.

Lemma Forall2_map_r {A B : Type} (P : A -> B -> Prop) (f : A -> B) (l : list A) :
  (forall x, P x (f x)) -> Forall2 P l (map f l).
Proof.
  intros H. induction l; simpl; constructor; auto.
Qed.

(** A name of the rename table is cleaned to its new name. *)
Lemma clean_category_renames (old new : string) :
  PyDict.get old cat_rename = Some new ->
  clean_category old = new.
Proof.
  unfold cat_rename. cbn [PyDict.get].
  repeat match goal with
         | |- context [String.eqb old ?k] =>
             destruct (String.eqb_spec old k) as [->|?];
             [intros [= <-]; reflexivity|]
         end.
  discriminate.
Qed.

(** No cleaned category is a name of the rename table. *)
Lemma clean_category_not_old (c : string) :
  ~ In (clean_category c) (PyDict.keys cat_rename).
Proof.
  unfold clean_category, replace_value.
  generalize (Re.sub _RE_CATEGORY "" c). intros c'.
  unfold cat_rename. cbn [PyDict.get PyDict.keys map fst].
  repeat match goal with
         | |- context [String.eqb c' ?k] =>
             destruct (String.eqb_spec c' k) as [->|?];
             [cbn [In]; intuition discriminate|]
         end.
  cbn [In]. intuition congruence.
Qed.

(** C5, as the claim states it, fails: the rename table has five names. *)
Lemma cat_rename_five_names :
  length cat_rename = 5
  /\ PyDict.keys cat_rename
     = ["RAM"; "Processor Count"; "FreeHD"; "TotalHD"; "DirectX10 Systems"].
Proof.
  split; reflexivity.
Qed.

(** C5, amended: the rename table has five legacy names, each with its
    modern name, and the normalizer applies it to every row, whatever the
    row's position and whatever else the collection holds: a row of the
    frame whose category is a legacy name (so "RAM", "Processor Count")
    leaves with the modern name ("System RAM", "Physical CPUs"), and no
    row leaves with a legacy name.  This holds for every run that ends
    normally, whatever pandas does with labels and names that it may
    convert. *)
Theorem rename_table_applied :
  cat_rename
    = [ ("RAM", "System RAM");
        ("Processor Count", "Physical CPUs");
        ("FreeHD", "Free Hard Drive Space");
        ("TotalHD", "Total Hard Drive Space");
        ("DirectX10 Systems", "DirectX 10 Systems") ]
  /\ forall (V T : Type) (pd : pandas V T)
            (fs : string -> option (list (report V)))
            (subset : string) (data : list (report V)) (out : list (row V T)),
       fs (data_path subset) = Some data ->
       clean_and_normalize pd fs subset = Ok out ->
       exists raw,
         raw_frame pd subset data = Ok raw
         /\ raw = flat_map (rows_of pd subset) data
         /\ Forall2 (fun r r' =>
                       (forall old new,
                          PyDict.get old cat_rename = Some new ->
                          category r = Text old -> category r' = Text new)
                       /\ (category r = Text "RAM" ->
                           category r' = Text "System RAM")
                       /\ (category r = Text "Processor Count" ->
                           category r' = Text "Physical CPUs")
                       /\ (forall name, category r' = Text name ->
                             ~ In name (PyDict.keys cat_rename)))
              raw out.
Proof.
  split; [reflexivity|].
  intros V T pd fs subset data out Hfs Hout.
  destruct (clean_and_normalize_ok V T pd subset fs data out Hfs Hout) as [Hraw ->].
  eexists. split; [exact Hraw|]. split; [reflexivity|].
  apply Forall2_map_r. intros r. cbn [clean_row category]. repeat split.
  - intros old new Hget ->. cbn [on_text]. f_equal.
    now apply clean_category_renames.
  - intros ->. reflexivity.
  - intros ->. reflexivity.
  - intros name Hname. destruct (category r) as [c|t]; cbn [on_text] in Hname;
      [|discriminate].
    injection Hname as <-. apply clean_category_not_old.
Qed.

Lemma rename_table_applied_witness :
  exists raw,
    raw_frame sample_pandas "combined" [ram_and_empty] = Ok raw
    /\ raw = flat_map (rows_of sample_pandas "combined") [ram_and_empty]
    /\ Forall2 (fun r r' =>
                  (forall old new,
                     PyDict.get old cat_rename = Some new ->
                     category r = Text old -> category r' = Text new)
                  /\ (category r = Text "RAM" -> category r' = Text "System RAM")
                  /\ (category r = Text "Processor Count" ->
                      category r' = Text "Physical CPUs")
                  /\ (forall name, category r' = Text name ->
                        ~ In name (PyDict.keys cat_rename)))
         raw [ram_row "< 1 GB" v12_5; ram_row "1 GB" v40_0].
Proof.
  exact (proj2 rename_table_applied pyfloat pyfloat sample_pandas
           (fun _ => Some [ram_and_empty])
           "combined" [ram_and_empty]
           [ram_row "< 1 GB" v12_5; ram_row "1 GB" v40_0]
           eq_refl eq_refl).
Defined.

(** ** The rows of a report *)

Lemma rows_of_In (V T : Type) (pd : pandas V T) (subset : string)
    (item : report V) (d : datetime)
    (cat label : string) (items : PyDict.dict V) (v : V) :
  report_date item = Some d ->
  PyDict.get cat item = Some (JObj items) ->
  is_category cat = true ->
  PyDict.get label items = Some v ->
  In {| index := read_label pd (PyDict.keys items) label;
        perc := v;
        category := read_name pd cat;
        date := d; platform := subset |}
     (rows_of pd subset item).
Proof.
  intros Hd Hcat Hc Hv. unfold rows_of.
  apply in_flat_map. exists cat. split.
  - apply filter_In. split; [|exact Hc]. eapply get_In_keys. exact Hcat.
  - unfold cat_rows. rewrite Hcat, Hd.
    apply in_map_iff. exists (label, v). split; [reflexivity|].
    now apply get_In.
Qed.

(** An index with the label "1 GB" stays text. *)
Lemma index_with_1_GB (V T : Type) (pd : pandas V T) (items : PyDict.dict V)
    (v : V) (label : string) :
  PyDict.get "1 GB" items = Some v ->
  read_label pd (PyDict.keys items) label = Text label.
Proof.
  intros Hgb. unfold read_label.
  assert (H : existsb text_only (PyDict.keys items) = true).
  { apply existsb_exists. exists "1 GB". split; [|reflexivity].
    eapply get_In_keys. exact Hgb. }
  now rewrite H.
Qed.

(** C9: when the collection of the combined variant holds a report of
    "200512" whose "RAM" category has the items "&lt 1 GB": 12.5 and
    "1 GB": 40.0, the output has the rows (2005-12-01, "pc", "System RAM",
    "< 1 GB", 12.5) and (2005-12-01, "pc", "System RAM", "1 GB", 40.0),
    whatever else the collection holds and whatever pandas does with the
    labels and names that it may convert. *)
Theorem ram_2005_scenario :
  forall (T : Type) (pd : pandas pyfloat T)
         (fs : string -> option (list (report pyfloat)))
         (data : list (report pyfloat)) (item : report pyfloat)
         (items : PyDict.dict pyfloat) (out : list (row pyfloat T)),
    fs (data_path "combined") = Some data ->
    In item data ->
    PyDict.get "date_code" item = Some (JStr "200512") ->
    PyDict.get "RAM" item = Some (JObj items) ->
    PyDict.get "&lt 1 GB" items = Some v12_5 ->
    PyDict.get "1 GB" items = Some v40_0 ->
    clean_and_normalize pd fs "combined" = Ok out ->
    In {| index := Text "< 1 GB"; perc := v12_5; category := Text "System RAM";
          date := dec_2005; platform := "pc" |} out
    /\ In {| index := Text "1 GB"; perc := v40_0; category := Text "System RAM";
             date := dec_2005; platform := "pc" |} out.
Proof.
  intros T pd fs data item items out Hfs Hitem Hdc Hram Hlt Hgb Hout.
  destruct (clean_and_normalize_ok pyfloat T pd "combined" fs data out Hfs Hout)
    as [_ ->].
  assert (Hd : report_date item = Some dec_2005).
  { unfold report_date. rewrite Hdc. reflexivity. }
  assert (Hrow : forall label v,
             PyDict.get label items = Some v ->
             In {| index := Text label; perc := v; category := Text "RAM";
                   date := dec_2005; platform := "combined" |}
                (flat_map (rows_of pd "combined") data)).
  { intros label v Hv. apply in_flat_map. exists item. split; [exact Hitem|].
    rewrite <- (index_with_1_GB pyfloat T pd items v40_0 label Hgb).
    exact (rows_of_In pyfloat T pd "combined" item dec_2005 "RAM" label items v
             Hd Hram eq_refl Hv). }
  split.
  - apply in_map_iff.
    exists {| index := Text "&lt 1 GB"; perc := v12_5; category := Text "RAM";
              date := dec_2005; platform := "combined" |}.
    split; [reflexivity | now apply Hrow].
  - apply in_map_iff.
    exists {| index := Text "1 GB"; perc := v40_0; category := Text "RAM";
              date := dec_2005; platform := "combined" |}.
    split; [reflexivity | now apply Hrow].
Qed.

Lemma ram_2005_scenario_witness :
  clean_and_normalize sample_pandas (fun _ => Some [ram_and_empty]) "combined"
    = Ok [ram_row "< 1 GB" v12_5; ram_row "1 GB" v40_0]
  /\ In (ram_row "< 1 GB" v12_5) [ram_row "< 1 GB" v12_5; ram_row "1 GB" v40_0]
  /\ In (ram_row "1 GB" v40_0) [ram_row "< 1 GB" v12_5; ram_row "1 GB" v40_0].
Proof.
  split; [reflexivity|].
  exact (ram_2005_scenario pyfloat sample_pandas
           (fun _ => Some [ram_and_empty]) [ram_and_empty] ram_and_empty
           [("&lt 1 GB", v12_5); ("1 GB", v40_0)]
           [ram_row "< 1 GB" v12_5; ram_row "1 GB" v40_0]
           eq_refl (or_introl eq_refl) eq_refl eq_refl eq_refl eq_refl eq_refl).
Defined.

(** ** Keys of the output table *)

(** C6, as the claim states it, fails: the report [ram_twice] gives two
    rows with the key (2005-12-01, "pc", "System RAM", "1 GB"), and a
    collection that holds the report [ram_2005] twice gives each of its
    rows twice. *)
Lemma duplicate_key_rows :
  clean_and_normalize sample_pandas (fun _ => Some [ram_twice]) "combined"
    = Ok [ram_row "1 GB" v40_0; ram_row "1 GB" v41_0]
  /\ row_key (ram_row "1 GB" v40_0) = row_key (ram_row "1 GB" v41_0)
  /\ ram_row "1 GB" v40_0 <> ram_row "1 GB" v41_0
  /\ ~ NoDup (map (@row_key pyfloat pyfloat)
                [ram_row "1 GB" v40_0; ram_row "1 GB" v41_0])
  /\ clean_and_normalize sample_pandas (fun _ => Some [ram_2005; ram_2005])
       "combined"
     = Ok [ram_row "< 1 GB" v12_5; ram_row "1 GB" v40_0;
           ram_row "< 1 GB" v12_5; ram_row "1 GB" v40_0].
Proof.
  split; [reflexivity|]. split; [reflexivity|]. split; [discriminate|].
  split; [|reflexivity].
  intros H. inversion H as [|k l Hin _]; subst. apply Hin. now left.
Qed.

(** Lists of tagged items: distinct tags keep the items of different
    sources apart. *)
Lemma NoDup_tagged {A T B : Type} (tag : A -> T) (body : A -> list B)
    (l : list A) :
  NoDup (map tag l) ->
  (forall x, In x l -> NoDup (body x)) ->
  NoDup (flat_map (fun x => map (pair (tag x)) (body x)) l).
Proof.
  induction l as [|x l IH]; intros Htags Hbody; simpl.
  - constructor.
  - inversion Htags as [|t ts Hnotin Hrest]; subst.
    apply NoDup_app.
    + apply NoDup_map_NoDup_ForallPairs.
      * intros a b _ _ [= ->]. reflexivity.
      * apply Hbody. now left.
    + apply IH; [exact Hrest|]. intros y Hy. apply Hbody. now right.
    + intros [t b] Hin1 Hin2.
      apply in_map_iff in Hin1 as (b1 & [= <- <-] & _).
      apply in_flat_map in Hin2 as (y & Hy & Hin2).
      apply in_map_iff in Hin2 as (b2 & [= Ht _] & _).
      apply Hnotin. rewrite <- Ht. now apply in_map.
Qed.

Lemma flat_map_ext_in {A B : Type} (f g : A -> list B) (l : list A) :
  (forall x, In x l -> f x = g x) -> flat_map f l = flat_map g l.
Proof.
  induction l as [|x l IH]; intros H; [reflexivity|].
  cbn [flat_map]. rewrite (H x) by now left.
  rewrite IH; [reflexivity|]. intros y Hy. apply H. now right.
Qed.

(** C6, amended: when [read_json] leaves the names and the labels of the
    reports as text, no two reports of the collection have the same date
    and, within each report, no two entries have the same cleaned category
    and the same cleaned label, the output table has no two rows with the
    same (date, platform, category, item-label) key. *)
Theorem distinct_entries_distinct_keys :
  forall (V T : Type) (pd : pandas V T)
         (fs : string -> option (list (report V))) (subset : string)
         (data : list (report V)) (out : list (row V T)),
    fs (data_path subset) = Some data ->
    Forall (fun item => read_as_text item = true) data ->
    NoDup (map (@report_date V) data) ->
    Forall (fun item => NoDup (map (@cleaned V) (entries item))) data ->
    clean_and_normalize pd fs subset = Ok out ->
    NoDup (map (@row_key V T) out).
Proof.
  intros V T pd fs subset data out Hfs Htext Hdates Hentries Hout.
  destruct (clean_and_normalize_ok V T pd subset fs data out Hfs Hout) as [_ ->].
  set (proj := fun k : datetime * string * cell T * cell T =>
                 (Some (fst (fst (fst k))), (snd (fst k), snd k))).
  apply NoDup_map_inv with (f := proj).
  set (texts := fun c : string * string => (@Text T (fst c), @Text T (snd c))).
  set (body := fun item : report V =>
                 match report_date item with
                 | Some _ => map texts (map (@cleaned V) (entries item))
                 | None => []
                 end).
  replace (map proj (map (@row_key V T)
             (map (clean_row subset) (flat_map (rows_of pd subset) data))))
    with (flat_map (fun item => map (pair (report_date item)) (body item)) data).
  - apply NoDup_tagged; [exact Hdates|].
    intros item Hitem. unfold body.
    destruct (report_date item); [|constructor].
    apply NoDup_map_NoDup_ForallPairs.
    + intros [c1 l1] [c2 l2] _ _ [= -> ->]. reflexivity.
    + rewrite Forall_forall in Hentries. now apply Hentries.
  - rewrite !map_map, map_flat_map.
    apply flat_map_ext_in. intros item Hitem.
    rewrite Forall_forall in Htext. specialize (Htext item Hitem).
    unfold body. destruct (report_date item) as [d|] eqn:Hd.
    + rewrite (rows_of_text V T pd subset item d Htext Hd), !map_map.
      reflexivity.
    + now rewrite (rows_of_undated V T pd subset item Hd).
Qed.

Lemma distinct_entries_distinct_keys_witness :
  NoDup (map (@row_key pyfloat pyfloat)
           [ram_row "< 1 GB" v12_5; ram_row "1 GB" v40_0]).
Proof.
  apply (distinct_entries_distinct_keys pyfloat pyfloat sample_pandas
           (fun _ => Some [ram_and_empty])
           "combined" [ram_and_empty]
           [ram_row "< 1 GB" v12_5; ram_row "1 GB" v40_0] eq_refl).
  - repeat constructor.
  - repeat constructor. simpl. tauto.
  - repeat constructor; simpl; intuition discriminate.
  - reflexivity.
Defined.

(** ** The query's time stamp *)

(** The query's time stamp read back, by going through the years 1000 to
    9999. *)
Lemma strptime_query_timestamp (year month : N) :
  (1000 <= year <= 9999)%N ->
  (1 <= month <= 12)%N ->
  Strptime.strptime (PyStr.of_N year ++ PyStr.of_N_02d month ++ "15")
                    Strptime.fmt_Ymd
  = Ok {| dt_year := year; dt_month := month; dt_day := 15;
          dt_hour := 0; dt_minute := 0; dt_second := 0 |}.
Proof.
  intros Hy Hm.
  assert (Hall :
    forallb (fun y =>
      forallb (fun m =>
        match Strptime.strptime (PyStr.of_N y ++ PyStr.of_N_02d m ++ "15")
                                Strptime.fmt_Ymd with
        | Ok t => (dt_year t =? y)%N && (dt_month t =? m)%N && (dt_day t =? 15)%N
                  && (dt_hour t =? 0)%N && (dt_minute t =? 0)%N
                  && (dt_second t =? 0)%N
        | Raise _ => false
        end) (range 1 13)) (range 1000 10000) = true)
    by (vm_compute; reflexivity).
  assert (Hin : forall lo hi n, (lo <= n < hi)%N -> In n (range lo hi)).
  { intros lo hi n Hn. unfold range. apply in_map_iff.
    exists (N.to_nat n). split; [apply N2Nat.id|]. apply in_seq. lia. }
  rewrite forallb_forall in Hall.
  specialize (Hall year (Hin 1000%N 10000%N year ltac:(lia))).
  rewrite forallb_forall in Hall.
  specialize (Hall month (Hin 1%N 13%N month ltac:(lia))).
  destruct (Strptime.strptime _ _) as [[y m d h mi s]|]; [|discriminate].
  simpl in Hall.
  repeat (apply andb_true_iff in Hall as [Hall ?]).
  repeat match goal with H : (_ =? _)%N = true |- _ => apply N.eqb_eq in H end.
  simpl in *. subst. reflexivity.
Qed.

(** For the years that [strptime] can read, the time stamp of the query is
    the 15th of the month asked for. *)
Lemma query_timestamp_mid_month (year month : N) :
  (1000 <= year <= 9999)%N ->
  (1 <= month <= 12)%N ->
  Strptime.strptime (PyStr.of_N year ++ PyStr.of_N_02d month ++ "15")
                    Strptime.fmt_Ymd
  = Ok {| dt_year := year; dt_month := month; dt_day := 15;
          dt_hour := 0; dt_minute := 0; dt_second := 0 |}.
Proof.
  exact (strptime_query_timestamp year month).
Qed.

Lemma query_timestamp_mid_month_witness :
  Strptime.strptime "20051215" Strptime.fmt_Ymd
  = Ok {| dt_year := 2005; dt_month := 12; dt_day := 15;
          dt_hour := 0; dt_minute := 0; dt_second := 0 |}.
Proof.
  apply (query_timestamp_mid_month 2005 12); lia.
Defined.

(** A run of the resolver over the year 2004 with a registry that holds
    March to December: January gets a snapshot of January after two empty
    answers, February a snapshot of March, which is recorded as a miss. *)
Example build_metadata_2004 :
  let jan := {| snap_url := "http://web.archive.org/web/20040120/survey";
                snap_timestamp := "20040120101500" |} in
  let mar := {| snap_url := "http://web.archive.org/web/20040302/survey";
                snap_timestamp := "20040302080000" |} in
  let known := map (fun dc => {| date_code := dc; archive_url := None;
                                 file_name := None |})
                 ["200403"; "200404"; "200405"; "200406"; "200407";
                  "200408"; "200409"; "200410"; "200411"; "200412"] in
  let q dc := {| p_url := "http://www.steampowered.com/status/survey.html";
                 p_timestamp := dc |} in
  build_metadata "combined" false 2004 2005 true
    {| script := [Answer None; Answer None; Answer (Some jan); Answer (Some mar)];
       registry := known; trace := [] |}
  = Done tt
      {| script := [];
         registry := known ++
           [ {| date_code := "200401";
                archive_url := Some "http://web.archive.org/web/20040120/survey";
                file_name := Some "20040120101500.txt" |};
             {| date_code := "200402"; archive_url := None; file_name := None |} ];
         trace := [ Request (q "20040115"); Sleep 5; Request (q "20040115");
                    Sleep 10; Request (q "20040115"); Sleep 5;
                    Request (q "20040215"); Sleep 5 ] |}.
Proof.
  reflexivity.
Qed.

(** ** From a stored page to the table *)

Lemma for_each_invariant {A S : Type} (P : S -> Prop) (body : S -> A -> result S)
    (l : list A) :
  (forall s x s', P s -> body s x = Ok s' -> P s') ->
  forall s s', P s -> for_each body l s = Ok s' -> P s'.
Proof.
  intros Hstep. induction l as [|x l IH]; intros s s' Hs H; simpl in H.
  - now injection H as <-.
  - destruct (body s x) as [s1|] eqn:Hx; [|discriminate].
    eapply IH; [|exact H]. eapply Hstep; eauto.
Qed.

Lemma mem_set (V : Type) (k c : string) (v : V) (d : PyDict.dict V) :
  PyDict.mem k d = true -> PyDict.mem k (PyDict.set c v d) = true.
Proof.
  unfold PyDict.mem. destruct (String.eqb_spec c k) as [->|Hne].
  - now rewrite get_set_same.
  - now rewrite get_set_other.
Qed.

Lemma set_item_keeps (cat item : string) (value : pyfloat)
    (data_json data_json' : data_json_t) (k : string) :
  set_item cat item value data_json = Ok data_json' ->
  PyDict.mem k data_json = true -> PyDict.mem k data_json' = true.
Proof.
  unfold set_item. destruct (PyDict.item cat data_json); [|discriminate].
  simpl. intros [= <-]. apply mem_set.
Qed.

(** No step of the modern parser removes a category: the current category
    is in the mapping whenever a value is stored. *)
Lemma modern_group_keeps (name : string) (data_json data_json' : data_json_t)
    (group : list (option string)) (k : string) :
  modern_group name data_json group = Ok data_json' ->
  PyDict.mem k data_json = true -> PyDict.mem k data_json' = true.
Proof.
  unfold modern_group.
  destruct group as [|l [|m [|r [|? ?]]]]; try discriminate.
  destruct (text l) as [lt|]; [|discriminate]. cbn [bind].
  destruct (if negb (String.eqb (PyStr.strip lt) "") then _ else _) as [item|];
    [|discriminate]. cbn [bind].
  destruct (text r) as [rt|]; [|discriminate]. cbn [bind].
  destruct (perc_value rt) as [value|]; [|discriminate]. cbn [bind].
  unfold store.
  destruct (existsb _ _); [|apply set_item_keeps].
  destruct (String.eqb item "Windows").
  - destruct (negb (PyDict.mem os_total data_json)).
    + intros H Hk. eapply set_item_keeps; [exact H|]. now apply mem_set.
    + apply set_item_keeps.
  - destruct (negb (PyDict.mem os_total data_json)); apply set_item_keeps.
Qed.

Lemma modern_tree_category (name : string) (tree : list string)
    (data_json data_json' : data_json_t) :
  for_each (modern_group name) (grouper tree 3)
    (PyDict.set name [] data_json) = Ok data_json' ->
  PyDict.mem name data_json' = true.
Proof.
  apply for_each_invariant with (P := fun d => PyDict.mem name d = true).
  - intros s x s' Hs Hx. eapply modern_group_keeps; eauto.
  - unfold PyDict.mem. now rewrite get_set_same.
Qed.

(** The page of December 2005 with a four-column "RAM" table, parsed and
    normalized. *)
Example december_2005_end_to_end :
  let page :=
    {| capsules :=
         [ {| find_b := Some " RAM ";
              find_table := Some ["&lt 1 GB"; ""; "12.5%"; "12.5%";
                                  "1 GB"; ""; "40.0%"; "52.5%"] |} ];
       cat_tree := []; cat_title := [] |} in
  parse_data_content
    [ {| row_date_code := "200512"; row_year := 2005; row_month := 12;
         row_soup := page |} ] = Ok [ram_2005]
  /\ clean_and_normalize sample_pandas (fun _ => Some [ram_2005]) "combined"
     = Ok [ram_row "< 1 GB" v12_5; ram_row "1 GB" v40_0].
Proof.
  split; reflexivity.
Qed.

(** * Further properties *)

(** ** The resolver and its registry *)

Lemma new_data_date_code (dc : string) (payload : payload_t)
    (r_snapshot : snapshot) (row : metadata_row) :
  new_data dc payload r_snapshot = Ok row -> date_code row = dc.
Proof.
  unfold new_data.
  destruct (Strptime.strptime (p_timestamp payload) _); [|discriminate].
  destruct (Strptime.strptime (snap_timestamp r_snapshot) _); [|discriminate].
  cbn [bind]. destruct (_ && _); intros [= <-]; reflexivity.
Qed.

(** [strptime] raises nothing but [ValueError]. *)
Lemma strptime_raises (s : string) (fmt : list Strptime.directive) (e : exn) :
  Strptime.strptime s fmt = Raise e -> e = ValueError.
Proof.
  unfold Strptime.strptime.
  destruct (Re.re_match _ _); [|now intros [= <-]].
  destruct (negb _); [now intros [= <-]|].
  destruct (Strptime.valid _); [discriminate | now intros [= <-]].
Qed.

Lemma new_data_raises (dc : string) (payload : payload_t)
    (r_snapshot : snapshot) (e : exn) :
  new_data dc payload r_snapshot = Raise e -> e = ValueError.
Proof.
  unfold new_data.
  destruct (Strptime.strptime (p_timestamp payload) _) eqn:Hp.
  - destruct (Strptime.strptime (snap_timestamp r_snapshot) _) eqn:Hs.
    + cbn [bind]. destruct (_ && _); discriminate.
    + cbn [bind]. intros [= <-]. now apply strptime_raises in Hs.
  - cbn [bind]. intros [= <-]. now apply strptime_raises in Hp.
Qed.

(** A month that the registry holds is passed over: no request, no sleep,
    no row. *)
Lemma resolve_month_resolved (subset : string) (metadata : list metadata_row)
    (ym : N * N) (w : world) :
  resolved metadata (date_code_of ym) = true ->
  resolve_month subset metadata ym w = Done tt w.
Proof.
  destruct ym as [year month]. unfold resolve_month, resolved, date_code_of.
  cbn [fst snd]. intros ->. reflexivity.
Qed.

(** A month that the registry does not hold ends with its row appended, or
    the run stops there with the registry as it was. *)
Lemma resolve_month_unresolved (subset : string) (metadata : list metadata_row)
    (ym : N * N) (w : world) :
  resolved metadata (date_code_of ym) = false ->
  (exists w' row,
     resolve_month subset metadata ym w = Done tt w'
     /\ registry w' = registry w ++ [row]
     /\ date_code row = date_code_of ym)
  \/ (is_done (resolve_month subset metadata ym w) = false
      /\ registry (final_world (resolve_month subset metadata ym w)) = registry w).
Proof.
  destruct ym as [year month]. unfold resolve_month, resolved, date_code_of.
  cbn [fst snd]. intros ->.
  set (dc := (PyStr.of_N year ++ PyStr.of_N_02d month)%string).
  set (payload := {| p_url := query_url subset year;
                     p_timestamp := (dc ++ "15")%string |}).
  unfold io_bind.
  destruct (lookup_world payload 1 w) as (Hreg & _ & _).
  destruct (lookup payload 1 w) as [[closest n] w1|e w1|w1]; simpl in Hreg.
  - unfold io_lift. cbn [fst].
    destruct (new_data dc payload closest) as [row|e] eqn:Hrow.
    + left. eexists. exists row. split; [reflexivity|].
      cbn [registry]. rewrite Hreg. split; [reflexivity|].
      now apply new_data_date_code in Hrow.
    + right. split; [reflexivity | exact Hreg].
  - right. split; [reflexivity | exact Hreg].
  - right. split; [reflexivity | exact Hreg].
Qed.

(** What a run over [months] appends: the rows of the months the registry
    did not hold, in order, up to the month where the run stopped. *)
Lemma months_appended (subset : string) (metadata : list metadata_row)
    (months : list (N * N)) :
  forall w,
  exists appended rest,
    registry (final_world (io_for_each (resolve_month subset metadata) months w))
      = registry w ++ appended
    /\ map date_code appended ++ rest
       = map date_code_of (unresolved metadata months)
    /\ (is_done (io_for_each (resolve_month subset metadata) months w) = true ->
        rest = []).
Proof.
  induction months as [|ym months IH]; intros w.
  - exists [], []. cbn. now rewrite app_nil_r.
  - cbn [io_for_each]. unfold io_bind, unresolved. cbn [filter].
    fold (unresolved metadata months).
    destruct (resolved metadata (date_code_of ym)) eqn:Hres; cbn [negb].
    + rewrite (resolve_month_resolved subset metadata ym w Hres). apply IH.
    + destruct (resolve_month_unresolved subset metadata ym w Hres)
        as [(w' & row & Hrun & Hreg & Hdc) | [Hstop Hreg]].
      * rewrite Hrun. destruct (IH w') as (appended & rest & Ha & Hcodes & Hdone).
        exists (row :: appended), rest. split; [|split].
        -- rewrite Ha, Hreg, <- app_assoc. reflexivity.
        -- cbn [map app]. now rewrite Hdc, Hcodes.
        -- exact Hdone.
      * destruct (resolve_month subset metadata ym w) as [[] w'|e w'|w'];
          try discriminate; cbn [final_world] in Hreg |- *.
        -- exists [], (map date_code_of (ym :: unresolved metadata months)).
           rewrite Hreg, app_nil_r. repeat split. discriminate.
        -- exists [], (map date_code_of (ym :: unresolved metadata months)).
           rewrite Hreg, app_nil_r. repeat split. discriminate.
Qed.

Lemma resolved_In (metadata : list metadata_row) (dc : string) :
  resolved metadata dc = true <-> In dc (map date_code metadata).
Proof.
  unfold resolved. rewrite existsb_exists, in_map_iff. split.
  - intros (row & Hin & Heq). apply String.eqb_eq in Heq. eauto.
  - intros (row & Heq & Hin). exists row. split; [exact Hin|].
    now apply String.eqb_eq.
Qed.

Lemma resolved_app (m1 m2 : list metadata_row) (dc : string) :
  resolved (m1 ++ m2) dc = resolved m1 dc || resolved m2 dc.
Proof.
  unfold resolved. apply existsb_app.
Qed.

Lemma all_resolved_no_effect (subset : string) (metadata : list metadata_row)
    (months : list (N * N)) (w : world) :
  (forall ym, In ym months -> resolved metadata (date_code_of ym) = true) ->
  io_for_each (resolve_month subset metadata) months w = Done tt w.
Proof.
  induction months as [|ym months IH]; intros Hall; [reflexivity|].
  cbn [io_for_each]. unfold io_bind.
  rewrite (resolve_month_resolved subset metadata ym w) by (apply Hall; now left).
  apply IH. intros ym' Hin. apply Hall. now right.
Qed.

(** X2: a run over months that the registry already holds sends no request,
    sleeps never and appends nothing: the world is left as it was. *)
Theorem build_metadata_resolved_months :
  forall (subset : string) (year_start year_end : N) (w : world),
    (forall ym, In ym (product (range year_start year_end) (range 1 13)) ->
                resolved (registry w) (date_code_of ym) = true) ->
    build_metadata subset false year_start year_end true w = Done tt w.
Proof.
  intros subset year_start year_end w Hall. unfold build_metadata.
  cbn [negb orb]. now apply all_resolved_no_effect.
Qed.

Lemma build_metadata_resolved_months_witness :
  build_metadata "combined" false 2004 2005 true world_2004_done
  = Done tt world_2004_done.
Proof.
  apply (build_metadata_resolved_months "combined" 2004 2005 world_2004_done).
  apply forallb_forall. reflexivity.
Defined.

(** ** Strings *)

Lemma append_assoc (a b c : string) : ((a ++ b) ++ c = a ++ (b ++ c))%string.
Proof.
  induction a as [|x a IH]; simpl; [reflexivity | now rewrite IH].
Qed.

Lemma chars_append (a b : string) :
  PyStr.chars (a ++ b) = PyStr.chars a ++ PyStr.chars b.
Proof.
  unfold PyStr.chars. induction a as [|x a IH]; simpl; [reflexivity | now rewrite IH].
Qed.

Lemma chars_inj (a b : string) : PyStr.chars a = PyStr.chars b -> a = b.
Proof.
  unfold PyStr.chars. intros H.
  rewrite <- (string_of_list_ascii_of_string a), <- (string_of_list_ascii_of_string b).
  now rewrite H.
Qed.

Lemma append_inj_l (a b c : string) : (a ++ c = b ++ c)%string -> a = b.
Proof.
  intros H. apply chars_inj. apply (f_equal PyStr.chars) in H.
  rewrite !chars_append in H. now apply app_inv_tail in H.
Qed.

Lemma append_inj_r (a b c : string) : (a ++ b = a ++ c)%string -> b = c.
Proof.
  intros H. apply chars_inj. apply (f_equal PyStr.chars) in H.
  rewrite !chars_append in H. now apply app_inv_head in H.
Qed.

(** ** The months of a run *)

Lemma range_In (lo hi n : N) : In n (range lo hi) <-> (lo <= n < hi)%N.
Proof.
  unfold range. rewrite in_map_iff. split.
  - intros (i & <- & Hi). apply in_seq in Hi. lia.
  - intros Hn. exists (N.to_nat n). split; [apply N2Nat.id|]. apply in_seq. lia.
Qed.

Lemma range_NoDup (lo hi : N) : NoDup (range lo hi).
Proof.
  unfold range. apply NoDup_map_NoDup_ForallPairs; [|apply seq_NoDup].
  intros a b _ _ H. now apply Nat2N.inj.
Qed.

Lemma product_In {A B : Type} (a : list A) (b : list B) (x : A) (y : B) :
  In (x, y) (product a b) <-> In x a /\ In y b.
Proof.
  unfold product. rewrite in_flat_map. split.
  - intros (x' & Hx & Hy). apply in_map_iff in Hy as (y' & [= <- <-] & Hy). auto.
  - intros [Hx Hy]. exists x. split; [exact Hx|]. now apply in_map.
Qed.

Lemma product_NoDup {A B : Type} (a : list A) (b : list B) :
  NoDup a -> NoDup b -> NoDup (product a b).
Proof.
  intros Ha Hb. unfold product.
  apply (NoDup_tagged (fun x : A => x) (fun _ => b)); [|auto].
  now rewrite map_id.
Qed.

(** For four-digit years the date code tells the year and the month. *)
Lemma date_code_of_inj (ym1 ym2 : N * N) :
  (1000 <= fst ym1 <= 9999)%N -> (1 <= snd ym1 <= 12)%N ->
  (1000 <= fst ym2 <= 9999)%N -> (1 <= snd ym2 <= 12)%N ->
  date_code_of ym1 = date_code_of ym2 -> ym1 = ym2.
Proof.
  destruct ym1 as [y1 m1], ym2 as [y2 m2]. unfold date_code_of. cbn [fst snd].
  intros Hy1 Hm1 Hy2 Hm2 H.
  pose proof (strptime_query_timestamp y1 m1 Hy1 Hm1) as H1.
  pose proof (strptime_query_timestamp y2 m2 Hy2 Hm2) as H2.
  rewrite <- append_assoc, H, append_assoc, H2 in H1.
  now injection H1 as <- <-.
Qed.

Lemma months_codes_NoDup (metadata : list metadata_row) (year_start year_end : N) :
  (1000 <= year_start)%N -> (year_end <= 10000)%N ->
  NoDup (map date_code_of
           (unresolved metadata
              (product (range year_start year_end) (range 1 13)))).
Proof.
  intros Hlo Hhi. apply NoDup_map_NoDup_ForallPairs.
  - intros [y1 m1] [y2 m2] H1 H2.
    apply filter_In in H1 as [H1 _]. apply filter_In in H2 as [H2 _].
    apply product_In in H1 as [Hy1 Hm1]. apply product_In in H2 as [Hy2 Hm2].
    apply range_In in Hy1, Hm1, Hy2, Hm2.
    apply date_code_of_inj; cbn [fst snd]; lia.
  - apply NoDup_filter, product_NoDup; apply range_NoDup.
Qed.

(** X3: a run that ends normally has appended one row for every month of
    its range that the registry did not hold at the start, in the order of
    the months, and nothing else. *)
Theorem build_metadata_done_rows :
  forall (subset : string) (reset_file : bool) (year_start year_end : N)
         (file_exists : bool) (w w' : world),
    build_metadata subset reset_file year_start year_end file_exists w
      = Done tt w' ->
    let metadata := if negb file_exists || reset_file then [] else registry w in
    exists appended,
      registry w' = metadata ++ appended
      /\ map date_code appended
         = map date_code_of
             (unresolved metadata
                (product (range year_start year_end) (range 1 13))).
Proof.
  intros subset reset_file year_start year_end file_exists w w' Hrun. cbn zeta.
  unfold build_metadata in Hrun.
  set (w0 := if negb file_exists || reset_file
             then {| script := script w; registry := []; trace := trace w |}
             else w) in Hrun.
  replace (if negb file_exists || reset_file then [] else registry w)
    with (registry w0) by (subst w0; now destruct (negb file_exists || reset_file)).
  destruct (months_appended subset (registry w0)
              (product (range year_start year_end) (range 1 13)) w0)
    as (appended & rest & Hreg & Hcodes & Hdone).
  rewrite Hrun in Hreg, Hdone. cbn [final_world is_done] in Hreg, Hdone.
  rewrite (Hdone eq_refl), app_nil_r in Hcodes. eauto.
Qed.

(** X4: after a run that ended normally, a second run over the same range
    (the file is there, no reset) finds every month in the registry: it
    sends no request and changes nothing. *)
Theorem build_metadata_rerun :
  forall (subset : string) (reset_file : bool) (year_start year_end : N)
         (file_exists : bool) (w w' : world),
    build_metadata subset reset_file year_start year_end file_exists w
      = Done tt w' ->
    build_metadata subset false year_start year_end true w' = Done tt w'.
Proof.
  intros subset reset_file year_start year_end file_exists w w' Hrun.
  unfold build_metadata in Hrun.
  set (w0 := if negb file_exists || reset_file
             then {| script := script w; registry := []; trace := trace w |}
             else w) in Hrun.
  destruct (months_appended subset (registry w0)
              (product (range year_start year_end) (range 1 13)) w0)
    as (appended & rest & Hreg & Hcodes & Hdone).
  rewrite Hrun in Hreg, Hdone. cbn [final_world is_done] in Hreg, Hdone.
  rewrite (Hdone eq_refl), app_nil_r in Hcodes.
  unfold build_metadata. cbn [negb orb].
  apply all_resolved_no_effect. intros ym Hym.
  rewrite Hreg, resolved_app.
  destruct (resolved (registry w0) (date_code_of ym)) eqn:Hres; [reflexivity|].
  cbn [orb]. apply resolved_In. rewrite Hcodes. apply in_map.
  apply filter_In. split; [exact Hym|]. now rewrite Hres.
Qed.

(** X5: for four-digit years, a registry without two rows of the same
    date code stays so, however the run ends. *)
Theorem registry_date_codes_unique :
  forall (subset : string) (reset_file : bool) (year_start year_end : N)
         (file_exists : bool) (w : world),
    (1000 <= year_start)%N -> (year_end <= 10000)%N ->
    NoDup (map date_code (registry w)) ->
    NoDup (map date_code
             (registry (final_world
                (build_metadata subset reset_file year_start year_end
                   file_exists w)))).
Proof.
  intros subset reset_file year_start year_end file_exists w Hlo Hhi Hw.
  unfold build_metadata.
  set (w0 := if negb file_exists || reset_file
             then {| script := script w; registry := []; trace := trace w |}
             else w).
  assert (Hw0 : NoDup (map date_code (registry w0))).
  { subst w0. destruct (negb file_exists || reset_file); [constructor | exact Hw]. }
  destruct (months_appended subset (registry w0)
              (product (range year_start year_end) (range 1 13)) w0)
    as (appended & rest & Hreg & Hcodes & _).
  rewrite Hreg, map_app.
  pose proof (months_codes_NoDup (registry w0) year_start year_end Hlo Hhi) as Hnd.
  rewrite <- Hcodes in Hnd.
  apply NoDup_app; [exact Hw0 | now apply NoDup_app_remove_r in Hnd |].
  intros dc Hold Hnew.
  assert (Hin : In dc (map date_code_of
                         (unresolved (registry w0)
                            (product (range year_start year_end) (range 1 13))))).
  { rewrite <- Hcodes. apply in_or_app. now left. }
  apply in_map_iff in Hin as (ym & <- & Hym).
  apply filter_In in Hym as [_ Hres].
  apply resolved_In in Hold. rewrite Hold in Hres. discriminate.
Qed.

Lemma build_metadata_done_rows_witness :
  exists appended,
    registry world_2004_done = known_2004 ++ appended
    /\ map date_code appended
       = map date_code_of
           (unresolved known_2004 (product (range 2004 2005) (range 1 13))).
Proof.
  exact (build_metadata_done_rows "combined" false 2004 2005 true
           world_2004 world_2004_done eq_refl).
Defined.

Lemma build_metadata_rerun_witness :
  build_metadata "combined" false 2004 2005 true world_2004_done
  = Done tt world_2004_done.
Proof.
  exact (build_metadata_rerun "combined" false 2004 2005 true
           world_2004 world_2004_done eq_refl).
Defined.

Lemma registry_date_codes_unique_witness :
  NoDup (map date_code
           (registry (final_world
              (build_metadata "combined" false 2004 2005 true world_2004)))).
Proof.
  apply (registry_date_codes_unique "combined" false 2004 2005 true world_2004).
  - lia.
  - lia.
  - repeat constructor; simpl; intuition discriminate.
Defined.

(** ** Requests that fail and snapshots that cannot be read *)

Lemma retry_loop_failed (payload : payload_t) (e : exn)
    (pending : list response) (reg : list metadata_row) (j : nat) :
  forall (a : nat) (tr : list event),
    retry_loop payload (Z.of_nat a) None
      (repeat (Answer None) j ++ Failed e :: pending) reg tr
    = Raised e
        {| script := pending; registry := reg;
           trace := tr ++ retry_events payload a (S j) |}.
Proof.
  induction j as [|j IH]; intros a tr.
  - reflexivity.
  - cbn [repeat app retry_loop].
    replace (Z.of_nat a + 1)%Z with (Z.of_nat (S a)) by lia.
    rewrite IH. f_equal. f_equal. unfold retry_events. cbn [List.seq flat_map].
    now rewrite <- app_assoc.
Qed.

Lemma lookup_failed (payload : payload_t) (k : nat) (e : exn)
    (pending : list response) (reg : list metadata_row) (tr : list event) :
  lookup payload 1
    {| script := repeat (Answer None) k ++ Failed e :: pending;
       registry := reg; trace := tr |}
  = Raised e
      {| script := pending; registry := reg;
         trace := tr ++ backoff_trace payload k |}.
Proof.
  unfold lookup, backoff_trace. cbn [script registry trace].
  destruct k as [|j]; cbn [repeat app].
  - reflexivity.
  - change 1%Z with (Z.of_nat 1). rewrite retry_loop_failed.
    f_equal. f_equal. now rewrite <- app_assoc.
Qed.

(** X6: a request that raises, at once or after [k] empty answers, ends
    the month and the run with that exception: it is not asked again, no
    further sleep follows and no row is appended for the month. *)
Theorem failed_request_not_retried :
  forall (subset : string) (metadata : list metadata_row) (year month : N)
         (k : nat) (e : exn) (pending : list response)
         (reg : list metadata_row) (tr : list event)
         (months : list (N * N)),
    resolved metadata (date_code_of (year, month)) = false ->
    io_for_each (resolve_month subset metadata) ((year, month) :: months)
      {| script := repeat (Answer None) k ++ Failed e :: pending;
         registry := reg; trace := tr |}
    = Raised e
        {| script := pending; registry := reg;
           trace := tr ++ backoff_trace
                            {| p_url := query_url subset year;
                               p_timestamp := (date_code_of (year, month) ++ "15")%string |}
                            k |}.
Proof.
  intros subset metadata year month k e pending reg tr months Hres.
  cbn [io_for_each]. unfold io_bind at 1, resolve_month.
  unfold resolved, date_code_of in Hres. cbn [fst snd] in Hres. rewrite Hres.
  unfold io_bind. rewrite lookup_failed. reflexivity.
Qed.

Lemma failed_request_not_retried_witness :
  io_for_each (resolve_month "combined" []) [(2004, 1); (2004, 2)]%N
    {| script := [Answer None; Failed ConnectionError; Answer (Some jan_2004)];
       registry := []; trace := [] |}
  = Raised ConnectionError
      {| script := [Answer (Some jan_2004)]; registry := [];
         trace := [Request (query_2004 "20040115"); Sleep 5;
                   Request (query_2004 "20040115")] |}.
Proof.
  exact (failed_request_not_retried "combined" [] 2004 1 1 ConnectionError
           [Answer (Some jan_2004)] [] [] [(2004, 2)%N] eq_refl).
Defined.

(** X7: a snapshot whose time stamp [strptime] cannot read is not recorded
    as a miss: the month ends with [ValueError], after the answers were
    used up, and the registry gets no row. *)
Theorem unreadable_snapshot_raises :
  forall (subset : string) (metadata : list metadata_row) (year month : N)
         (k : nat) (closest : snapshot) (pending : list response)
         (reg : list metadata_row) (tr : list event) (e : exn),
    resolved metadata (date_code_of (year, month)) = false ->
    Strptime.strptime (snap_timestamp closest) Strptime.fmt_YmdHMS = Raise e ->
    resolve_month subset metadata (year, month)
      {| script := repeat (Answer None) k ++ Answer (Some closest) :: pending;
         registry := reg; trace := tr |}
    = Raised ValueError
        {| script := pending; registry := reg;
           trace := tr ++ backoff_trace
                            {| p_url := query_url subset year;
                               p_timestamp := (date_code_of (year, month) ++ "15")%string |}
                            k |}.
Proof.
  intros subset metadata year month k closest pending reg tr e Hres Hts.
  unfold resolve_month.
  unfold resolved, date_code_of in Hres. cbn [fst snd] in Hres. rewrite Hres.
  unfold io_bind. rewrite lookup_answered. cbn [fst].
  unfold date_code_of. cbn [fst snd].
  set (dc := (PyStr.of_N year ++ PyStr.of_N_02d month)%string).
  set (payload := {| p_url := query_url subset year;
                     p_timestamp := (dc ++ "15")%string |}).
  destruct (new_data dc payload closest) as [row|e'] eqn:Hrow.
  - exfalso. unfold new_data in Hrow.
    destruct (Strptime.strptime (p_timestamp payload) _); [|discriminate].
    rewrite Hts in Hrow. discriminate.
  - apply new_data_raises in Hrow. subst e'. reflexivity.
Qed.

Lemma unreadable_snapshot_raises_witness :
  resolve_month "combined" [] (2004, 1)%N
    {| script := [Answer (Some {| snap_url := "http://web.archive.org/web/x";
                                  snap_timestamp := "2004-01-20" |})];
       registry := []; trace := [] |}
  = Raised ValueError
      {| script := []; registry := [];
         trace := [Request (query_2004 "20040115")] |}.
Proof.
  exact (unreadable_snapshot_raises "combined" [] 2004 1 0
           {| snap_url := "http://web.archive.org/web/x";
              snap_timestamp := "2004-01-20" |}
           [] [] [] ValueError eq_refl eq_refl).
Defined.

(** ** [download_web_content] *)

(** What one row does to the directory. *)
Lemma download_row_cases (web : string -> result string) (overwrite : bool)
    (d : disk) (row : metadata_row) :
  download_row web overwrite d row = (d, Ok tt)
  \/ (exists url, archive_url row = Some url /\ file_name row = None
                  /\ download_row web overwrite d row = (d, Raise TypeError))
  \/ (exists url name,
        archive_url row = Some url /\ file_name row = Some name
        /\ negb (PyDict.mem name (files d)) || overwrite = true
        /\ ((exists e, web url = Raise e
                       /\ download_row web overwrite d row
                          = ({| files := files d;
                                dl_trace := dl_trace d ++ [Fetch url] |}, Raise e))
            \/ (exists page, web url = Ok page
                             /\ download_row web overwrite d row
                                = ({| files := PyDict.set name page (files d);
                                      dl_trace := dl_trace d ++ [Fetch url; Pause 3] |},
                                   Ok tt)))).
Proof.
  unfold download_row.
  destruct (archive_url row) as [url|]; [|now left].
  destruct (file_name row) as [name|]; [|right; left; eauto].
  destruct (negb (PyDict.mem name (files d)) || overwrite) eqn:Hc; [|now left].
  right. right. exists url, name. repeat split; auto.
  destruct (web url) as [page|e]; [right | left]; eauto.
Qed.

Lemma download_row_keeps (web : string -> result string) (d d' : disk)
    (row : metadata_row) (r : result unit) (name page : string) :
  download_row web false d row = (d', r) ->
  PyDict.get name (files d) = Some page ->
  PyDict.get name (files d') = Some page.
Proof.
  intros Hrow Hget.
  destruct (download_row_cases web false d row)
    as [H | [(url & _ & _ & H) | (url & name' & _ & _ & Hc & H)]].
  - rewrite H in Hrow. now injection Hrow as <- _.
  - rewrite H in Hrow. now injection Hrow as <- _.
  - rewrite orb_false_r in Hc. apply negb_true_iff in Hc.
    destruct H as [(e & _ & H) | (page' & _ & H)];
      rewrite H in Hrow; injection Hrow as <- _; cbn [files]; [exact Hget|].
    rewrite get_set_other; [exact Hget|].
    intros <-. unfold PyDict.mem in Hc. rewrite Hget in Hc. discriminate.
Qed.

Lemma download_row_mem (web : string -> result string) (overwrite : bool)
    (d d' : disk) (row : metadata_row) (r : result unit) (name : string) :
  download_row web overwrite d row = (d', r) ->
  PyDict.mem name (files d) = true ->
  PyDict.mem name (files d') = true.
Proof.
  intros Hrow Hmem.
  destruct (download_row_cases web overwrite d row)
    as [H | [(url & _ & _ & H) | (url & name' & _ & _ & _ & H)]].
  - rewrite H in Hrow. now injection Hrow as <- _.
  - rewrite H in Hrow. now injection Hrow as <- _.
  - destruct H as [(e & _ & H) | (page' & _ & H)];
      rewrite H in Hrow; injection Hrow as <- _; cbn [files]; [exact Hmem|].
    now apply mem_set.
Qed.

Lemma download_rows_mem (web : string -> result string) (overwrite : bool)
    (rows : list metadata_row) :
  forall (d d' : disk) (r : result unit) (name : string),
    download_rows web overwrite rows d = (d', r) ->
    PyDict.mem name (files d) = true ->
    PyDict.mem name (files d') = true.
Proof.
  induction rows as [|row rows IH]; intros d d' r name Hrun Hmem; cbn in Hrun.
  - now injection Hrun as <- _.
  - destruct (download_row web overwrite d row) as [d1 [[]|e]] eqn:Hrow.
    + eapply IH; [exact Hrun|]. eapply download_row_mem; eauto.
    + injection Hrun as <- _. eapply download_row_mem; eauto.
Qed.

(** X8: without [overwrite], a file that is in the directory before the
    run is there after it with the same text, however the run ends. *)
Theorem download_keeps_files :
  forall (save_path : save_path_t) (web : string -> result string)
         (metadata : list metadata_row) (d d' : disk) (r : result unit)
         (name page : string),
    download_web_content save_path false web metadata d = (d', r) ->
    PyDict.get name (files d) = Some page ->
    PyDict.get name (files d') = Some page.
Proof.
  intros save_path web metadata d d' r name page. unfold download_web_content.
  destruct save_path as [p|s]; [|now intros [= <- _]].
  revert d. induction metadata as [|row rows IH]; intros d Hrun Hget; cbn in Hrun.
  - now injection Hrun as <- _.
  - destruct (download_row web false d row) as [d1 [[]|e]] eqn:Hrow.
    + eapply IH; [exact Hrun|]. eapply download_row_keeps; eauto.
    + injection Hrun as <- _. eapply download_row_keeps; eauto.
Qed.

(** X9: without [overwrite], the run only requests pages whose file was
    missing when it started: every request is for the URL of a row of the
    registry whose file name was not in the directory. *)
Theorem download_fetches_missing_only :
  forall (save_path : save_path_t) (web : string -> result string)
         (metadata : list metadata_row) (d d' : disk) (r : result unit),
    download_web_content save_path false web metadata d = (d', r) ->
    exists events,
      dl_trace d' = dl_trace d ++ events
      /\ forall url, In (Fetch url) events ->
           exists row name,
             In row metadata
             /\ archive_url row = Some url
             /\ file_name row = Some name
             /\ PyDict.mem name (files d) = false.
Proof.
  intros save_path web metadata d d' r. unfold download_web_content.
  destruct save_path as [p|s];
    [|intros [= <- _]; exists []; split; [now rewrite app_nil_r | intros ? []]].
  revert d. induction metadata as [|row rows IH]; intros d Hrun; cbn in Hrun.
  - injection Hrun as <- _. exists []. split; [now rewrite app_nil_r | intros ? []].
  - assert (Hstep : forall d1 r1,
              download_row web false d row = (d1, r1) ->
              exists ev1,
                dl_trace d1 = dl_trace d ++ ev1
                /\ forall url, In (Fetch url) ev1 ->
                     exists name,
                       archive_url row = Some url /\ file_name row = Some name
                       /\ PyDict.mem name (files d) = false).
    { intros d1 r1 Hrow.
      destruct (download_row_cases web false d row)
        as [H | [(url & _ & _ & H) | (url & name & Hu & Hn & Hc & H)]].
      - rewrite H in Hrow. injection Hrow as <- _.
        exists []. split; [now rewrite app_nil_r | intros ? []].
      - rewrite H in Hrow. injection Hrow as <- _.
        exists []. split; [now rewrite app_nil_r | intros ? []].
      - rewrite orb_false_r in Hc. apply negb_true_iff in Hc.
        destruct H as [(e & _ & H) | (page & _ & H)];
          rewrite H in Hrow; injection Hrow as <- _; cbn [dl_trace].
        + exists [Fetch url]. split; [reflexivity|].
          intros url' [[= <-] | []]. eauto.
        + exists [Fetch url; Pause 3]. split; [reflexivity|].
          intros url' [[= <-] | [[=] | []]]. eauto. }
    destruct (download_row web false d row) as [d1 [[]|e]] eqn:Hrow.
    + destruct (Hstep _ _ eq_refl) as (ev1 & Ht1 & Hf1).
      destruct (IH _ Hrun) as (ev2 & Ht2 & Hf2).
      exists (ev1 ++ ev2). split; [now rewrite Ht2, Ht1, app_assoc|].
      intros url Hin. apply in_app_or in Hin as [Hin | Hin].
      * destruct (Hf1 _ Hin) as (name & Hu & Hn & Hm).
        exists row, name. repeat split; auto. now left.
      * destruct (Hf2 _ Hin) as (row' & name & Hr & Hu & Hn & Hm).
        exists row', name. repeat split; auto; [now right|].
        destruct (PyDict.mem name (files d)) eqn:Hd; [|reflexivity].
        rewrite (download_row_mem web false d d1 row (Ok tt) name Hrow Hd) in Hm.
        discriminate.
    + injection Hrun as <- _.
      destruct (Hstep _ _ eq_refl) as (ev1 & Ht1 & Hf1).
      exists ev1. split; [exact Ht1|].
      intros url Hin. destruct (Hf1 _ Hin) as (name & Hu & Hn & Hm).
      exists row, name. repeat split; auto. now left.
Qed.

Lemma download_row_present (web : string -> result string) (overwrite : bool)
    (d d' : disk) (row : metadata_row) (url : string) :
  download_row web overwrite d row = (d', Ok tt) ->
  archive_url row = Some url ->
  exists name, file_name row = Some name /\ PyDict.mem name (files d') = true.
Proof.
  unfold download_row. intros Hrow Hurl. rewrite Hurl in Hrow.
  destruct (file_name row) as [name|]; [|discriminate].
  exists name. split; [reflexivity|].
  destruct (PyDict.mem name (files d)) eqn:Hm, overwrite; cbn [negb orb] in Hrow.
  - destruct (web url); [|discriminate]. injection Hrow as <-.
    cbn [files]. unfold PyDict.mem. now rewrite get_set_same.
  - now injection Hrow as <-.
  - destruct (web url); [|discriminate]. injection Hrow as <-.
    cbn [files]. unfold PyDict.mem. now rewrite get_set_same.
  - destruct (web url); [|discriminate]. injection Hrow as <-.
    cbn [files]. unfold PyDict.mem. now rewrite get_set_same.
Qed.

Lemma download_rows_present (web : string -> result string) (overwrite : bool)
    (rows : list metadata_row) :
  forall (d d' : disk),
    download_rows web overwrite rows d = (d', Ok tt) ->
    forall row url,
      In row rows -> archive_url row = Some url ->
      exists name, file_name row = Some name
                   /\ PyDict.mem name (files d') = true.
Proof.
  induction rows as [|row0 rows IH]; intros d d' Hrun row url Hin Hurl;
    [destruct Hin|]. cbn in Hrun.
  destruct (download_row web overwrite d row0) as [d1 [[]|e]] eqn:Hrow;
    [|discriminate].
  destruct Hin as [-> | Hin]; [|eapply IH; eauto].
  destruct (download_row_present web overwrite d d1 row url Hrow Hurl)
    as (name & Hn & Hm).
  exists name. split; [exact Hn|]. eapply download_rows_mem; eauto.
Qed.

Lemma download_rows_provenance (web : string -> result string)
    (overwrite : bool) (rows : list metadata_row) :
  forall (d d' : disk) (r : result unit) (name page : string),
    download_rows web overwrite rows d = (d', r) ->
    PyDict.get name (files d') = Some page ->
    PyDict.get name (files d) = Some page
    \/ exists row url,
         In row rows /\ archive_url row = Some url
         /\ file_name row = Some name /\ web url = Ok page.
Proof.
  induction rows as [|row rows IH]; intros d d' r name page Hrun Hget;
    cbn in Hrun.
  - injection Hrun as <- _. now left.
  - assert (Hstep : forall d1 r1,
              download_row web overwrite d row = (d1, r1) ->
              PyDict.get name (files d1) = Some page ->
              PyDict.get name (files d) = Some page
              \/ exists url, archive_url row = Some url
                             /\ file_name row = Some name /\ web url = Ok page).
    { intros d1 r1 Hrow Hg.
      destruct (download_row_cases web overwrite d row)
        as [H | [(url & _ & _ & H) | (url & name' & Hu & Hn & _ & H)]].
      - rewrite H in Hrow. injection Hrow as <- _. now left.
      - rewrite H in Hrow. injection Hrow as <- _. now left.
      - destruct H as [(e & _ & H) | (page' & Hw & H)];
          rewrite H in Hrow; injection Hrow as <- _; cbn [files] in Hg;
          [now left|].
        destruct (String.eqb_spec name' name) as [->|Hne].
        + rewrite get_set_same in Hg. injection Hg as ->. right. eauto.
        + rewrite get_set_other in Hg by exact Hne. now left. }
    destruct (download_row web overwrite d row) as [d1 [[]|e]] eqn:Hrow.
    + destruct (IH _ _ _ _ _ Hrun Hget) as [Hg | (row' & url & Hin & Hu & Hn & Hw)].
      * destruct (Hstep _ _ eq_refl Hg) as [Hd | (url & Hu & Hn & Hw)];
          [now left|]. right. exists row, url. repeat split; auto. now left.
      * right. exists row', url. repeat split; auto. now right.
    + injection Hrun as <- _.
      destruct (Hstep _ _ eq_refl Hget) as [Hd | (url & Hu & Hn & Hw)];
        [now left|]. right. exists row, url. repeat split; auto. now left.
Qed.

(** X10: after a run that ended normally, every row of the registry with
    an [archive_url] has its file in the directory; and, however a run
    ends, a file of the directory is one that was there before, unchanged,
    or holds the page that the web gave for the URL of a row with that
    file name. *)
Theorem download_done_files :
  forall (save_path : save_path_t) (overwrite : bool)
         (web : string -> result string) (metadata : list metadata_row)
         (d d' : disk),
    download_web_content save_path overwrite web metadata d = (d', Ok tt) ->
    (forall row url,
       In row metadata -> archive_url row = Some url ->
       exists name, file_name row = Some name
                    /\ PyDict.mem name (files d') = true)
    /\ (forall name page,
          PyDict.get name (files d') = Some page ->
          PyDict.get name (files d) = Some page
          \/ exists row url,
               In row metadata /\ archive_url row = Some url
               /\ file_name row = Some name /\ web url = Ok page).
Proof.
  intros save_path overwrite web metadata d d'. unfold download_web_content.
  destruct save_path as [p|s]; [|discriminate].
  intros Hrun. split.
  - now apply download_rows_present with (web := web) (overwrite := overwrite) (d := d).
  - intros name page.
    now apply download_rows_provenance with (overwrite := overwrite) (r := Ok tt).
Qed.

Lemma download_rows_nothing_to_do (web : string -> result string)
    (rows : list metadata_row) (d : disk) :
  (forall row url,
     In row rows -> archive_url row = Some url ->
     exists name, file_name row = Some name
                  /\ PyDict.mem name (files d) = true) ->
  download_rows web false rows d = (d, Ok tt).
Proof.
  induction rows as [|row rows IH]; intros Hall; [reflexivity|]. cbn.
  assert (Hrow : download_row web false d row = (d, Ok tt)).
  { unfold download_row. destruct (archive_url row) as [url|] eqn:Hu; [|reflexivity].
    destruct (Hall row url (or_introl eq_refl) Hu) as (name & -> & Hm).
    now rewrite Hm. }
  rewrite Hrow. apply IH. intros row' url Hin. apply Hall. now right.
Qed.

(** X11: without [overwrite], a second run after one that ended normally
    requests nothing, sleeps never and leaves the directory as it is. *)
Theorem download_rerun :
  forall (save_path : save_path_t) (overwrite : bool)
         (web web' : string -> result string) (metadata : list metadata_row)
         (d d' : disk),
    download_web_content save_path overwrite web metadata d = (d', Ok tt) ->
    download_web_content save_path false web' metadata d' = (d', Ok tt).
Proof.
  intros save_path overwrite web web' metadata d d'. unfold download_web_content.
  destruct save_path as [p|s]; [|discriminate].
  intros Hrun. apply download_rows_nothing_to_do.
  now apply download_rows_present with (web := web) (overwrite := overwrite) (d := d).
Qed.

Lemma download_keeps_files_witness :
  PyDict.get "20031215000000.txt" (files disk_after)
  = Some "<html>an older page</html>".
Proof.
  exact (download_keeps_files (APath "pages") web_2004 (registry world_2004_done)
           disk_before disk_after (Ok tt)
           "20031215000000.txt" "<html>an older page</html>" eq_refl eq_refl).
Defined.

Lemma download_fetches_missing_only_witness :
  exists events,
    dl_trace disk_after = dl_trace disk_before ++ events
    /\ forall url, In (Fetch url) events ->
         exists row name,
           In row (registry world_2004_done)
           /\ archive_url row = Some url
           /\ file_name row = Some name
           /\ PyDict.mem name (files disk_before) = false.
Proof.
  exact (download_fetches_missing_only (APath "pages") web_2004
           (registry world_2004_done) disk_before disk_after (Ok tt) eq_refl).
Defined.

Lemma download_done_files_witness :
  (forall row url,
     In row (registry world_2004_done) -> archive_url row = Some url ->
     exists name, file_name row = Some name
                  /\ PyDict.mem name (files disk_after) = true)
  /\ (forall name page,
        PyDict.get name (files disk_after) = Some page ->
        PyDict.get name (files disk_before) = Some page
        \/ exists row url,
             In row (registry world_2004_done) /\ archive_url row = Some url
             /\ file_name row = Some name /\ web_2004 url = Ok page).
Proof.
  exact (download_done_files (APath "pages") false web_2004
           (registry world_2004_done) disk_before disk_after eq_refl).
Defined.

Lemma download_rerun_witness :
  download_web_content (APath "pages") false (fun _ => Raise ConnectionError)
    (registry world_2004_done) disk_after
  = (disk_after, Ok tt).
Proof.
  exact (download_rerun (APath "pages") false web_2004
           (fun _ => Raise ConnectionError)
           (registry world_2004_done) disk_before disk_after eq_refl).
Defined.

(** ** [parse_data_content] *)

(** X12: one page that cannot be parsed ends [parse_data_content] with an
    exception, whichever other pages there are: the JSON file is not
    written. *)
Theorem parse_data_content_aborts :
  forall (subset : string) (rows : list content_row) (row : content_row)
         (store : survey_files),
    In row rows ->
    (exists e, parse_page (row_year row) (row_month row) (row_soup row) = Raise e) ->
    exists e, parse_data_content_file subset rows store = Raise e.
Proof.
  intros subset rows row store Hin [e He].
  unfold parse_data_content_file.
  assert (H : exists e', parse_data_content rows = Raise e').
  { unfold parse_data_content. apply for_each_raises with (x := row); [exact Hin|].
    intros acc. rewrite He. cbn. eauto. }
  destruct H as [e' ->]. cbn. eauto.
Qed.

Lemma parse_data_content_aborts_witness :
  exists e,
    parse_data_content_file "combined"
      (rows_2020 ++ [ {| row_date_code := "202003"; row_year := 2020;
                         row_month := 3; row_soup := page_bad |} ]) []
    = Raise e.
Proof.
  apply (parse_data_content_aborts "combined" _
           {| row_date_code := "202003"; row_year := 2020; row_month := 3;
              row_soup := page_bad |} []).
  - apply in_or_app. right. now left.
  - exists AttributeError. reflexivity.
Defined.

Lemma parse_loop_reports (rows : list content_row) :
  forall acc reports,
    for_each (fun steam_hw_survey row =>
                data_dict <- parse_page (row_year row) (row_month row) (row_soup row) ;;
                match data_dict with
                | [] => Ok steam_hw_survey
                | _ :: _ =>
                    Ok (steam_hw_survey ++ [to_report data_dict (row_date_code row)])
                end) rows acc = Ok reports ->
    reports = acc ++ flat_map kept_report rows.
Proof.
  induction rows as [|row rows IH]; intros acc reports H; cbn [for_each] in H.
  - injection H as <-. cbn. now rewrite app_nil_r.
  - cbn [flat_map]. unfold kept_report at 1.
    destruct (parse_page (row_year row) (row_month row) (row_soup row))
      as [[|c d]|e]; cbn [bind] in H; [| |discriminate].
    + now apply IH in H.
    + apply IH in H. rewrite H, <- app_assoc. reflexivity.
Qed.

Lemma to_report_date_code (data_dict : data_json_t) (dc : string) :
  PyDict.get "date_code" (to_report data_dict dc) = Some (JStr dc).
Proof.
  unfold to_report. apply get_set_same.
Qed.

Lemma get_map_JObj (data_dict : data_json_t) (cat : string) :
  PyDict.get cat (map (fun kv => (fst kv, JObj (snd kv))) data_dict)
  = option_map (@JObj pyfloat) (PyDict.get cat data_dict).
Proof.
  induction data_dict as [|[k v] d IH]; cbn; [reflexivity|].
  destruct (String.eqb cat k); [reflexivity | exact IH].
Qed.

(** X13: what [parse_data_content] writes.  The reports are those of the
    rows whose page gives a mapping that is not empty, in the order of the
    rows; a report answers ["date_code"] with the date code of its row and
    any other key with the items the page has for that category - a
    category that a page calls "date_code" is lost. *)
Theorem parse_data_content_reports :
  forall (rows : list content_row) (reports : list (report pyfloat)),
    parse_data_content rows = Ok reports ->
    reports = flat_map kept_report rows
    /\ Forall (fun item =>
                 exists row data_dict,
                   In row rows
                   /\ parse_page (row_year row) (row_month row) (row_soup row)
                      = Ok data_dict
                   /\ data_dict <> []
                   /\ PyDict.get "date_code" item = Some (JStr (row_date_code row))
                   /\ forall cat, cat <> "date_code" ->
                        PyDict.get cat item
                        = option_map (@JObj pyfloat) (PyDict.get cat data_dict))
              reports.
Proof.
  intros rows reports H. unfold parse_data_content in H.
  apply parse_loop_reports in H. cbn [app] in H. split; [exact H|].
  subst reports. apply Forall_forall. intros item Hin.
  apply in_flat_map in Hin as (row & Hrow & Hin).
  unfold kept_report in Hin.
  destruct (parse_page (row_year row) (row_month row) (row_soup row))
    as [[|c d]|e] eqn:Hp; try destruct Hin as [<- | []]; try destruct Hin.
  exists row, (c :: d). split; [exact Hrow|]. split; [exact Hp|].
  split; [discriminate|]. split; [apply to_report_date_code|].
  intros cat Hcat. unfold to_report.
  rewrite get_set_other by congruence. apply get_map_JObj.
Qed.

Lemma parse_data_content_reports_witness :
  [report_202001] = flat_map kept_report rows_2020
  /\ Forall (fun item =>
               exists row data_dict,
                 In row rows_2020
                 /\ parse_page (row_year row) (row_month row) (row_soup row)
                    = Ok data_dict
                 /\ data_dict <> []
                 /\ PyDict.get "date_code" item = Some (JStr (row_date_code row))
                 /\ forall cat, cat <> "date_code" ->
                      PyDict.get cat item
                      = option_map (@JObj pyfloat) (PyDict.get cat data_dict))
            [report_202001].
Proof.
  exact (parse_data_content_reports rows_2020 [report_202001] eq_refl).
Defined.

(** ** Blocks without a partner *)

Lemma combine_surplus_l {A B : Type} (l extra : list A) (l' : list B) :
  length l = length l' -> combine (l ++ extra) l' = combine l l'.
Proof.
  revert l'. induction l as [|x l IH]; intros [|y l'] H; try discriminate.
  - now destruct extra.
  - cbn. f_equal. apply IH. now injection H.
Qed.

Lemma combine_surplus_r {A B : Type} (l : list A) (l' extra : list B) :
  length l = length l' -> combine l (l' ++ extra) = combine l l'.
Proof.
  revert l'. induction l as [|x l IH]; intros [|y l'] H; try discriminate.
  - reflexivity.
  - cbn. f_equal. apply IH. now injection H.
Qed.

(** X14: the modern parser pairs detail blocks and titles by position
    and stops at the shorter list: detail blocks after the last title, and
    titles after the last detail block, are not parsed at all - whatever
    they hold, they change neither the mapping nor whether the parse
    raises. *)
Theorem modern_parser_surplus :
  forall (caps : list capsule) (trees extra_trees : list (list string))
         (titles extra_titles : list (option string)),
    length trees = length titles ->
    modern_parser {| capsules := caps; cat_tree := trees ++ extra_trees;
                     cat_title := titles |}
    = modern_parser {| capsules := caps; cat_tree := trees; cat_title := titles |}
    /\ modern_parser {| capsules := caps; cat_tree := trees;
                        cat_title := titles ++ extra_titles |}
       = modern_parser {| capsules := caps; cat_tree := trees;
                          cat_title := titles |}.
Proof.
  intros caps trees extra_trees titles extra_titles Hlen.
  unfold modern_parser. cbn [cat_tree cat_title].
  now rewrite combine_surplus_l, combine_surplus_r.
Qed.

Lemma modern_parser_surplus_witness :
  modern_parser {| capsules := [];
                   cat_tree := cat_tree page_good ++ cat_tree page_bad;
                   cat_title := cat_title page_good |}
  = modern_parser page_good
  /\ modern_parser {| capsules := [];
                      cat_tree := cat_tree page_good;
                      cat_title := cat_title page_good ++ [None] |}
     = modern_parser page_good.
Proof.
  exact (modern_parser_surplus [] (cat_tree page_good) (cat_tree page_bad)
           (cat_title page_good) [None] eq_refl).
Defined.

(** ** Keys of the mappings *)

Lemma In_keys_set (V : Type) (k x : string) (v : V) (d : PyDict.dict V) :
  In x (PyDict.keys (PyDict.set k v d)) <-> x = k \/ In x (PyDict.keys d).
Proof.
  induction d as [|[k' v'] d IH]; cbn.
  - intuition.
  - destruct (String.eqb_spec k k') as [->|Hne]; cbn.
    + intuition.
    + rewrite IH. intuition.
Qed.

Lemma set_keys_NoDup (V : Type) (k : string) (v : V) (d : PyDict.dict V) :
  NoDup (PyDict.keys d) -> NoDup (PyDict.keys (PyDict.set k v d)).
Proof.
  induction d as [|[k' v'] d IH]; cbn; intros H.
  - constructor; [intros [] | constructor].
  - inversion H as [|? ? Hnotin Hd]; subst.
    destruct (String.eqb_spec k k') as [->|Hne]; cbn.
    + now constructor.
    + constructor; [|now apply IH].
      intros Hin. apply (proj1 (In_keys_set V k k' v d)) in Hin.
      destruct Hin as [-> | Hin]; [congruence | auto].
Qed.

Lemma set_Forall (V : Type) (P : string * V -> Prop) (k : string) (v : V)
    (d : PyDict.dict V) :
  Forall P d -> P (k, v) -> Forall P (PyDict.set k v d).
Proof.
  intros Hd Hkv. induction d as [|[k' v'] d IH]; cbn.
  - now constructor.
  - inversion Hd; subst. destruct (String.eqb k k'); constructor; auto.
Qed.

Lemma unique_keys_new_category (name : string) (data_json : data_json_t) :
  unique_keys data_json -> unique_keys (PyDict.set name [] data_json).
Proof.
  intros [Hk Hi]. split; [now apply set_keys_NoDup|].
  apply set_Forall; [exact Hi | constructor].
Qed.

Lemma set_item_unique_keys (cat item : string) (value : pyfloat)
    (data_json data_json' : data_json_t) :
  set_item cat item value data_json = Ok data_json' ->
  unique_keys data_json -> unique_keys data_json'.
Proof.
  unfold set_item, PyDict.item.
  destruct (PyDict.get cat data_json) as [inner|] eqn:Hget; [|discriminate].
  cbn [bind]. intros [= <-] [Hk Hi]. split; [now apply set_keys_NoDup|].
  apply set_Forall; [exact Hi|]. cbn [snd]. apply set_keys_NoDup.
  apply get_In in Hget. rewrite Forall_forall in Hi. exact (Hi _ Hget).
Qed.

Lemma old_group_unique_keys (name : string) (data_json data_json' : data_json_t)
    (group : list (option string)) :
  unique_keys data_json ->
  old_group name data_json group = Ok data_json' ->
  unique_keys data_json'.
Proof.
  intros Hu. unfold old_group.
  destruct group as [|l [|m [|r rest]]]; try discriminate.
  destruct (text l); [|discriminate]. cbn [bind].
  destruct (text r); [|discriminate]. cbn [bind].
  destruct (float _); [|discriminate]. cbn [bind].
  intros H. eapply set_item_unique_keys; eauto.
Qed.

Lemma modern_group_unique_keys (name : string)
    (data_json data_json' : data_json_t) (group : list (option string)) :
  unique_keys data_json ->
  modern_group name data_json group = Ok data_json' ->
  unique_keys data_json'.
Proof.
  intros Hu. unfold modern_group.
  destruct group as [|l [|m [|r [|? ?]]]]; try discriminate.
  destruct (text l) as [lt|]; [|discriminate]. cbn [bind].
  destruct (if negb (String.eqb (PyStr.strip lt) "") then _ else _) as [item|];
    [|discriminate]. cbn [bind].
  destruct (text r) as [rt|]; [|discriminate]. cbn [bind].
  destruct (perc_value rt) as [value|]; [|discriminate]. cbn [bind].
  unfold store.
  destruct (existsb _ _); [|intros H; eapply set_item_unique_keys; eauto].
  destruct (String.eqb item "Windows").
  - destruct (negb (PyDict.mem os_total data_json));
      intros H; eapply set_item_unique_keys; eauto.
    now apply unique_keys_new_category.
  - destruct (negb (PyDict.mem os_total data_json));
      intros H; eapply set_item_unique_keys; eauto.
Qed.

Lemma old_parser_unique_keys (s : soup) (agg_ram : bool) (data_json : data_json_t) :
  old_parser s agg_ram = Ok data_json -> unique_keys data_json.
Proof.
  unfold old_parser.
  apply for_each_invariant with (P := unique_keys);
    [|split; [constructor | constructor]].
  intros d tree d' Hd. unfold old_tree.
  destruct (text (find_b tree)) as [name|]; [|discriminate]. cbn [bind].
  destruct (find_table tree) as [cells|]; [|discriminate]. cbn [bind].
  apply for_each_invariant with (P := unique_keys).
  - intros d1 g d2 Hd1. now apply old_group_unique_keys.
  - now apply unique_keys_new_category.
Qed.

Lemma modern_parser_unique_keys (s : soup) (data_json : data_json_t) :
  modern_parser s = Ok data_json -> unique_keys data_json.
Proof.
  unfold modern_parser.
  apply for_each_invariant with (P := unique_keys);
    [|split; [constructor | constructor]].
  intros d [tree title] d' Hd. unfold modern_tree.
  destruct (text title) as [name|]; [|discriminate]. cbn [bind].
  apply for_each_invariant with (P := unique_keys).
  - intros d1 g d2 Hd1. now apply modern_group_unique_keys.
  - now apply unique_keys_new_category.
Qed.

Lemma parse_page_unique_keys (year month : Z) (s : soup)
    (data_json : data_json_t) :
  parse_page year month s = Ok data_json -> unique_keys data_json.
Proof.
  unfold parse_page. destruct (is_modern year month).
  - apply modern_parser_unique_keys.
  - apply old_parser_unique_keys.
Qed.

(** X15: the mapping a parser returns is a proper [dict] of [dict]s in
    both layouts - no category name twice and, within a category, no item
    label twice - whatever the page repeats: a repeated title starts the
    category again and a repeated label replaces the value. *)
Theorem parsers_unique_keys :
  forall (year month : Z) (s : soup) (data_json : data_json_t),
    parse_page year month s = Ok data_json -> unique_keys data_json.
Proof.
  exact parse_page_unique_keys.
Qed.

Lemma parsers_unique_keys_witness :
  unique_keys [("RAM", [("1 GB", PyFinite false 410 (-1))])].
Proof.
  exact (parsers_unique_keys 2004 5
           {| capsules :=
                [ {| find_b := Some "RAM";
                     find_table := Some ["1 GB"; ""; "40.0%"] |};
                  {| find_b := Some " RAM";
                     find_table := Some ["1 GB"; ""; "39.0%";
                                         " 1 GB "; ""; "41.0%"] |} ];
              cat_tree := []; cat_title := [] |}
           [("RAM", [("1 GB", PyFinite false 410 (-1))])] eq_refl).
Defined.

Lemma keys_map_JObj (data_dict : data_json_t) :
  PyDict.keys (map (fun kv => (fst kv, @JObj pyfloat (snd kv))) data_dict)
  = PyDict.keys data_dict.
Proof.
  unfold PyDict.keys. rewrite map_map. reflexivity.
Qed.

(** Reports with proper [dict]s have no (category, label) pair twice. *)
Lemma entries_NoDup (V : Type) (item : report V) :
  NoDup (PyDict.keys item) ->
  (forall cat items, PyDict.get cat item = Some (JObj items) ->
                     NoDup (PyDict.keys items)) ->
  NoDup (map fst (entries item)).
Proof.
  intros Hk Hi. unfold entries. rewrite map_flat_map.
  set (body := fun cat : string =>
                 match PyDict.get cat item with
                 | Some (JObj items) => PyDict.keys items
                 | _ => []
                 end).
  replace (flat_map _ _)
    with (flat_map (fun cat => map (pair cat) (body cat))
            (filter is_category (PyDict.keys item))).
  - apply (NoDup_tagged (fun cat : string => cat) body).
    + rewrite map_id. now apply NoDup_filter.
    + intros cat _. unfold body.
      destruct (PyDict.get cat item) as [[s|items]|] eqn:Hg; try constructor.
      now apply Hi with (cat := cat).
  - apply flat_map_ext. intros cat. unfold body.
    destruct (PyDict.get cat item) as [[s|items]|]; try reflexivity.
    unfold PyDict.keys. rewrite !map_map. reflexivity.
Qed.

(** X16: in a report that [parse_data_content] writes, no (category, item
    label) pair occurs twice. *)
Theorem parsed_reports_distinct_entries :
  forall (rows : list content_row) (reports : list (report pyfloat)),
    parse_data_content rows = Ok reports ->
    Forall (fun item => NoDup (map fst (entries item))) reports.
Proof.
  intros rows reports H. unfold parse_data_content in H.
  apply parse_loop_reports in H. cbn [app] in H. subst reports.
  apply Forall_forall. intros item Hin.
  apply in_flat_map in Hin as (row & _ & Hin). unfold kept_report in Hin.
  destruct (parse_page (row_year row) (row_month row) (row_soup row))
    as [[|c d]|e] eqn:Hp; try destruct Hin as [<- | []]; try destruct Hin.
  apply parse_page_unique_keys in Hp.
  destruct Hp as [Hk Hi]. apply entries_NoDup.
  - unfold to_report. apply set_keys_NoDup. now rewrite keys_map_JObj.
  - intros cat items Hget. unfold to_report in Hget.
    destruct (String.eqb_spec cat "date_code") as [->|Hne].
    + rewrite get_set_same in Hget. discriminate.
    + rewrite get_set_other in Hget by congruence.
      rewrite get_map_JObj in Hget.
      destruct (PyDict.get cat (c :: d)) as [items'|] eqn:Hg; [|discriminate].
      injection Hget as <-. apply get_In in Hg.
      rewrite Forall_forall in Hi. exact (Hi _ Hg).
Qed.

Lemma parsed_reports_distinct_entries_witness :
  Forall (fun item => NoDup (map fst (entries item))) [report_202001].
Proof.
  exact (parsed_reports_distinct_entries rows_2020 [report_202001] eq_refl).
Defined.

(** ** The values of the modern layout *)

(** A greedy repetition consumes characters of its class, as many as its
    bounds allow. *)
Lemma many_inv_class (R : Type) (p : ascii -> bool) (k : Re.cont R)
    (s : list ascii) :
  forall lo hi before caps x,
    Re.many p lo hi before s caps k = Some x ->
    exists consumed s',
      s = consumed ++ s'
      /\ Forall (fun c => p c = true) consumed
      /\ lo <= length consumed
      /\ match hi with Some h => length consumed <= h | None => True end
      /\ k (rev consumed ++ before) s' caps = Some x.
Proof.
  induction s as [|c s IH]; intros lo hi before caps x H; simpl in H.
  - destruct lo; [|discriminate]. exists [], []. cbn.
    repeat split; auto. destruct hi; [lia | exact I].
  - assert (Hstop : match lo with 0 => k before (c :: s) caps | S _ => None end = Some x ->
                    exists consumed s',
                      c :: s = consumed ++ s'
                      /\ Forall (fun c => p c = true) consumed
                      /\ lo <= length consumed
                      /\ match hi with Some h => length consumed <= h | None => True end
                      /\ k (rev consumed ++ before) s' caps = Some x).
    { intros H0. destruct lo; [|discriminate]. exists [], (c :: s). cbn.
      repeat split; auto. destruct hi; [lia | exact I]. }
    assert (Hmore : forall hi',
               p c = true ->
               match hi, hi' with
               | Some h, Some h' => h = S h'
               | None, None => True
               | _, _ => False
               end ->
               Re.many p (pred lo) hi' (c :: before) s caps k = Some x ->
               exists consumed s',
                 c :: s = consumed ++ s'
                 /\ Forall (fun c => p c = true) consumed
                 /\ lo <= length consumed
                 /\ match hi with Some h => length consumed <= h | None => True end
                 /\ k (rev consumed ++ before) s' caps = Some x).
    { intros hi' Hp Hhi H0.
      destruct (IH _ _ _ _ _ H0) as (cons & s' & -> & Hall & Hlo & Hbound & Hk).
      exists (c :: cons), s'. split; [reflexivity|].
      split; [now constructor|]. split; [cbn; lia|]. split.
      - destruct hi as [h|], hi' as [h'|]; try contradiction; cbn; [lia | exact I].
      - cbn. rewrite <- app_assoc. exact Hk. }
    destruct hi as [[|h]|]; [auto | |].
    + destruct (p c) eqn:Hp; [|auto].
      destruct (Re.many p (pred lo) (Some h) (c :: before) s caps k) eqn:E; [|auto].
      injection H as <-. now apply Hmore with (hi' := Some h).
    + destruct (p c) eqn:Hp; [|auto].
      destruct (Re.many p (pred lo) None (c :: before) s caps k) eqn:E; [|auto].
      injection H as <-. now apply Hmore with (hi' := @None nat).
Qed.

Lemma consumed_text (consumed before : list ascii) :
  rev (firstn (length (rev consumed ++ before) - length before)
              (rev consumed ++ before)) = consumed.
Proof.
  rewrite length_app, length_rev, Nat.add_sub.
  rewrite <- (length_rev consumed), firstn_app, Nat.sub_diag, firstn_all. cbn.
  now rewrite app_nil_r, rev_involutive.
Qed.

(** The text of a match of the percentage pattern: one to three digits, a
    point, two digits and a percent sign. *)
Lemma perc_match_shape (before s : list ascii) (m : Re.match_obj) :
  Re.match_here _RE_PERC before s = Some m ->
  exists ds1 d1 d2,
    Re.m_text m = PyStr.str (ds1 ++ "."%char :: [d1; d2] ++ ["%"%char])
    /\ Forall (fun c => PyStr.isdigit c = true) ds1
    /\ 1 <= length ds1 <= 3
    /\ PyStr.isdigit d1 = true /\ PyStr.isdigit d2 = true.
Proof.
  unfold Re.match_here, _RE_PERC. cbn [Re.seq Re.run].
  destruct (existsb _ _); [discriminate|].
  set (k0 := fun (b : list ascii) (_ : list ascii) (cs : Re.captures) =>
               Some {| Re.m_start := length before;
                       Re.m_text := PyStr.str (rev (firstn (length b - length before) b));
                       Re.m_groups := cs |}).
  intros H.
  apply many_inv_class in H as (ds1 & s1 & -> & Hds1 & Hlo & Hhi & H).
  unfold Re.lit_char in H. cbn [Re.run] in H.
  destruct s1 as [|c s1]; [discriminate|].
  destruct (PyStr.is_char "." c) eqn:Hc; [|discriminate].
  apply Ascii.eqb_eq in Hc. subst c.
  apply many_inv_class in H as (ds2 & s2 & -> & Hds2 & Hlo2 & Hhi2 & H).
  destruct s2 as [|c s2]; [discriminate|].
  destruct (PyStr.is_char "%" c) eqn:Hc; [|discriminate].
  apply Ascii.eqb_eq in Hc. subst c.
  destruct ds2 as [|d1 [|d2 [|? ?]]]; cbn [length] in Hlo2, Hhi2; try lia.
  inversion Hds2 as [|? ? Hd1 Hrest]; subst.
  inversion Hrest as [|? ? Hd2 _]; subst.
  exists ds1, d1, d2.
  replace ("%"%char :: rev [d1; d2] ++ "."%char :: rev ds1 ++ before)
    with (rev (ds1 ++ "."%char :: [d1; d2] ++ ["%"%char]) ++ before) in H
    by (rewrite rev_app_distr; cbn [rev app]; reflexivity).
  subst k0. cbv beta in H. rewrite consumed_text in H.
  injection H as <-. cbn [Re.m_text]. repeat split; auto.
Qed.

(** What a decimal digit is not. *)
Lemma digit_facts (c : ascii) :
  PyStr.isdigit c = true ->
  PyFloat.py_isspace c = false
  /\ PyStr.one_of "%" c = false
  /\ Ascii.eqb c "-" = false
  /\ Ascii.eqb c "+" = false
  /\ PyFloat.lower c = c
  /\ Ascii.eqb c "i" = false
  /\ Ascii.eqb c "n" = false
  /\ (PyStr.digit_value c <= 9)%N.
Proof.
  destruct c as [[] [] [] [] [] [] [] []]; intros H; try discriminate H;
    vm_compute; repeat split; try reflexivity; discriminate.
Qed.

Lemma chars_str (l : list ascii) : PyStr.chars (PyStr.str l) = l.
Proof.
  apply list_ascii_of_string_of_list_ascii.
Qed.

(** [strip] leaves a text alone that starts and ends with other
    characters. *)
Lemma strip_by_id (p : ascii -> bool) (a z : ascii) (l : list ascii) :
  p a = false -> p z = false ->
  PyStr.strip_by p (a :: l ++ [z]) = a :: l ++ [z].
Proof.
  intros Ha Hz. unfold PyStr.strip_by, PyStr.rstrip_by.
  cbn [PyStr.lstrip_by]. rewrite Ha.
  change (a :: l ++ [z]) with ((a :: l) ++ [z]).
  rewrite rev_app_distr. cbn [rev app PyStr.lstrip_by]. rewrite Hz.
  change (z :: rev l ++ [a]) with ([z] ++ rev (a :: l)).
  rewrite rev_app_distr, rev_involutive. reflexivity.
Qed.

Lemma strip_by_last (p : ascii -> bool) (a y z : ascii) (l : list ascii) :
  p a = false -> p y = false -> p z = true ->
  PyStr.strip_by p (a :: l ++ [y; z]) = a :: l ++ [y].
Proof.
  intros Ha Hy Hz. unfold PyStr.strip_by, PyStr.rstrip_by.
  cbn [PyStr.lstrip_by]. rewrite Ha.
  change (a :: l ++ [y; z]) with ((a :: l) ++ [y; z]).
  rewrite rev_app_distr. cbn [rev app PyStr.lstrip_by]. rewrite Hz, Hy.
  change (y :: rev l ++ [a]) with ([y] ++ rev (a :: l)).
  rewrite rev_app_distr, rev_involutive. reflexivity.
Qed.

Lemma digitpart_tail_digits (ds rest : list ascii) :
  Forall (fun c => PyStr.isdigit c = true) ds ->
  rest = [] \/ (exists r, rest = "."%char :: r) ->
  PyFloat.digitpart_tail (ds ++ rest) = (ds, rest).
Proof.
  intros Hds Hrest. induction Hds as [|c ds Hc _ IH]; cbn [app].
  - destruct Hrest as [-> | [r ->]]; reflexivity.
  - cbn [PyFloat.digitpart_tail]. rewrite Hc, IH. reflexivity.
Qed.

Lemma int_of_digits_lt (l : list ascii) :
  Forall (fun c => PyStr.isdigit c = true) l ->
  (PyStr.int_of_digits l < 10 ^ N.of_nat (length l))%N.
Proof.
  unfold PyStr.int_of_digits. intros Hl.
  assert (H : forall acc,
             (fold_left (fun acc c => 10 * acc + PyStr.digit_value c) l acc + 1
              <= (acc + 1) * 10 ^ N.of_nat (length l))%N).
  { induction Hl as [|c l Hc _ IH]; intros acc.
    - cbn. lia.
    - cbn [fold_left length]. rewrite Nat2N.inj_succ, N.pow_succ_r'.
      etransitivity; [apply IH|].
      destruct (digit_facts c Hc) as (_ & _ & _ & _ & _ & _ & _ & Hv).
      rewrite N.mul_assoc. apply N.mul_le_mono_r. lia. }
  specialize (H 0%N). lia.
Qed.

(** The value of a matched text. *)
Lemma float_of_match (ds1 : list ascii) (d1 d2 : ascii) :
  Forall (fun c => PyStr.isdigit c = true) ds1 ->
  1 <= length ds1 ->
  PyStr.isdigit d1 = true -> PyStr.isdigit d2 = true ->
  float (PyStr.strip_chars "%"
           (PyStr.str (ds1 ++ "."%char :: [d1; d2] ++ ["%"%char])))
  = Ok (PyFinite false (PyStr.int_of_digits (ds1 ++ [d1; d2])) (-2)).
Proof.
  intros Hds1 Hlen Hd1 Hd2.
  destruct ds1 as [|c1 t1]; [cbn in Hlen; lia|].
  inversion Hds1 as [|? ? Hc1 Ht1]; subst.
  destruct (digit_facts c1 Hc1) as (Hsp1 & Hpc1 & Hm1 & Hp1 & Hl1 & Hi1 & Hn1 & _).
  destruct (digit_facts d2 Hd2) as (Hsp2 & Hpc2 & _).
  unfold float, PyStr.strip_chars. rewrite chars_str.
  replace ((c1 :: t1) ++ "."%char :: [d1; d2] ++ ["%"%char])
    with (c1 :: (t1 ++ ["."%char; d1]) ++ [d2; "%"%char])
    by (cbn [app]; rewrite <- app_assoc; reflexivity).
  rewrite strip_by_last by (auto; reflexivity).
  unfold PyFloat.parse. rewrite chars_str.
  rewrite strip_by_id by auto.
  cbn [PyFloat.sign]. rewrite Hm1, Hp1.
  unfold PyFloat.absfloatvalue, PyFloat.is_word.
  cbn [map PyStr.str string_of_list_ascii String.eqb]. rewrite Hl1, Hi1, Hn1.
  cbn [andb orb].
  replace (c1 :: (t1 ++ ["."%char; d1]) ++ [d2])
    with ((c1 :: t1) ++ "."%char :: [d1; d2])
    by (cbn [app]; rewrite <- app_assoc; reflexivity).
  unfold PyFloat.number, PyFloat.digitpart at 1.
  cbn [app]. rewrite Hc1.
  change (c1 :: t1 ++ "."%char :: [d1; d2])
    with ((c1 :: t1) ++ "."%char :: [d1; d2]).
  rewrite digitpart_tail_digits by eauto.
  cbn [Ascii.eqb Bool.eqb]. unfold PyFloat.digitpart. rewrite Hd1.
  assert (Hdp : PyFloat.digitpart_tail [d1; d2] = ([d1; d2], [])).
  { apply (digitpart_tail_digits [d1; d2] []); [repeat constructor; auto | now left]. }
  rewrite Hdp. cbn [PyFloat.exponent length]. reflexivity.
Qed.

(** ** The first match of the percentage pattern *)

Lemma search_from_here (r : Re.re) (before s : list ascii) (m : Re.match_obj) :
  Re.match_here r before s = Some m -> Re.search_from r before s = Some m.
Proof.
  intros H. destruct s; cbn [Re.search_from]; now rewrite H.
Qed.

Lemma search_from_skip (r : Re.re) (before s : list ascii) (c : ascii) :
  Re.match_here r before (c :: s) = None ->
  Re.search_from r before (c :: s) = Re.search_from r (c :: before) s.
Proof.
  intros H. cbn [Re.search_from]. now rewrite H.
Qed.

(** A greedy repetition takes a whole run of its class when the run ends at
    the upper bound or before a character that is not of the class. *)
Lemma many_greedy (R : Type) (p : ascii -> bool) (k : Re.cont R)
    (ds s' : list ascii) :
  forall lo h before caps x,
    Forall (fun c => p c = true) ds ->
    lo <= length ds <= h ->
    (length ds = h \/ match s' with [] => True | c :: _ => p c = false end) ->
    k (rev ds ++ before) s' caps = Some x ->
    Re.many p lo (Some h) before (ds ++ s') caps k = Some x.
Proof.
  induction ds as [|a ds IH]; intros lo h before caps x Hds Hlen Hend Hk.
  - cbn [length] in Hlen. assert (lo = 0) by lia. subst lo.
    cbn [app rev] in *. destruct s' as [|c rest]; cbn [Re.many]; [exact Hk|].
    destruct h as [|h]; [exact Hk|].
    destruct Hend as [Hl | Hc]; [cbn in Hl; lia|]. rewrite Hc. exact Hk.
  - inversion Hds as [|? ? Ha Hrest]; subst.
    cbn [length] in Hlen. destruct h as [|h]; [lia|].
    cbn [app Re.many]. rewrite Ha.
    rewrite (IH (pred lo) h (a :: before) caps x); [reflexivity | exact Hrest | lia | |].
    + destruct Hend as [Hl | Hc]; [left; cbn [length] in Hl; lia | now right].
    + cbn [rev] in Hk. rewrite <- app_assoc in Hk. exact Hk.
Qed.

Lemma behind_digit (a : ascii) (before : list ascii) :
  PyStr.isdigit a = true ->
  existsb (fun lit => PyStr.starts_with (rev (PyStr.chars lit)) (a :: before))
    ["-"; "+"; "("] = false.
Proof.
  destruct a as [[] [] [] [] [] [] [] []]; intros H; try discriminate H;
    reflexivity.
Qed.

Lemma behind_sign (b : ascii) (before : list ascii) :
  sign_or_paren b ->
  existsb (fun lit => PyStr.starts_with (rev (PyStr.chars lit)) (b :: before))
    ["-"; "+"; "("] = true.
Proof.
  intros [-> | [-> | ->]]; reflexivity.
Qed.

(** The pattern matches a percentage where it stands, unless a sign or a
    parenthesis stands before it. *)
Lemma perc_match_at (before ds : list ascii) (d1 d2 : ascii) (rest : list ascii) :
  existsb (fun lit => PyStr.starts_with (rev (PyStr.chars lit)) before)
    ["-"; "+"; "("] = false ->
  Forall (fun c => PyStr.isdigit c = true) ds ->
  1 <= length ds <= 3 ->
  PyStr.isdigit d1 = true -> PyStr.isdigit d2 = true ->
  Re.match_here _RE_PERC before (ds ++ "."%char :: d1 :: d2 :: "%"%char :: rest)
  = Some {| Re.m_start := length before;
            Re.m_text := percentage ds d1 d2;
            Re.m_groups := [] |}.
Proof.
  intros Hb Hds Hlen Hd1 Hd2.
  unfold Re.match_here, _RE_PERC. cbn [Re.seq Re.run]. rewrite Hb.
  apply many_greedy; [exact Hds | lia | right; reflexivity |].
  unfold Re.lit_char at 1. cbn [Re.run].
  change (PyStr.is_char "." ".") with true. cbv iota.
  apply (many_greedy _ PyStr.isdigit _ [d1; d2] ("%"%char :: rest));
    [repeat constructor; assumption | cbn; lia | left; reflexivity |].
  unfold Re.lit_char. cbn [Re.run].
  change (PyStr.is_char "%" "%") with true. cbv iota.
  replace ("%"%char :: rev [d1; d2] ++ "."%char :: rev ds ++ before)
    with (rev (ds ++ "."%char :: [d1; d2] ++ ["%"%char]) ++ before)
    by (rewrite rev_app_distr; cbn [rev app]; reflexivity).
  rewrite consumed_text. reflexivity.
Qed.

Lemma perc_not_digit (before s : list ascii) (c : ascii) :
  PyStr.isdigit c = false ->
  Re.match_here _RE_PERC before (c :: s) = None.
Proof.
  intros H. unfold Re.match_here, _RE_PERC. cbn [Re.seq Re.run].
  destruct (existsb _ _); [reflexivity|].
  cbn [Re.many]. rewrite H. reflexivity.
Qed.

Lemma perc_behind_sign (b : ascii) (before s : list ascii) :
  sign_or_paren b ->
  Re.match_here _RE_PERC (b :: before) s = None.
Proof.
  intros H. unfold Re.match_here, _RE_PERC. cbn [Re.seq Re.run].
  now rewrite behind_sign.
Qed.

Lemma isdigit_In (c : ascii) : PyStr.isdigit c = true -> In c digit_chars.
Proof.
  destruct c as [[] [] [] [] [] [] [] []]; intros H; try discriminate H;
    cbn; tauto.
Qed.

Lemma short_annotations : short_annotations_unmatched = true.
Proof.
  vm_compute. reflexivity.
Qed.

(** C4, as the claim states it, fails: the look-behind guards the first
    digit of a match only.  In "(+10.12%)" the pattern finds "0.12%", so a
    cell that holds nothing but this annotation gets the value 0.12, and
    in "+12.34%" it finds "2.34%". *)
Lemma annotation_extracted :
  Re.search _RE_PERC "(+10.12%)"
    = Some {| Re.m_start := 3; Re.m_text := "0.12%"; Re.m_groups := [] |}
  /\ perc_value "(+10.12%)" = Ok (PyFinite false 12 (-2))
  /\ Re.search _RE_PERC "+12.34%"
     = Some {| Re.m_start := 2; Re.m_text := "2.34%"; Re.m_groups := [] |}
  /\ Re.search _RE_PERC "(45.23%"
     = Some {| Re.m_start := 2; Re.m_text := "5.23%"; Re.m_groups := [] |}
  /\ modern_parser
       {| capsules := [];
          cat_tree := [["Windows 10"; ""; "(+10.12%)"]];
          cat_title := [Some "OS Version"] |}
     = Ok [("OS Version", [("Windows 10", PyFinite false 12 (-2))])].
Proof.
  repeat split; reflexivity.
Qed.

(** C4, amended: the pattern matches "45.23%", and a cell that begins with
    a percentage (one to three digits, a point, two digits, a percent sign)
    gives that percentage as the first match and as the value, whatever
    follows it, so "45.23% (+0.12%)" gives "45.23%".  No match starts right
    after a minus sign, a plus sign or an opening parenthesis: an
    annotation with one digit before the point, such as "(+0.12%)", has no
    match.  But an annotation with two or three digits before the point is
    matched from its second digit on, and that is then the value of a cell
    that holds the annotation alone. *)
Theorem perc_pattern_first_match :
  Re.search _RE_PERC "45.23%"
    = Some {| Re.m_start := 0; Re.m_text := "45.23%"; Re.m_groups := [] |}
  /\ option_map Re.m_text (Re.search _RE_PERC "45.23% (+0.12%)") = Some "45.23%"
  /\ (forall (ds : list ascii) (d1 d2 : ascii) (rest : string),
        Forall (fun c => PyStr.isdigit c = true) ds ->
        1 <= length ds <= 3 ->
        PyStr.isdigit d1 = true -> PyStr.isdigit d2 = true ->
        Re.search _RE_PERC (percentage ds d1 d2 ++ rest)
          = Some {| Re.m_start := 0; Re.m_text := percentage ds d1 d2;
                    Re.m_groups := [] |}
        /\ perc_value (percentage ds d1 d2 ++ rest)
           = Ok (PyFinite false (PyStr.int_of_digits (ds ++ [d1; d2])) (-2)))
  /\ (forall (s : string) (m : Re.match_obj),
        Re.search _RE_PERC s = Some m ->
        exists pre rest,
          PyStr.chars s = pre ++ PyStr.chars (Re.m_text m) ++ rest
          /\ length pre = Re.m_start m
          /\ forall pre' c, pre = pre' ++ [c] -> ~ sign_or_paren c)
  /\ (forall sign d d1 d2 : ascii,
        sign = "+"%char \/ sign = "-"%char ->
        PyStr.isdigit d = true ->
        PyStr.isdigit d1 = true -> PyStr.isdigit d2 = true ->
        Re.search _RE_PERC (annotation sign [d] d1 d2) = None
        /\ perc_value (annotation sign [d] d1 d2) = Raise AttributeError)
  /\ (forall (sign d : ascii) (ds : list ascii) (d1 d2 : ascii),
        sign = "+"%char \/ sign = "-"%char ->
        PyStr.isdigit d = true ->
        Forall (fun c => PyStr.isdigit c = true) ds ->
        1 <= length ds <= 2 ->
        PyStr.isdigit d1 = true -> PyStr.isdigit d2 = true ->
        Re.search _RE_PERC (annotation sign (d :: ds) d1 d2)
          = Some {| Re.m_start := 3; Re.m_text := percentage ds d1 d2;
                    Re.m_groups := [] |}
        /\ perc_value (annotation sign (d :: ds) d1 d2)
           = Ok (PyFinite false (PyStr.int_of_digits (ds ++ [d1; d2])) (-2))).
Proof.
  split; [reflexivity|]. split; [reflexivity|]. split; [|split; [|split]].
  - intros ds d1 d2 rest Hds Hlen Hd1 Hd2.
    assert (Hs : Re.search _RE_PERC (percentage ds d1 d2 ++ rest)
                 = Some {| Re.m_start := 0; Re.m_text := percentage ds d1 d2;
                           Re.m_groups := [] |}).
    { unfold Re.search, percentage. rewrite chars_append, chars_str.
      rewrite <- app_assoc. cbn [app].
      apply search_from_here.
      apply (perc_match_at [] ds d1 d2 (PyStr.chars rest));
        [reflexivity | assumption..]. }
    split; [exact Hs|].
    unfold perc_value. rewrite Hs. cbn [Re.m_text].
    apply (float_of_match ds d1 d2 Hds (proj1 Hlen) Hd1 Hd2).
  - intros s m H. unfold Re.search in H.
    destruct (search_from_found _ _ _ _ H) as (pre & post & Hs & Hm).
    destruct (match_here_inv _ _ _ _ Hm) as [Hstart [rest Hpost]].
    apply perc_look_behind in Hm.
    exists pre, rest. split; [now rewrite Hs, Hpost|].
    split; [now rewrite Hstart, length_app, length_rev, Nat.add_0_r|].
    intros pre' c ->. rewrite app_nil_r, rev_app_distr in Hm.
    cbn [rev app] in Hm.
    intros Hc. now rewrite (behind_sign c (rev pre') Hc) in Hm.
  - intros sign d d1 d2 Hsign Hd Hd1 Hd2.
    assert (Hs : Re.search _RE_PERC (annotation sign [d] d1 d2) = None).
    { pose proof short_annotations as Hall. unfold short_annotations_unmatched in Hall.
      rewrite forallb_forall in Hall.
      assert (Hin : In sign ["+"%char; "-"%char])
        by (destruct Hsign as [-> | ->]; cbn; tauto).
      specialize (Hall sign Hin). rewrite forallb_forall in Hall.
      specialize (Hall d (isdigit_In d Hd)). rewrite forallb_forall in Hall.
      specialize (Hall d1 (isdigit_In d1 Hd1)). rewrite forallb_forall in Hall.
      specialize (Hall d2 (isdigit_In d2 Hd2)).
      destruct (Re.search _RE_PERC (annotation sign [d] d1 d2));
        [discriminate | reflexivity]. }
    split; [exact Hs|]. unfold perc_value. now rewrite Hs.
  - intros sign d ds d1 d2 Hsign Hd Hds Hlen Hd1 Hd2.
    assert (Hs : Re.search _RE_PERC (annotation sign (d :: ds) d1 d2)
                 = Some {| Re.m_start := 3; Re.m_text := percentage ds d1 d2;
                           Re.m_groups := [] |}).
    { unfold Re.search, annotation. rewrite chars_str. cbn [app].
      rewrite search_from_skip by (apply perc_not_digit; reflexivity).
      rewrite search_from_skip
        by (apply perc_not_digit; destruct Hsign as [-> | ->]; reflexivity).
      rewrite search_from_skip
        by (apply perc_behind_sign; unfold sign_or_paren;
            destruct Hsign as [-> | ->]; tauto).
      apply search_from_here.
      apply (perc_match_at [d; sign; "("%char] ds d1 d2 [")"%char]);
        [now apply behind_digit | assumption | lia | assumption..]. }
    split; [exact Hs|].
    unfold perc_value. rewrite Hs. cbn [Re.m_text].
    apply (float_of_match ds d1 d2 Hds (proj1 Hlen) Hd1 Hd2).
Qed.

Lemma perc_pattern_first_match_witness :
  (Re.search _RE_PERC (percentage ["4"; "5"]%char "2" "3" ++ " (+0.12%)")
     = Some {| Re.m_start := 0; Re.m_text := percentage ["4"; "5"]%char "2" "3";
               Re.m_groups := [] |}
   /\ perc_value (percentage ["4"; "5"]%char "2" "3" ++ " (+0.12%)")
      = Ok (PyFinite false (PyStr.int_of_digits ["4"; "5"; "2"; "3"]%char) (-2)))
  /\ (exists pre rest,
        PyStr.chars "(-1.05%) 45.23%" = pre ++ PyStr.chars "45.23%" ++ rest
        /\ length pre = 9
        /\ forall pre' c, pre = pre' ++ [c] -> ~ sign_or_paren c)
  /\ (Re.search _RE_PERC (annotation "+" ["0"]%char "1" "2") = None
      /\ perc_value (annotation "+" ["0"]%char "1" "2") = Raise AttributeError)
  /\ (Re.search _RE_PERC (annotation "+" ["1"; "0"]%char "1" "2")
        = Some {| Re.m_start := 3; Re.m_text := percentage ["0"]%char "1" "2";
                  Re.m_groups := [] |}
      /\ perc_value (annotation "+" ["1"; "0"]%char "1" "2")
         = Ok (PyFinite false (PyStr.int_of_digits ["0"; "1"; "2"]%char) (-2))).
Proof.
  pose proof perc_pattern_first_match as (_ & _ & Hfirst & Hbehind & Hshort & Hlong).
  split; [|split; [|split]].
  - apply (Hfirst ["4"; "5"]%char "2"%char "3"%char " (+0.12%)");
      [repeat constructor | cbn; lia | reflexivity | reflexivity].
  - exact (Hbehind "(-1.05%) 45.23%"
             {| Re.m_start := 9; Re.m_text := "45.23%"; Re.m_groups := [] |}
             eq_refl).
  - apply (Hshort "+"%char "0"%char "1"%char "2"%char);
      [now left | reflexivity | reflexivity | reflexivity].
  - apply (Hlong "+"%char "1"%char ["0"%char] "1"%char "2"%char);
      [now left | reflexivity | repeat constructor | cbn; lia
      | reflexivity | reflexivity].
Defined.

(** X17: a value of the modern layout is a percentage as the pattern finds
    it - never negative, never [inf] or [nan], with two decimals and below
    1000 - and [float] never refuses a text that the pattern matched: the
    only way a cell fails is to hold no match, which raises
    [AttributeError]. *)
Theorem perc_value_range :
  forall right_text : string,
    (forall value, perc_value right_text = Ok value ->
       exists n : N, value = PyFinite false n (-2) /\ (n <= 99999)%N)
    /\ (forall e, perc_value right_text = Raise e ->
          e = AttributeError /\ Re.search _RE_PERC right_text = None).
Proof.
  intros right_text. unfold perc_value.
  destruct (Re.search _RE_PERC right_text) as [m|] eqn:Hs.
  - unfold Re.search in Hs.
    destruct (search_from_found _ _ _ _ Hs) as (pre & post & _ & Hm).
    destruct (perc_match_shape _ _ _ Hm) as (ds1 & d1 & d2 & -> & Hds1 & Hlen & Hd1 & Hd2).
    rewrite (float_of_match ds1 d1 d2 Hds1 (proj1 Hlen) Hd1 Hd2).
    split; [|discriminate].
    intros value [= <-]. eexists. split; [reflexivity|].
    assert (Hall : Forall (fun c => PyStr.isdigit c = true) (ds1 ++ [d1; d2])).
    { apply Forall_app. split; [exact Hds1 | repeat constructor; auto]. }
    apply int_of_digits_lt in Hall. rewrite length_app in Hall. cbn [length] in Hall.
    assert (Hpow : (10 ^ N.of_nat (length ds1 + 2) <= 10 ^ 5)%N).
    { apply N.pow_le_mono_r; lia. }
    change (10 ^ 5)%N with 100000%N in Hpow. lia.
  - split; [discriminate|]. intros e [= <-]. auto.
Qed.

Lemma perc_value_range_witness :
  exists n : N, PyFinite false 4523 (-2) = PyFinite false n (-2) /\ (n <= 99999)%N.
Proof.
  exact (proj1 (perc_value_range "45.23% (+0.12%)") (PyFinite false 4523 (-2))
           eq_refl).
Defined.

(** ** The rows of the table *)

Section Table.
Variable V : Type.
Variable T : Type.
Variable pd : pandas V T.
Variable subset : string.

Lemma keys_loop_date (item : report V) (ks : list string) :
  forall acc res,
    for_each (fun df_list cat =>
                if negb (existsb (String.eqb cat) ["date_code"])
                then df <- category_frame pd subset item cat ;; Ok (df_list ++ [df])
                else Ok df_list) ks acc = Ok res ->
    filter is_category ks = [] \/ exists d, report_date item = Some d.
Proof.
  induction ks as [|cat ks IH]; intros acc res H; cbn [for_each] in H.
  - now left.
  - cbn [filter]. unfold is_category at 1.
    destruct (negb (existsb (String.eqb cat) ["date_code"])) eqn:E.
    + right.
      destruct (category_frame pd subset item cat) as [df|] eqn:Hdf; [|discriminate].
      destruct (category_frame_ok V T pd subset item cat df Hdf) as (Hd & _).
      exact Hd.
    + cbn [bind] in H. eapply IH. exact H.
Qed.

Lemma reports_loop_dates (data : list (report V)) :
  forall acc res,
    for_each (report_frames pd subset) data acc = Ok res ->
    Forall (fun item => entries item = [] \/ exists d, report_date item = Some d)
           data.
Proof.
  induction data as [|item data IH]; intros acc res H; cbn [for_each] in H.
  - constructor.
  - destruct (report_frames pd subset acc item) as [acc'|] eqn:Hitem; [|discriminate].
    cbn [bind] in H. constructor; [|eapply IH; exact H].
    unfold report_frames in Hitem.
    destruct (PyDict.item "date_code" item); [|discriminate]. cbn [bind] in Hitem.
    apply keys_loop_date in Hitem as [Hnone | Hd]; [left | now right].
    unfold entries. now rewrite Hnone.
Qed.

Lemma rows_of_entries (item : report V) :
  read_as_text item = true ->
  entries item = [] \/ (exists d, report_date item = Some d) ->
  map (fun r => (category r, index r, perc r)) (rows_of pd subset item)
  = map (fun e => (@Text T (fst (fst e)), @Text T (snd (fst e)), snd e))
        (entries item).
Proof.
  intros Htext Hd. destruct (report_date item) as [d|] eqn:Hdate.
  - rewrite (rows_of_text V T pd subset item d Htext Hdate), map_map.
    reflexivity.
  - rewrite (rows_of_undated V T pd subset item Hdate).
    destruct Hd as [-> | [d Hd]]; [reflexivity | discriminate].
Qed.

Lemma raw_frame_dated (data : list (report V)) (raw : list (row V T)) :
  raw_frame pd subset data = Ok raw ->
  Forall (fun item => entries item = [] \/ exists d, report_date item = Some d)
         data.
Proof.
  unfold raw_frame.
  destruct (for_each (report_frames pd subset) data []) as [df_list|] eqn:Hl;
    [|discriminate].
  intros _. eapply reports_loop_dates. exact Hl.
Qed.

Lemma rows_of_In_inv (item : report V) (r : row V T) :
  In r (rows_of pd subset item) ->
  report_date item = Some (date r) /\ platform r = subset.
Proof.
  unfold rows_of. intros Hin.
  apply in_flat_map in Hin as (cat & _ & Hin). unfold cat_rows in Hin.
  destruct (PyDict.get cat item) as [[s|items]|]; try contradiction.
  destruct (report_date item) as [d|]; [|contradiction].
  apply in_map_iff in Hin as (kv & <- & _). auto.
Qed.

End Table.

Lemma strptime_valid (s : string) (fmt : list Strptime.directive) (d : datetime) :
  Strptime.strptime s fmt = Ok d -> Strptime.valid d = true.
Proof.
  unfold Strptime.strptime.
  destruct (Re.re_match _ _); [|discriminate].
  destruct (negb _); [discriminate|].
  destruct (Strptime.valid _) eqn:Hv; [|discriminate].
  now intros [= <-].
Qed.

Lemma report_date_valid (V : Type) (item : report V) (d : datetime) :
  report_date item = Some d -> Strptime.valid d = true.
Proof.
  unfold report_date.
  destruct (PyDict.get "date_code" item) as [[s|items]|]; try discriminate.
  cbn [date_of]. destruct (Strptime.strptime s Strptime.fmt_Ym) eqn:Hs;
    [|discriminate].
  intros [= <-]. now apply strptime_valid in Hs.
Qed.

(** A valid date is before 2010-06-01 when its year and month are. *)
Lemma dt_ltb_june_2010 (d : datetime) :
  Strptime.valid d = true ->
  dt_ltb d june_2010 = true <-> before_june_2010 d.
Proof.
  unfold Strptime.valid, dt_ltb, dt_fields, june_2010, before_june_2010.
  cbn [lex_ltb dt_year dt_month dt_day dt_hour dt_minute dt_second].
  intros Hv. rewrite !andb_true_iff in Hv. rewrite !N.leb_le in Hv.
  repeat (rewrite orb_true_iff || rewrite andb_true_iff).
  rewrite ?N.ltb_lt, ?N.eqb_eq.
  split; intros H.
  - destruct H as [H | [Hy H]]; [now left|]. right. split; [exact Hy|].
    destruct H as [H | [Hm H]]; [exact H|]. exfalso.
    repeat match goal with
           | H : _ \/ _ |- _ => destruct H as [H | H]
           | H : _ /\ _ |- _ => destruct H
           end; try lia; easy.
  - destruct H as [H | [Hy Hm]]; [now left | right; split; [exact Hy | now left]].
Qed.

(** X18: when [read_json] leaves the names and the labels of the reports
    as text, the table has one row for every (category, item) entry of the
    reports, in the order of the input, with the value as it is in the
    file; a row differs from its entry by the clean-up of the category
    name and of the label only.  A category without items gives no row. *)
Theorem table_rows_are_entries :
  forall (V T : Type) (pd : pandas V T)
         (fs : string -> option (list (report V))) (subset : string)
         (data : list (report V)) (out : list (row V T)),
    fs (data_path subset) = Some data ->
    Forall (fun item => read_as_text item = true) data ->
    clean_and_normalize pd fs subset = Ok out ->
    map (fun r => (category r, index r, perc r)) out
    = map (fun e => (Text (clean_category (fst (fst e))),
                     Text (clean_index (snd (fst e))), snd e))
          (flat_map (@entries V) data).
Proof.
  intros V T pd fs subset data out Hfs Htext Hout.
  destruct (clean_and_normalize_ok V T pd subset fs data out Hfs Hout) as [Hraw ->].
  apply raw_frame_dated in Hraw.
  rewrite map_map. cbn [clean_row category index perc]. clear Hfs Hout.
  induction Hraw as [|item data Hitem _ IH]; [reflexivity|].
  inversion Htext as [|? ? Hhere Hrest]; subst.
  cbn [flat_map]. rewrite !map_app, (IH Hrest). f_equal.
  change (fun x : row V T =>
            (on_text clean_category (category x), on_text clean_index (index x),
             perc x))
    with (fun x : row V T =>
            (fun c : cell T * cell T * V =>
               (on_text clean_category (fst (fst c)),
                on_text clean_index (snd (fst c)), snd c))
              (category x, index x, perc x)).
  rewrite <- (map_map (fun r : row V T => (category r, index r, perc r))).
  rewrite (rows_of_entries V T pd subset item Hhere Hitem), map_map.
  reflexivity.
Qed.

Lemma table_rows_are_entries_witness :
  map (fun r => (category r, index r, perc r))
      [ram_row "< 1 GB" v12_5; ram_row "1 GB" v40_0]
  = map (fun e => (Text (clean_category (fst (fst e))),
                   Text (clean_index (snd (fst e))), snd e))
        (flat_map (@entries pyfloat) [ram_and_empty]).
Proof.
  apply (table_rows_are_entries pyfloat pyfloat sample_pandas
           (fun _ => Some [ram_and_empty]) "combined"
           [ram_and_empty] [ram_row "< 1 GB" v12_5; ram_row "1 GB" v40_0]
           eq_refl).
  - repeat constructor.
  - reflexivity.
Defined.

(** X19: every row of the table has the date of its report, a valid date,
    and its platform is the subset, except that in the combined table the
    rows of a report dated before June 2010 are labelled "pc".  This holds
    for every run that ends normally, also when the collection holds
    categories without items or labels that pandas converts. *)
Theorem table_platforms :
  forall (V T : Type) (pd : pandas V T)
         (fs : string -> option (list (report V))) (subset : string)
         (data : list (report V)) (out : list (row V T)) (r : row V T),
    fs (data_path subset) = Some data ->
    clean_and_normalize pd fs subset = Ok out ->
    In r out ->
    Strptime.valid (date r) = true
    /\ (exists item, In item data /\ report_date item = Some (date r))
    /\ (subset = "combined" /\ before_june_2010 (date r) -> platform r = "pc")
    /\ (~ (subset = "combined" /\ before_june_2010 (date r)) ->
        platform r = subset).
Proof.
  intros V T pd fs subset data out r Hfs Hout Hin.
  destruct (clean_and_normalize_ok V T pd subset fs data out Hfs Hout) as [_ ->].
  apply in_map_iff in Hin as (r0 & <- & Hin).
  apply in_flat_map in Hin as (item & Hitem & Hin).
  apply rows_of_In_inv in Hin as [Hd Hp].
  pose proof (report_date_valid V item _ Hd) as Hv.
  cbn [clean_row date platform]. split; [exact Hv|]. split; [eauto|].
  pose proof (dt_ltb_june_2010 (date r0) Hv) as Hlt.
  destruct (String.eqb_spec subset "combined") as [Hs|Hs];
    destruct (dt_ltb (date r0) june_2010) eqn:Hb; cbn [andb];
    (split; [intros [Hc Hb'] | intros Hn]).
  - reflexivity.
  - exfalso. apply Hn. split; [exact Hs | now apply Hlt].
  - apply Hlt in Hb'. discriminate.
  - exact Hp.
  - contradiction.
  - exact Hp.
  - contradiction.
  - exact Hp.
Qed.

Lemma table_platforms_witness :
  Strptime.valid dec_2005 = true
  /\ (exists item, In item [ram_and_empty] /\ report_date item = Some dec_2005)
  /\ ("combined" = "combined" /\ before_june_2010 dec_2005 ->
      platform (ram_row "1 GB" v40_0) = "pc")
  /\ (~ ("combined" = "combined" /\ before_june_2010 dec_2005) ->
      platform (ram_row "1 GB" v40_0) = "combined").
Proof.
  exact (table_platforms pyfloat pyfloat sample_pandas
           (fun _ => Some [ram_and_empty]) "combined"
           [ram_and_empty] [ram_row "< 1 GB" v12_5; ram_row "1 GB" v40_0]
           (ram_row "1 GB" v40_0) eq_refl eq_refl (or_intror (or_introl eq_refl))).
Defined.

(** ** Collections the normalizer refuses *)

Lemma keys_loop_no_category (V T : Type) (pd : pandas V T) (subset : string)
    (item : report V) (ks : list string) (acc : list (list (row V T))) :
  filter is_category ks = [] ->
  for_each (fun df_list cat =>
              if negb (existsb (String.eqb cat) ["date_code"])
              then df <- category_frame pd subset item cat ;; Ok (df_list ++ [df])
              else Ok df_list) ks acc = Ok acc.
Proof.
  induction ks as [|cat ks IH]; intros Hf; [reflexivity|].
  cbn [filter] in Hf. unfold is_category at 1 in Hf. cbn [for_each].
  destruct (negb (existsb (String.eqb cat) ["date_code"])); [discriminate|].
  cbn [bind]. now apply IH.
Qed.

Lemma reports_loop_no_category (V T : Type) (pd : pandas V T) (subset : string)
    (data : list (report V)) (acc : list (list (row V T))) :
  Forall (@no_category V) data ->
  for_each (report_frames pd subset) data acc = Ok acc.
Proof.
  induction 1 as [|item data [Hdc Hnone] _ IH]; [reflexivity|].
  cbn [for_each]. unfold report_frames at 1, PyDict.item.
  unfold PyDict.mem in Hdc.
  destruct (PyDict.get "date_code" item); [|discriminate]. cbn [bind].
  rewrite keys_loop_no_category by exact Hnone. cbn [bind]. exact IH.
Qed.

(** X20: a collection in which no report has a category - the empty
    collection, or reports that hold their date code only - cannot be
    normalized: [pd.concat] gets nothing and raises [ValueError]. *)
Theorem nothing_to_concatenate :
  forall (V T : Type) (pd : pandas V T)
         (fs : string -> option (list (report V))) (subset : string)
         (data : list (report V)),
    fs (data_path subset) = Some data ->
    Forall (@no_category V) data ->
    clean_and_normalize pd fs subset = Raise ValueError.
Proof.
  intros V T pd fs subset data Hfs Hnone. unfold clean_and_normalize. rewrite Hfs.
  unfold raw_frame. rewrite reports_loop_no_category by exact Hnone.
  reflexivity.
Qed.

Lemma nothing_to_concatenate_witness :
  clean_and_normalize sample_pandas
    (fun _ => Some [ [("date_code", @JStr pyfloat "202001")] ]) "pc"
  = Raise ValueError.
Proof.
  apply (nothing_to_concatenate pyfloat pyfloat sample_pandas _ "pc"
           [ [("date_code", JStr "202001")] ] eq_refl).
  repeat constructor.
Defined.

(** X21: a report without the key ["date_code"] makes the normalizer
    raise, wherever it stands in the collection: no table is written. *)
Theorem report_without_date_code :
  forall (V T : Type) (pd : pandas V T)
         (fs : string -> option (list (report V))) (subset : string)
         (data : list (report V)) (item : report V),
    fs (data_path subset) = Some data ->
    In item data ->
    PyDict.get "date_code" item = None ->
    exists e, clean_and_normalize pd fs subset = Raise e.
Proof.
  intros V T pd fs subset data item Hfs Hin Hnone.
  unfold clean_and_normalize. rewrite Hfs. unfold raw_frame.
  assert (H : exists e, for_each (report_frames pd subset) data [] = Raise e).
  { apply for_each_raises with (x := item); [exact Hin|].
    intros acc. unfold report_frames, PyDict.item. rewrite Hnone. cbn. eauto. }
  destruct H as [e ->]. cbn. eauto.
Qed.

Lemma report_without_date_code_witness :
  exists e,
    clean_and_normalize sample_pandas
      (fun _ => Some [ram_2005; [("RAM", JObj [("1 GB", v40_0)])]]) "combined"
    = Raise e.
Proof.
  apply (report_without_date_code pyfloat pyfloat sample_pandas _ "combined"
           [ram_2005; [("RAM", JObj [("1 GB", v40_0)])]]
           [("RAM", JObj [("1 GB", v40_0)])] eq_refl).
  - right. now left.
  - reflexivity.
Defined.

(** ** From one step of the pipeline to the next *)

Lemma data_path_inj (s1 s2 : string) : data_path s1 = data_path s2 -> s1 = s2.
Proof.
  unfold data_path. intros H.
  apply append_inj_r in H. now apply append_inj_l in H.
Qed.

(** X22: [parse_data_content] and [clean_and_normalize] meet in the file
    [survey_data_{subset}.json]: after the parse of a subset has ended
    normally, the normalizer of that subset finds the file and works on the
    reports that were written, and the files of the other subsets are as
    they were. *)
Theorem parse_then_normalize :
  forall (T : Type) (pd : pandas pyfloat T)
         (subset : string) (rows : list content_row)
         (store store' : survey_files),
    parse_data_content_file subset rows store = Ok store' ->
    exists reports,
      parse_data_content rows = Ok reports
      /\ read_files store' (data_path subset) = Some reports
      /\ clean_and_normalize pd (read_files store') subset
         = (df <- raw_frame pd subset reports ;;
            _ <- to_parquet pd (map (clean_row subset) df) ;;
            Ok (map (clean_row subset) df))
      /\ forall other, other <> subset ->
           read_files store' (data_path other) = read_files store (data_path other).
Proof.
  intros T pd subset rows store store'. unfold parse_data_content_file.
  destruct (parse_data_content rows) as [reports|]; [|discriminate].
  cbn [bind]. intros [= <-]. exists reports. split; [reflexivity|].
  assert (Hread : read_files (json_dump subset reports store) (data_path subset)
                  = Some reports).
  { unfold read_files, json_dump. apply get_set_same. }
  split; [exact Hread|]. split.
  - unfold clean_and_normalize. now rewrite Hread.
  - intros other Hne. unfold read_files, json_dump. apply get_set_other.
    intros H. apply data_path_inj in H. congruence.
Qed.

Lemma parse_then_normalize_witness :
  exists reports,
    parse_data_content rows_2020 = Ok reports
    /\ read_files [(data_path "pc", [report_202001])] (data_path "pc")
       = Some reports
    /\ clean_and_normalize sample_pandas
         (read_files [(data_path "pc", [report_202001])]) "pc"
       = (df <- raw_frame sample_pandas "pc" reports ;;
          _ <- to_parquet sample_pandas (map (clean_row "pc") df) ;;
          Ok (map (clean_row "pc") df))
    /\ forall other, other <> "pc" ->
         read_files [(data_path "pc", [report_202001])] (data_path other)
         = read_files [] (data_path other).
Proof.
  exact (parse_then_normalize pyfloat sample_pandas "pc" rows_2020 []
           [(data_path "pc", [report_202001])] eq_refl).
Defined.

(** X23: [parse_current_month] writes the same file as
    [parse_data_content]: what it leaves there is what a parse of a
    registry with the one page, dated in the modern era, would leave - at
    most one report, with today's date code - and what the file held
    before is gone. *)
Theorem current_month_file :
  forall (subset today : string) (s : soup) (year month : Z)
         (store store' : survey_files),
    is_modern year month = true ->
    parse_current_month subset (Ok s) today store = Ok store' ->
    parse_data_content_file subset
      [ {| row_date_code := today; row_year := year; row_month := month;
           row_soup := s |} ] store = Ok store'
    /\ exists reports,
         read_files store' (data_path subset) = Some reports
         /\ length reports <= 1
         /\ Forall (fun item => PyDict.get "date_code" item = Some (JStr today))
                   reports.
Proof.
  intros subset today s year month store store' Hmodern.
  unfold parse_current_month, parse_data_content_file, parse_data_content.
  cbn [for_each row_year row_month row_soup row_date_code bind].
  unfold parse_page. rewrite Hmodern.
  destruct (modern_parser s) as [[|c d]|e]; cbn [bind app]; try discriminate;
    intros [= <-]; (split; [reflexivity|]); eexists;
    (split; [unfold read_files, json_dump; apply get_set_same|]);
    (split; [cbn; lia|]); repeat constructor.
  apply to_report_date_code.
Qed.

Lemma current_month_file_witness :
  parse_data_content_file "pc"
    [ {| row_date_code := "202611"; row_year := 2026; row_month := 11;
         row_soup := page_good |} ]
    [(data_path "pc", [report_202001; report_202001])]
  = Ok [(data_path "pc",
         [ [ ("System RAM", JObj [("1 GB", PyFinite false 4000 (-2));
                                  ("2 GB", PyFinite false 6000 (-2))]);
             ("date_code", JStr "202611") ] ])]
  /\ exists reports,
       read_files
         [(data_path "pc",
           [ [ ("System RAM", JObj [("1 GB", PyFinite false 4000 (-2));
                                    ("2 GB", PyFinite false 6000 (-2))]);
               ("date_code", JStr "202611") ] ])]
         (data_path "pc") = Some reports
       /\ length reports <= 1
       /\ Forall (fun item => PyDict.get "date_code" item = Some (JStr "202611"))
                 reports.
Proof.
  exact (current_month_file "pc" "202611" page_good 2026 11
           [(data_path "pc", [report_202001; report_202001])] _
           eq_refl eq_refl).
Defined.

(** ** The command line *)

(** X24: for every value that [--subset] accepts, [main] has a start year
    for each subset it goes through, and [build_metadata] then asks for the
    years 2004 to 2021 only; when the option is left out, the look-up of
    the start year raises [KeyError] before any request. *)
Theorem main_years :
  (forall arg, In arg subset_choices ->
     exists years,
       years_queried (Some arg) = Ok years
       /\ length years = length (subsets_of (Some arg))
       /\ Forall (Forall (fun year => 2004 <= year <= 2021)%N) years)
  /\ years_queried None = Raise KeyError.
Proof.
  split; [|reflexivity].
  intros arg Hin.
  assert (Hrange : forall lo, (2004 <= lo)%N ->
            Forall (fun year => 2004 <= year <= 2021)%N (range lo 2022)).
  { intros lo Hlo. apply Forall_forall. intros y Hy. apply range_In in Hy. lia. }
  assert (Hone : forall s lo,
            years_queried (Some s) = Ok [range lo 2022] ->
            length (subsets_of (Some s)) = 1 ->
            (2004 <= lo)%N ->
            exists years,
              years_queried (Some s) = Ok years
              /\ length years = length (subsets_of (Some s))
              /\ Forall (Forall (fun year => 2004 <= year <= 2021)%N) years).
  { intros s lo Hq Hl Hlo. exists [range lo 2022]. rewrite Hl.
    repeat split; auto. }
  cbn in Hin. destruct Hin as [<- | [<- | [<- | [<- | [<- | []]]]]].
  - exists [range 2004 2022; range 2010 2022; range 2010 2022; range 2014 2022].
    split; [reflexivity|]. split; [reflexivity|].
    repeat (constructor; [apply Hrange; lia|]). constructor.
  - apply (Hone "combined" 2004%N); [reflexivity | reflexivity | lia].
  - apply (Hone "pc" 2010%N); [reflexivity | reflexivity | lia].
  - apply (Hone "mac" 2010%N); [reflexivity | reflexivity | lia].
  - apply (Hone "linux" 2014%N); [reflexivity | reflexivity | lia].
Qed.

Lemma main_years_witness :
  exists years,
    years_queried (Some "all") = Ok years
    /\ length years = length (subsets_of (Some "all"))
    /\ Forall (Forall (fun year => 2004 <= year <= 2021)%N) years.
Proof.
  apply (proj1 main_years "all"). now left.
Defined.

(** ** Blocks whose cells do not fill the last group *)

Lemma list_ind3 {A : Type} (P : list A -> Prop) :
  P [] -> (forall a, P [a]) -> (forall a b, P [a; b]) ->
  (forall a b c l, P l -> P (a :: b :: c :: l)) ->
  forall l, P l.
Proof.
  intros H0 H1 H2 H3 l.
  assert (H : P l /\ (forall a, P (a :: l)) /\ (forall a b, P (a :: b :: l))).
  { induction l as [|x l (IH0 & IH1 & IH2)]; [auto|].
    split; [apply IH1|]. split; [intros a; apply IH2|].
    intros a b. apply H3. exact IH0. }
  apply H.
Qed.

Lemma list_ind4 {A : Type} (P : list A -> Prop) :
  P [] -> (forall a, P [a]) -> (forall a b, P [a; b]) ->
  (forall a b c, P [a; b; c]) ->
  (forall a b c d l, P l -> P (a :: b :: c :: d :: l)) ->
  forall l, P l.
Proof.
  intros H0 H1 H2 H3 H4 l.
  assert (H : P l /\ (forall a, P (a :: l)) /\ (forall a b, P (a :: b :: l))
              /\ (forall a b c, P (a :: b :: c :: l))).
  { induction l as [|x l (IH0 & IH1 & IH2 & IH3)]; [auto|].
    split; [apply IH1|]. split; [intros a; apply IH2|].
    split; [intros a b; apply IH3|].
    intros a b c. apply H4. exact IH0. }
  apply H.
Qed.

(** With one or two cells left over, the last group has [None] for its
    third cell. *)
Lemma grouper3_incomplete {A : Type} (l : list A) :
  length l mod 3 <> 0 ->
  exists g, In g (grouper l 3) /\ nth_error g 2 = Some None.
Proof.
  induction l as [| a | a b | a b c l IH] using list_ind3; intros H.
  - now elim H.
  - exists [Some a; None; None]. split; [now left | reflexivity].
  - exists [Some a; Some b; None]. split; [now left | reflexivity].
  - change (length (a :: b :: c :: l)) with (3 + length l) in H.
    replace (3 + length l) with (length l + 1 * 3) in H by lia.
    rewrite Nat.Div0.mod_add in H.
    destruct (IH H) as (g & Hg & Hn). exists g. split; [now right | exact Hn].
Qed.

Lemma grouper4_incomplete {A : Type} (l : list A) :
  length l mod 4 = 1 \/ length l mod 4 = 2 ->
  exists g, In g (grouper l 4) /\ nth_error g 2 = Some None.
Proof.
  induction l as [| a | a b | a b c | a b c d l IH] using list_ind4; intros H.
  - cbn in H. lia.
  - exists [Some a; None; None; None]. split; [now left | reflexivity].
  - exists [Some a; Some b; None; None]. split; [now left | reflexivity].
  - cbn in H. lia.
  - change (length (a :: b :: c :: d :: l)) with (4 + length l) in H.
    replace (4 + length l) with (length l + 1 * 4) in H by lia.
    rewrite Nat.Div0.mod_add in H.
    destruct (IH H) as (g & Hg & Hn). exists g. split; [now right | exact Hn].
Qed.

Lemma modern_group_padding (name : string) (group : list (option string))
    (data_json : data_json_t) :
  nth_error group 2 = Some None ->
  exists e, modern_group name data_json group = Raise e.
Proof.
  intros Hn. destruct group as [|l [|m [|r rest]]]; try discriminate.
  injection Hn as ->. destruct rest; [|cbn; eauto].
  unfold modern_group. destruct l as [lt|]; cbn; [|eauto].
  destruct (negb (String.eqb (PyStr.strip lt) "")); cbn; [eauto|].
  destruct m; cbn; eauto.
Qed.

Lemma old_group_padding (name : string) (group : list (option string))
    (data_json : data_json_t) :
  nth_error group 2 = Some None ->
  exists e, old_group name data_json group = Raise e.
Proof.
  intros Hn. destruct group as [|l [|m [|r rest]]]; try discriminate.
  injection Hn as ->. unfold old_group. destruct l; cbn; eauto.
Qed.

(** X25: a block whose cells do not fill its last group makes the parse
    of the page raise: in the modern layout when the number of cells is no
    multiple of 3, in the legacy layout when one or two cells are left over
    after the groups of 3, or of 4 for "RAM" with the aggregate column. *)
Theorem incomplete_group_raises :
  forall s : soup,
    (forall tree title,
       In (tree, title) (combine (cat_tree s) (cat_title s)) ->
       length tree mod 3 <> 0 ->
       exists e, modern_parser s = Raise e)
    /\ (forall agg_ram tree name cells,
          In tree (capsules s) ->
          find_b tree = Some name ->
          find_table tree = Some cells ->
          length cells mod cols (PyStr.strip name) agg_ram = 1
          \/ length cells mod cols (PyStr.strip name) agg_ram = 2 ->
          exists e, old_parser s agg_ram = Raise e).
Proof.
  intros s. split.
  - intros tree title Hin Hmod. unfold modern_parser.
    apply for_each_raises with (x := (tree, title)); [exact Hin|].
    intros data_json. unfold modern_tree.
    destruct title as [t|]; cbn [text bind]; [|eauto].
    destruct (grouper3_incomplete tree Hmod) as (g & Hg & Hn).
    apply for_each_raises with (x := g); [exact Hg|].
    intros d. now apply modern_group_padding.
  - intros agg_ram tree name cells Hin Hb Ht Hmod. unfold old_parser.
    apply for_each_raises with (x := tree); [exact Hin|].
    intros data_json. rewrite (old_tree_groups _ _ _ _ _ Hb Ht).
    assert (Hg : exists g, In g (grouper cells (cols (PyStr.strip name) agg_ram))
                           /\ nth_error g 2 = Some None).
    { unfold cols in *.
      destruct (String.eqb (PyStr.strip name) "RAM" && agg_ram).
      - now apply grouper4_incomplete.
      - apply grouper3_incomplete. lia. }
    destruct Hg as (g & Hg & Hn).
    apply for_each_raises with (x := g); [exact Hg|].
    intros d. now apply old_group_padding.
Qed.

Lemma incomplete_group_raises_witness :
  (exists e,
     modern_parser
       {| capsules := [];
          cat_tree := [["1 GB"; ""; "40.00%"; "2 GB"; ""]];
          cat_title := [Some "System RAM"] |} = Raise e)
  /\ (exists e,
        old_parser
          {| capsules := [ {| find_b := Some "RAM";
                              find_table := Some ["1 GB"; ""; "40.0%"; "40.0%";
                                                  "2 GB"; ""] |} ];
             cat_tree := []; cat_title := [] |} true = Raise e).
Proof.
  split.
  - apply (proj1 (incomplete_group_raises _)
             ["1 GB"; ""; "40.00%"; "2 GB"; ""] (Some "System RAM")).
    + now left.
    + discriminate.
  - apply (proj2 (incomplete_group_raises _) true
             {| find_b := Some "RAM";
                find_table := Some ["1 GB"; ""; "40.0%"; "40.0%"; "2 GB"; ""] |}
             "RAM" ["1 GB"; ""; "40.0%"; "40.0%"; "2 GB"; ""]).
    + now left.
    + reflexivity.
    + reflexivity.
    + right. reflexivity.
Defined.

(** ** Names the clean-up leaves alone *)

Lemma sub_from_no_match (r : Re.re) (repl : list ascii) (s : list ascii) :
  forall before,
    (forall pre post b, s = pre ++ post -> Re.match_here r b post = None) ->
    Re.sub_from r repl before s 0 = s.
Proof.
  induction s as [|c s IH]; intros before Hnone; [reflexivity|].
  cbn [Re.sub_from]. rewrite (Hnone [] (c :: s) before eq_refl).
  f_equal. apply IH. intros pre post b ->. apply (Hnone (c :: pre)). reflexivity.
Qed.

Lemma category_match_paren (before s : list ascii) (m : Re.match_obj) :
  Re.match_here _RE_CATEGORY before s = Some m -> In "("%char s.
Proof.
  unfold Re.match_here, _RE_CATEGORY. cbn [Re.seq Re.run]. intros H.
  apply many_inv_class in H as (ws & s1 & -> & _ & _ & _ & H).
  unfold Re.lit_char in H. cbn [Re.run] in H.
  destruct s1 as [|c s1]; [discriminate|].
  destruct (PyStr.is_char "(" c) eqn:Hc; [|discriminate].
  apply Ascii.eqb_eq in Hc. subst c. apply in_or_app. right. now left.
Qed.

Lemma lt_match_amp (before s : list ascii) (m : Re.match_obj) :
  Re.match_here _RE_LT before s = Some m -> In "&"%char s.
Proof.
  unfold Re.match_here, _RE_LT, Re.lit_char. cbn [Re.seq Re.run]. intros H.
  destruct s as [|c s]; [discriminate|].
  destruct (PyStr.is_char "&" c) eqn:Hc; [|discriminate].
  apply Ascii.eqb_eq in Hc. subst c. now left.
Qed.

Lemma sub_without (r : Re.re) (repl : string) (a : ascii) (s : string) :
  (forall before post m, Re.match_here r before post = Some m -> In a post) ->
  ~ In a (PyStr.chars s) ->
  Re.sub r repl s = s.
Proof.
  intros Hmatch Hnot. unfold Re.sub. rewrite sub_from_no_match.
  - apply string_of_list_ascii_of_string.
  - intros pre post b Hs.
    destruct (Re.match_here r b post) as [m|] eqn:Hm; [|reflexivity].
    exfalso. apply Hnot. fold (PyStr.chars s) in Hs. rewrite Hs.
    apply in_or_app. right. eapply Hmatch. exact Hm.
Qed.

(** X26: the clean-up leaves plain names alone: a category title without
    an opening parenthesis is changed by the rename table only (and not at
    all when it is none of the table's five names), and an item label
    without an ampersand is not changed. *)
Theorem plain_names_unchanged :
  forall name : string,
    (~ In "("%char (PyStr.chars name) ->
     clean_category name = replace_value cat_rename name
     /\ (~ In name (PyDict.keys cat_rename) -> clean_category name = name))
    /\ (~ In "&"%char (PyStr.chars name) -> clean_index name = name).
Proof.
  intros name. split.
  - intros Hp. unfold clean_category.
    rewrite (sub_without _RE_CATEGORY "" "("%char name category_match_paren Hp).
    split; [reflexivity|].
    intros Hk. unfold replace_value.
    destruct (PyDict.get name cat_rename) as [v|] eqn:Hg; [|reflexivity].
    exfalso. apply Hk. eapply get_In_keys. exact Hg.
  - intros Ha. unfold clean_index.
    exact (sub_without _RE_LT "<" "&"%char name lt_match_amp Ha).
Qed.

Lemma plain_names_unchanged_witness :
  clean_category "Video Card Description" = "Video Card Description"
  /\ clean_index "1 GB" = "1 GB".
Proof.
  split.
  - apply (proj1 (plain_names_unchanged "Video Card Description")).
    + cbn. intuition discriminate.
    + cbn. intuition discriminate.
  - apply (proj2 (plain_names_unchanged "1 GB")).
    cbn. intuition discriminate.
Defined.
